(** * Contract drafting front end: store, workflow handlers, section editor
      and DOCX export

    A shallow embedding of the client-side logic of the contract drafting
    application:

    - [ChatContext.jsx]: the React provider holding the conversation store,
      with [handleSend], [handleDraftChat], [handleNewChat] and the effect
      that seeds the draft registry with a placeholder per section;
    - [utils/app.js]: [chatWithDraftAgent], the single network call;
    - [ContractSectionsDisplay.jsx]: the section editor ([deleteSection],
      [updateSection], [deleteSubsection], [updateSubsection]);
    - [DraftSection.jsx] and [FileUploadSection.jsx]: [generateDraftsDocx],
      the Download button and [handleDownloadContract]; the text area and
      the accordion of the draft panel; [handleContentFileChange] and the
      answers of [handleSubmitMissingData];
    - [ProgressIndicator.jsx]: [getStepStatus];
    - the catalog: [generateFullDraft].

    A run of the application is a list of actions performed from the
    initial store.

    Handlers are written in a small writer/exception monad: the log records
    every state-setter call, network request, alert and download in program
    order, and the result says whether an exception left the handler. *)

From stdpp Require Import base list strings pretty gmap.
From Stdlib Require Import Ascii String NArith Lia.

Local Open Scope string_scope.
Local Open Scope list_scope.

(** ** JavaScript strings

    Strings are sequences of code units; the embedding covers code units
    below 256, one [ascii] each. *)

Module Js.

(** White space and line terminators recognised by [String.prototype.trim]
    and by the regular-expression class [\s], among code units below 256:
    TAB, LF, VT, FF, CR, SPACE and NBSP. *)
Definition is_ws (c : ascii) : bool :=
  let n := N_of_ascii c in
  ((9 <=? n) && (n <=? 13) || (n =? 32) || (n =? 160))%N.

Definition is_nl (c : ascii) : bool := (N_of_ascii c =? 10)%N.

Definition is_empty (s : string) : bool :=
  match s with EmptyString => true | String _ _ => false end.

(** Truthiness of a string: only the empty string is falsy. *)
Definition truthy (s : string) : bool := negb (is_empty s).

Fixpoint trim_start (s : string) : string :=
  match s with
  | EmptyString => EmptyString
  | String c r => if is_ws c then trim_start r else s
  end.

Fixpoint trim_end (s : string) : string :=
  match s with
  | EmptyString => EmptyString
  | String c r =>
      let r' := trim_end r in
      if is_ws c && is_empty r' then EmptyString else String c r'
  end.

(** [s.trim()] *)
Definition trim (s : string) : string := trim_end (trim_start s).

Fixpoint all_ws (s : string) : bool :=
  match s with
  | EmptyString => true
  | String c r => is_ws c && all_ws r
  end.

(** [s.startsWith(p)] *)
Fixpoint startsWith (p s : string) : bool :=
  match p, s with
  | EmptyString, _ => true
  | String _ _, EmptyString => false
  | String a p', String b s' => Ascii.eqb a b && startsWith p' s'
  end.

(** [s.slice(n)] for a non-negative [n] *)
Fixpoint slice (n : nat) (s : string) : string :=
  match n, s with
  | O, _ => s
  | S _, EmptyString => EmptyString
  | S n', String _ r => slice n' r
  end.

(** [s.includes(sub)] *)
Fixpoint includes (sub s : string) : bool :=
  startsWith sub s ||
  match s with
  | EmptyString => false
  | String _ r => includes sub r
  end.

(** [s.split('\n')]: split at every single line feed. *)
Fixpoint split_lines (s : string) : list string :=
  match s with
  | EmptyString => [EmptyString]
  | String c r =>
      if is_nl c then EmptyString :: split_lines r
      else match split_lines r with
           | x :: xs => String c x :: xs
           | [] => [String c EmptyString]
           end
  end.

(** [s.split(/\n+/)]: split at every maximal run of line feeds.
    [in_sep] says that the previous code unit was a line feed. *)
Fixpoint split_nl_runs (in_sep : bool) (s : string) : list string :=
  match s with
  | EmptyString => [EmptyString]
  | String c r =>
      if is_nl c then
        if in_sep then split_nl_runs true r
        else EmptyString :: split_nl_runs true r
      else match split_nl_runs false r with
           | x :: xs => String c x :: xs
           | [] => [String c EmptyString]
           end
  end.

(** [s.split(/\n+/).filter(Boolean)] *)
Definition chunks (s : string) : list string :=
  List.filter truthy (split_nl_runs false s).

Definition is_alnum (c : ascii) : bool :=
  let n := N_of_ascii c in
  ((48 <=? n) && (n <=? 57) || (65 <=? n) && (n <=? 90)
   || (97 <=? n) && (n <=? 122))%N.

(** [s.replace(/[^a-zA-Z0-9\s]/g, '')] *)
Fixpoint strip_unsafe (s : string) : string :=
  match s with
  | EmptyString => EmptyString
  | String c r =>
      if is_alnum c || is_ws c then String c (strip_unsafe r)
      else strip_unsafe r
  end.

(** [s.replace(/\s+/g, '_')]; [in_ws] says that the previous code unit
    belonged to a run that has already been replaced. *)
Fixpoint underscore_ws (in_ws : bool) (s : string) : string :=
  match s with
  | EmptyString => EmptyString
  | String c r =>
      if is_ws c then
        if in_ws then underscore_ws true r
        else String "_" (underscore_ws true r)
      else String c (underscore_ws false r)
  end.

(** A value that is a string or [undefined]. *)
Definition value := option string.

(** Truthiness of such a value: [undefined] and [""] are falsy. *)
Definition truthy_value (v : value) : bool :=
  match v with Some s => truthy s | None => false end.

(** [a || b] on such values, with a string on the right. *)
Definition or_else (v : value) (d : string) : string :=
  match v with
  | Some s => if truthy s then s else d
  | None => d
  end.

(** Interpolation in a template literal and conversion to a property
    key: [undefined] prints as the nine letters of its name. *)
Definition to_string (v : value) : string :=
  match v with Some s => s | None => "undefined" end.

(** *** Objects used as maps

    An object is kept as the list of its own properties in the order in
    which [Object.entries] enumerates them: properties whose key is an
    array index first, in ascending numeric order, then the other keys in
    insertion order. *)

Definition obj (V : Type) := list (string * V).

Definition is_digit (c : ascii) : bool :=
  let n := N_of_ascii c in ((48 <=? n) && (n <=? 57))%N.

Fixpoint digits_value (acc : N) (s : string) : option N :=
  match s with
  | EmptyString => Some acc
  | String c r =>
      if is_digit c
      then digits_value (acc * 10 + (N_of_ascii c - 48))%N r
      else None
  end.

(** The array index a key denotes, if it is the canonical decimal form of
    an integer below [2^32 - 1]. *)
Definition array_index (k : string) : option N :=
  match k with
  | EmptyString => None
  | String c r =>
      if Ascii.eqb c "0" then (if is_empty r then Some 0%N else None)
      else match digits_value 0 k with
           | Some n => if (n <? 4294967295)%N then Some n else None
           | None => None
           end
  end.

Section Obj.
Context {V : Type}.

(** [o[k]] for an own property; [None] when [k] is not a key of [o]. *)
Fixpoint get (k : string) (o : obj V) : option V :=
  match o with
  | [] => None
  | (k', v) :: r => if String.eqb k k' then Some v else get k r
  end.

Fixpoint replace (k : string) (v : V) (o : obj V) : obj V :=
  match o with
  | [] => []
  | (k', v') :: r =>
      if String.eqb k k' then (k', v) :: r else (k', v') :: replace k v r
  end.

(** Position of a new array-index key [n]: after the index keys below
    it, before everything else. *)
Fixpoint insert_index (n : N) (k : string) (v : V) (o : obj V) : obj V :=
  match o with
  | [] => [(k, v)]
  | (k', v') :: r =>
      match array_index k' with
      | Some m =>
          if (m <? n)%N then (k', v') :: insert_index n k v r
          else (k, v) :: o
      | None => (k, v) :: o
      end
  end.

(** [{...o, [k]: v}] (and [o[k] = v] on a fresh copy). *)
Definition set (k : string) (v : V) (o : obj V) : obj V :=
  match get k o with
  | Some _ => replace k v o
  | None =>
      match array_index k with
      | Some n => insert_index n k v o
      | None => o ++ [(k, v)]
      end
  end.

(** [Object.keys(o)] *)
Definition keys (o : obj V) : list string := List.map fst o.
End Obj.

End Js.

(** ** Data model *)

Inductive Role := user | assistant.

(** A conversation turn; [content], [reason], [section] and [subsection]
    hold whatever the handler stored, which may be [undefined]. *)
Record Turn := {
  role : Role;
  content : Js.value;
  reason : Js.value;
  section : Js.value;
  subsection : Js.value
}.

Record Subsection := {
  subsection_heading : string;
  subsection_definition : string
}.

Record ContractSection := {
  section_heading : string;
  section_purpose : string;
  subsections : list Subsection
}.

Record UserContext := {
  user_id : string;
  department : string;
  user_role : string;
  location : string;
  language : string
}.

(** The draft registry: section heading to draft text. *)
Definition Drafts := Js.obj Js.value.

(** The state held by [ChatProvider]; [initialChatStep] is the workflow
    stage, one of ["idea-submission"], ["question-response"],
    ["structure-review"] and ["done"]. *)
Record Store := {
  messages : list Turn;
  draftMessages : list Turn;
  drafts : Drafts;
  input : string;
  initialChatStep : string;
  contractSections : list ContractSection;
  session_id : Js.value;
  titles : list string;
  selectedTitle : Js.value;
  rephrasedIdea : Js.value;
  activeSection : Js.value;
  isReviewedSectionDraftActive : bool;
  isDraftingComplete : bool;
  userContext : option UserContext;
  loading : bool
}.

(** The [useState] initial values. *)
Definition initial_store : Store := {|
  messages := [];
  draftMessages := [];
  drafts := [];
  input := "";
  initialChatStep := "idea-submission";
  contractSections := [];
  session_id := Some "";
  titles := [];
  selectedTitle := Some "";
  rephrasedIdea := Some "";
  activeSection := Some "";
  isReviewedSectionDraftActive := false;
  isDraftingComplete := false;
  userContext := None;
  loading := false
|}.

Record IdeaStructuring := {
  idea : Js.value;
  title : Js.value;
  all_sections : list ContractSection;
  user_context : option UserContext
}.

(** The JSON body of [POST /chat]. *)
Record ChatRequest := {
  rq_session_id : Js.value;
  rq_query : string;
  rq_is_interrupt : bool;
  rq_idea_structuring : IdeaStructuring
}.

(** The fields the handlers read from a decoded agent reply, at the
    types the agent sends them: strings, the list of sections and the map
    of drafts. A string field that is missing reads as [undefined];
    [r_all_drafts] is [res?.final_state?.all_drafts], [None] when it is
    missing. *)
Record Response := {
  r_type : Js.value;
  r_action : Js.value;
  r_question : Js.value;
  r_reason : Js.value;
  r_section : Js.value;
  r_subsection : Js.value;
  r_draft : Js.value;
  r_session_id : Js.value;
  r_all_sections : list ContractSection;
  r_title : Js.value;
  r_idea : Js.value;
  r_all_drafts : option Drafts
}.

(** What [JSON.parse] returns: [null], or a value whose properties can be
    read. *)
Inductive Decoded :=
| DNull
| DValue (res : Response).

(** A block of the exported document: the section title run (bold, colour
    2F5496, size 32) or a body paragraph run (size 22). *)
Inductive Block :=
| Heading (text : string)
| Para (text : string).

(** ** Effects *)

Record Error := { message : string }.

(** Everything a handler does to the outside, in program order. *)
Inductive Event :=
| SetMessages (v : list Turn)
| AppendMessage (t : Turn)
| SetDraftMessages (v : list Turn)
| SetDrafts (v : Drafts)
| SetInput (v : string)
| SetInitialChatStep (v : string)
| SetContractSections (v : list ContractSection)
| SetSession_id (v : Js.value)
| SetTitles (v : list string)
| SetSelectedTitle (v : Js.value)
| SetRephrasedIdea (v : Js.value)
| SetActiveSection (v : Js.value)
| SetIsReviewedSectionDraftActive (v : bool)
| SetIsDraftingComplete (v : bool)
| SetUserContext (v : option UserContext)
| SetLoading (v : bool)
| Fetch (rq : ChatRequest)
| Alert (msg : string)
| Download (filename : string) (children : list Block).

Inductive Result (A : Type) :=
| Ok (a : A)
| Throw (e : Error).
Arguments Ok {A} a.
Arguments Throw {A} e.

(** A computation: the events it performed and how it ended. *)
Definition M (A : Type) : Type := list Event * Result A.

Definition ret {A} (a : A) : M A := ([], Ok a).

Definition throw {A} (e : Error) : M A := ([], Throw e).

Definition emit (ev : Event) : M unit := ([ev], Ok tt).

Definition bind {A B} (m : M A) (f : A -> M B) : M B :=
  match m with
  | (l, Ok a) => let (l', r) := f a in (l ++ l', r)
  | (l, Throw e) => (l, Throw e)
  end.

(** [try { m } catch (e) { h e }] *)
Definition try_catch {A} (m : M A) (h : Error -> M A) : M A :=
  match m with
  | (l, Ok a) => (l, Ok a)
  | (l, Throw e) => let (l', r) := h e in (l ++ l', r)
  end.

(** [m] followed by a [finally] block, which runs on both exits. *)
Definition finally {A} (m : M A) (f : M unit) : M A :=
  let (l, r) := m in
  match f with
  | (l', Ok _) => (l ++ l', r)
  | (l', Throw e) => (l ++ l', Throw e)
  end.

Declare Scope effect_scope.
Delimit Scope effect_scope with effect.
Notation "x <- m ;; k" := (bind m (fun x => k))
  (at level 100, m at next level, right associativity) : effect_scope.
Notation "m ;; k" := (bind m (fun _ => k))
  (at level 100, right associativity) : effect_scope.
Local Open Scope effect_scope.

(** [c && m]: run [m] when [c] holds. *)
Definition when (c : bool) (m : M unit) : M unit := if c then m else ret tt.

Definition events {A} (m : M A) : list Event := fst m.
Definition result {A} (m : M A) : Result A := snd m.

(** ** The store under a handler's events *)

(** One update function per [useState] setter. *)

Definition with_messages (v : list Turn) (st : Store) : Store :=
  {| messages := v; draftMessages := draftMessages st; drafts := drafts st;
     input := input st; initialChatStep := initialChatStep st;
     contractSections := contractSections st; session_id := session_id st;
     titles := titles st; selectedTitle := selectedTitle st;
     rephrasedIdea := rephrasedIdea st; activeSection := activeSection st;
     isReviewedSectionDraftActive := isReviewedSectionDraftActive st;
     isDraftingComplete := isDraftingComplete st;
     userContext := userContext st; loading := loading st |}.

Definition with_draftMessages (v : list Turn) (st : Store) : Store :=
  {| messages := messages st; draftMessages := v; drafts := drafts st;
     input := input st; initialChatStep := initialChatStep st;
     contractSections := contractSections st; session_id := session_id st;
     titles := titles st; selectedTitle := selectedTitle st;
     rephrasedIdea := rephrasedIdea st; activeSection := activeSection st;
     isReviewedSectionDraftActive := isReviewedSectionDraftActive st;
     isDraftingComplete := isDraftingComplete st;
     userContext := userContext st; loading := loading st |}.

Definition with_drafts (v : Drafts) (st : Store) : Store :=
  {| messages := messages st; draftMessages := draftMessages st; drafts := v;
     input := input st; initialChatStep := initialChatStep st;
     contractSections := contractSections st; session_id := session_id st;
     titles := titles st; selectedTitle := selectedTitle st;
     rephrasedIdea := rephrasedIdea st; activeSection := activeSection st;
     isReviewedSectionDraftActive := isReviewedSectionDraftActive st;
     isDraftingComplete := isDraftingComplete st;
     userContext := userContext st; loading := loading st |}.

Definition with_input (v : string) (st : Store) : Store :=
  {| messages := messages st; draftMessages := draftMessages st;
     drafts := drafts st; input := v; initialChatStep := initialChatStep st;
     contractSections := contractSections st; session_id := session_id st;
     titles := titles st; selectedTitle := selectedTitle st;
     rephrasedIdea := rephrasedIdea st; activeSection := activeSection st;
     isReviewedSectionDraftActive := isReviewedSectionDraftActive st;
     isDraftingComplete := isDraftingComplete st;
     userContext := userContext st; loading := loading st |}.

Definition with_initialChatStep (v : string) (st : Store) : Store :=
  {| messages := messages st; draftMessages := draftMessages st;
     drafts := drafts st; input := input st; initialChatStep := v;
     contractSections := contractSections st; session_id := session_id st;
     titles := titles st; selectedTitle := selectedTitle st;
     rephrasedIdea := rephrasedIdea st; activeSection := activeSection st;
     isReviewedSectionDraftActive := isReviewedSectionDraftActive st;
     isDraftingComplete := isDraftingComplete st;
     userContext := userContext st; loading := loading st |}.

Definition with_contractSections (v : list ContractSection) (st : Store) : Store :=
  {| messages := messages st; draftMessages := draftMessages st;
     drafts := drafts st; input := input st;
     initialChatStep := initialChatStep st; contractSections := v;
     session_id := session_id st; titles := titles st;
     selectedTitle := selectedTitle st; rephrasedIdea := rephrasedIdea st;
     activeSection := activeSection st;
     isReviewedSectionDraftActive := isReviewedSectionDraftActive st;
     isDraftingComplete := isDraftingComplete st;
     userContext := userContext st; loading := loading st |}.

Definition with_session_id (v : Js.value) (st : Store) : Store :=
  {| messages := messages st; draftMessages := draftMessages st;
     drafts := drafts st; input := input st;
     initialChatStep := initialChatStep st;
     contractSections := contractSections st; session_id := v;
     titles := titles st; selectedTitle := selectedTitle st;
     rephrasedIdea := rephrasedIdea st; activeSection := activeSection st;
     isReviewedSectionDraftActive := isReviewedSectionDraftActive st;
     isDraftingComplete := isDraftingComplete st;
     userContext := userContext st; loading := loading st |}.

Definition with_titles (v : list string) (st : Store) : Store :=
  {| messages := messages st; draftMessages := draftMessages st;
     drafts := drafts st; input := input st;
     initialChatStep := initialChatStep st;
     contractSections := contractSections st; session_id := session_id st;
     titles := v; selectedTitle := selectedTitle st;
     rephrasedIdea := rephrasedIdea st; activeSection := activeSection st;
     isReviewedSectionDraftActive := isReviewedSectionDraftActive st;
     isDraftingComplete := isDraftingComplete st;
     userContext := userContext st; loading := loading st |}.

Definition with_selectedTitle (v : Js.value) (st : Store) : Store :=
  {| messages := messages st; draftMessages := draftMessages st;
     drafts := drafts st; input := input st;
     initialChatStep := initialChatStep st;
     contractSections := contractSections st; session_id := session_id st;
     titles := titles st; selectedTitle := v;
     rephrasedIdea := rephrasedIdea st; activeSection := activeSection st;
     isReviewedSectionDraftActive := isReviewedSectionDraftActive st;
     isDraftingComplete := isDraftingComplete st;
     userContext := userContext st; loading := loading st |}.

Definition with_rephrasedIdea (v : Js.value) (st : Store) : Store :=
  {| messages := messages st; draftMessages := draftMessages st;
     drafts := drafts st; input := input st;
     initialChatStep := initialChatStep st;
     contractSections := contractSections st; session_id := session_id st;
     titles := titles st; selectedTitle := selectedTitle st;
     rephrasedIdea := v; activeSection := activeSection st;
     isReviewedSectionDraftActive := isReviewedSectionDraftActive st;
     isDraftingComplete := isDraftingComplete st;
     userContext := userContext st; loading := loading st |}.

Definition with_activeSection (v : Js.value) (st : Store) : Store :=
  {| messages := messages st; draftMessages := draftMessages st;
     drafts := drafts st; input := input st;
     initialChatStep := initialChatStep st;
     contractSections := contractSections st; session_id := session_id st;
     titles := titles st; selectedTitle := selectedTitle st;
     rephrasedIdea := rephrasedIdea st; activeSection := v;
     isReviewedSectionDraftActive := isReviewedSectionDraftActive st;
     isDraftingComplete := isDraftingComplete st;
     userContext := userContext st; loading := loading st |}.

Definition with_isReviewedSectionDraftActive (v : bool) (st : Store) : Store :=
  {| messages := messages st; draftMessages := draftMessages st;
     drafts := drafts st; input := input st;
     initialChatStep := initialChatStep st;
     contractSections := contractSections st; session_id := session_id st;
     titles := titles st; selectedTitle := selectedTitle st;
     rephrasedIdea := rephrasedIdea st; activeSection := activeSection st;
     isReviewedSectionDraftActive := v;
     isDraftingComplete := isDraftingComplete st;
     userContext := userContext st; loading := loading st |}.

Definition with_isDraftingComplete (v : bool) (st : Store) : Store :=
  {| messages := messages st; draftMessages := draftMessages st;
     drafts := drafts st; input := input st;
     initialChatStep := initialChatStep st;
     contractSections := contractSections st; session_id := session_id st;
     titles := titles st; selectedTitle := selectedTitle st;
     rephrasedIdea := rephrasedIdea st; activeSection := activeSection st;
     isReviewedSectionDraftActive := isReviewedSectionDraftActive st;
     isDraftingComplete := v; userContext := userContext st;
     loading := loading st |}.

Definition with_userContext (v : option UserContext) (st : Store) : Store :=
  {| messages := messages st; draftMessages := draftMessages st;
     drafts := drafts st; input := input st;
     initialChatStep := initialChatStep st;
     contractSections := contractSections st; session_id := session_id st;
     titles := titles st; selectedTitle := selectedTitle st;
     rephrasedIdea := rephrasedIdea st; activeSection := activeSection st;
     isReviewedSectionDraftActive := isReviewedSectionDraftActive st;
     isDraftingComplete := isDraftingComplete st; userContext := v;
     loading := loading st |}.

Definition with_loading (v : bool) (st : Store) : Store :=
  {| messages := messages st; draftMessages := draftMessages st;
     drafts := drafts st; input := input st;
     initialChatStep := initialChatStep st;
     contractSections := contractSections st; session_id := session_id st;
     titles := titles st; selectedTitle := selectedTitle st;
     rephrasedIdea := rephrasedIdea st; activeSection := activeSection st;
     isReviewedSectionDraftActive := isReviewedSectionDraftActive st;
     isDraftingComplete := isDraftingComplete st;
     userContext := userContext st; loading := v |}.

Definition apply_event (st : Store) (ev : Event) : Store :=
  match ev with
  | SetMessages v => with_messages v st
  | AppendMessage t => with_messages (messages st ++ [t]) st
  | SetDraftMessages v => with_draftMessages v st
  | SetDrafts v => with_drafts v st
  | SetInput v => with_input v st
  | SetInitialChatStep v => with_initialChatStep v st
  | SetContractSections v => with_contractSections v st
  | SetSession_id v => with_session_id v st
  | SetTitles v => with_titles v st
  | SetSelectedTitle v => with_selectedTitle v st
  | SetRephrasedIdea v => with_rephrasedIdea v st
  | SetActiveSection v => with_activeSection v st
  | SetIsReviewedSectionDraftActive v => with_isReviewedSectionDraftActive v st
  | SetIsDraftingComplete v => with_isDraftingComplete v st
  | SetUserContext v => with_userContext v st
  | SetLoading v => with_loading v st
  | Fetch _ | Alert _ | Download _ _ => st
  end.

Definition apply_events (st : Store) (evs : list Event) : Store :=
  fold_left apply_event evs st.

Definition sets_contractSections (ev : Event) : bool :=
  match ev with SetContractSections _ => true | _ => false end.

Definition placeholder : string :=
  "Currently we have not completed this section.".

(** The effect with dependency [contractSections]: one functional
    [setDrafts] per section, in list order. *)
Definition contractSections_effect (st : Store) : Store :=
  if (0 <? List.length (contractSections st))%nat then
    fold_left
      (fun s step =>
         with_drafts (Js.set (section_heading step) (Some placeholder) (drafts s)) s)
      (contractSections st) st
  else st.

(** The store after a handler ran from [st]: its setter calls applied in
    order, then the effect when [setContractSections] was among them. The
    value passed to [setContractSections] is a fresh array at every call
    site ([filter], a spread copy, or a decoded reply), so each call is a
    change of the dependency. The effect's updates are functional, and no
    handler that sets the section list also sets the drafts, so running
    the effect after the handler's last event gives the state React
    reaches after its renders. *)
Definition commit (st : Store) (evs : list Event) : Store :=
  let st' := apply_events st evs in
  if existsb sets_contractSections evs then contractSections_effect st'
  else st'.

(** ** [utils/app.js]: the network call *)

(** The body stream of a response, as [reader.read()] delivers it. *)
Inductive Stream :=
| StreamEnd
| StreamChunk (chunk : string) (rest : Stream)
| StreamError (e : Error).

(** How [fetch] settles: rejected (network unreachable), or resolved with
    a status and a body. A response with status 204 or 205 has no body
    stream; its [body] component is not looked at. *)
Inductive FetchOutcome :=
| FetchRejected (e : Error)
| FetchResponse (status : N) (body : Stream).

(** [response.ok]: the status is in the range 200 to 299. *)
Definition response_ok (status : N) : bool :=
  ((200 <=? status) && (status <=? 299))%N.

(** The statuses in that range for which [response.body] is [null]
    rather than a stream: 204 and 205. *)
Definition null_body_status (status : N) : bool :=
  ((status =? 204) || (status =? 205))%N.

(** The [TypeError] of [response.body.getReader()] on a [null] body. *)
Definition null_body_error : Error :=
  {| message := "Cannot read properties of null (reading 'getReader')" |}.

(** The inner [for] loop over the lines of one chunk: the first line that
    starts with ["data: "] and carries non-blank data gives the result. *)
Fixpoint first_data_event (lines : list string) : string :=
  match lines with
  | [] => ""
  | line :: rest =>
      if Js.startsWith "data: " line then
        let data := Js.slice 6 line in
        if Js.truthy (Js.trim data) then data else first_data_event rest
      else first_data_event rest
  end.

(** The [while (true)] loop over the chunks. *)
Fixpoint read_body (body : Stream) : M string :=
  match body with
  | StreamEnd => ret ""
  | StreamError e => throw e
  | StreamChunk chunk rest =>
      let result := first_data_event (Js.split_lines chunk) in
      if Js.truthy result then ret result else read_body rest
  end.

(** The part of [chatWithDraftAgent] that follows the call of [fetch]:
    the status check, the read loop and the check of the result. *)
Definition read_response (net : FetchOutcome) : M string :=
  match net with
  | FetchRejected e => throw e
  | FetchResponse status body =>
      if negb (response_ok status) then
        throw {| message := "HTTP error! status: " +:+ pretty status |}
      else if null_body_status status then throw null_body_error
      else
        result <- read_body body;;
        if negb (Js.truthy result) || Js.is_empty (Js.trim result) then
          throw {| message := "Empty response from server" |}
        else ret result
  end.

Definition chatWithDraftAgent (session_id : Js.value) (query : Js.value)
    (is_interrupt : bool) (idea_structuring : IdeaStructuring)
    (net : FetchOutcome) : M string :=
  let query := match query with Some q => q | None => "" end in
  try_catch
    (emit (Fetch {| rq_session_id := session_id; rq_query := query;
                    rq_is_interrupt := is_interrupt;
                    rq_idea_structuring := idea_structuring |});;
     read_response net)
    (fun err => throw err).

(** A transport failure: the request was rejected, or the status is
    outside 200 to 299. *)
Definition transport_failure (net : FetchOutcome) : Prop :=
  match net with
  | FetchRejected _ => True
  | FetchResponse status _ => response_ok status = false
  end.

(** ** [ChatContext.jsx]: the handlers *)

Definition nl : string := String (ascii_of_N 10) EmptyString.

(** [v === s] and [v == s] for a string-or-undefined [v] and a string
    literal [s]. *)
Definition is_str (v : Js.value) (s : string) : bool :=
  match v with Some x => String.eqb x s | None => false end.

Definition plain_turn (r : Role) (text : string) : Turn :=
  {| role := r; content := Some text; reason := None; section := None;
     subsection := None |}.

(** [drafts[key]] *)
Definition draft_at (d : Drafts) (key : Js.value) : Js.value :=
  match Js.get (Js.to_string key) d with Some v => v | None => None end.

Definition idea_structuring_of (st : Store) : IdeaStructuring :=
  {| idea := rephrasedIdea st; title := selectedTitle st;
     all_sections := contractSections st; user_context := userContext st |}.

(** The message shown for an error caught in [handleSend]. *)
Definition userErrorMessage (error : Error) : string :=
  let errorMessage :=
    if Js.truthy (message error) then message error
    else "An unexpected error occurred" in
  if Js.includes "Failed to fetch" errorMessage
     || Js.includes "Network Error" errorMessage
  then "Network connection error. Please check your internet connection and try again."
  else if Js.includes "Empty response" errorMessage
  then "The server returned an empty response. Please try again."
  else if Js.includes "HTTP error" errorMessage
  then "Server connection error. Please ensure the backend server is running."
  else "I apologize, but I encountered an error. Please try again.".

Definition draft_error_text : string :=
  "I apologize, but I encountered an error. Please try again.".

Definition completed_text : string :=
  "## **We have completed all the sections. Download the draft from draft section.**".

Definition review_changes_text : string :=
  "Please reply with the changes you want to make.".

Definition check_draft_text (activeSection : Js.value) : string :=
  "Please check the **" +:+ Js.to_string activeSection
  +:+ "** section draft." +:+ nl +:+ nl
  +:+ "If you like the draft click on the **Continue** button, or edit the draft".

(** The text handed to [JSON.parse]: the raw reply without its
    ["data: "] prefix when it has one. *)
Definition strip_event_prefix (res : string) : string :=
  if Js.startsWith "data: " res then Js.slice 6 res else res.

Section Handlers.

(** [JSON.parse]: the decoded value, or the message of the [SyntaxError]
    it throws. *)
Variable JSON_parse : string -> string + Decoded.

(** The inner [try]/[catch] around the decoding of the raw reply, with
    the streamed-event prefix removed when present. *)
Definition parse_reply (res : string) : M Decoded :=
  match JSON_parse (strip_event_prefix res) with
  | inr d => ret d
  | inl msg => throw {| message := "Failed to parse server response: " +:+ msg |}
  end.

(** Reading a property of the decoded value; [null] has none. *)
Definition fields_of (what : string) (d : Decoded) : M Response :=
  match d with
  | DValue r => ret r
  | DNull => throw {| message := what |}
  end.

Definition question_turn (r : Response) : Turn :=
  {| role := assistant; content := r_question r; reason := r_reason r;
     section := r_section r; subsection := r_subsection r |}.

Definition structure_review (r : Response) : M unit :=
  emit (SetSession_id (r_session_id r));;
  emit (SetContractSections (r_all_sections r));;
  emit (SetSelectedTitle (r_title r));;
  emit (SetRephrasedIdea (r_idea r));;
  emit (SetInitialChatStep "structure-review").

Definition handleSend (net : FetchOutcome) (st : Store) : M unit :=
  if negb (Js.truthy (Js.trim (input st))) then ret tt else
  let userMessage := plain_turn user (input st) in
  let updatedMessages := messages st ++ [userMessage] in
  emit (SetMessages updatedMessages);;
  let userInput := input st in
  emit (SetInput "");;
  finally
    (try_catch
       (emit (SetLoading true);;
        if String.eqb (initialChatStep st) "idea-submission" then
          raw <- chatWithDraftAgent (session_id st) (Some userInput) false
                   (idea_structuring_of st) net;;
          d <- parse_reply raw;;
          res <- fields_of "Cannot read properties of null (reading 'type')" d;;
          if is_str (r_type res) "interrupt" then
            if is_str (r_action res) "get_question_response" then
              emit (AppendMessage (question_turn res));;
              emit (SetInitialChatStep "question-response")
            else if is_str (r_action res) "get_structure_review" then
              structure_review res
            else ret tt
          else ret tt
        else if String.eqb (initialChatStep st) "question-response" then
          raw <- chatWithDraftAgent (session_id st) (Some userInput) true
                   (idea_structuring_of st) net;;
          d <- parse_reply raw;;
          res <- fields_of "Cannot read properties of null (reading 'type')" d;;
          if is_str (r_type res) "interrupt" then
            if is_str (r_action res) "get_question_response" then
              emit (AppendMessage (question_turn res))
            else if is_str (r_action res) "get_structure_review" then
              structure_review res
            else ret tt
          else ret tt
        else ret tt)
       (fun error =>
          emit (SetMessages
                  (updatedMessages ++ [plain_turn assistant (userErrorMessage error)]))))
    (emit (SetLoading false)).

Definition handleDraftChat (net : FetchOutcome) (st : Store) : M unit :=
  if negb (Js.truthy (Js.trim (input st)))
     && Js.truthy_value (activeSection st)
     && negb (isReviewedSectionDraftActive st)
  then ret tt else
  emit (SetLoading true);;
  let add_user :=
    Js.truthy_value (activeSection st) && negb (isReviewedSectionDraftActive st) in
  let updatedMessages :=
    if add_user then draftMessages st ++ [plain_turn user (input st)]
    else draftMessages st in
  when add_user (emit (SetDraftMessages updatedMessages));;
  let userInput :=
    if isReviewedSectionDraftActive st
    then draft_at (drafts st) (activeSection st)
    else Some (input st) in
  emit (SetInput "");;
  finally
    (try_catch
       (raw <- chatWithDraftAgent (session_id st) userInput true
                 (idea_structuring_of st) net;;
        emit (SetIsReviewedSectionDraftActive false);;
        d <- parse_reply raw;;
        res <- fields_of "Cannot destructure property 'action' of 'res' as it is null." d;;
        when (negb (is_str (r_action res) "generate_document"))
             (emit (SetActiveSection (r_section res)));;
        match (if is_str (r_action res) "generate_document"
               then r_all_drafts res else None) with
        | Some all_drafts =>
            emit (SetDrafts all_drafts);;
            emit (SetIsDraftingComplete true);;
            emit (SetDraftMessages
                    (updatedMessages ++ [plain_turn assistant completed_text]))
        | None =>
            if is_str (r_action res) "get_question_response" then
              let newDraft :=
                Js.set (Js.to_string (r_section res)) (r_draft res) (drafts st) in
              emit (SetDraftMessages
                      (updatedMessages ++
                         [{| role := assistant;
                             content := Some (Js.to_string (r_question res));
                             reason := Some (Js.to_string (r_reason res));
                             section := None; subsection := None |}]));;
              when (Js.truthy_value (r_draft res)) (emit (SetDrafts newDraft))
            else if is_str (r_action res) "get_reviewed_section_draft" then
              emit (SetIsReviewedSectionDraftActive true);;
              emit (SetDraftMessages
                      (updatedMessages ++
                         [plain_turn assistant (check_draft_text (activeSection st))]));;
              let newDraft :=
                Js.set (Js.to_string (r_section res)) (r_draft res) (drafts st) in
              emit (SetDrafts newDraft)
            else if is_str (r_action res) "get_review_changes" then
              emit (SetDraftMessages
                      (updatedMessages ++ [plain_turn assistant review_changes_text]))
            else ret tt
        end)
       (fun error =>
          emit (SetDraftMessages
                  (updatedMessages ++ [plain_turn assistant draft_error_text]))))
    (emit (SetLoading false)).

End Handlers.

Definition handleNewChat : M unit :=
  emit (SetInitialChatStep "idea-submission");;
  emit (SetContractSections []);;
  emit (SetSession_id (Some ""));;
  emit (SetTitles []);;
  emit (SetSelectedTitle (Some ""));;
  emit (SetMessages []);;
  emit (SetDraftMessages []);;
  emit (SetDrafts []);;
  emit (SetActiveSection (Some ""));;
  emit (SetInput "");;
  emit (SetLoading false);;
  emit (SetRephrasedIdea (Some ""));;
  emit (SetIsDraftingComplete false);;
  emit (SetIsReviewedSectionDraftActive false);;
  emit (SetUserContext None).

(** ** [ContractSectionsDisplay.jsx]: the section editor

    The handlers close over the store's [contractSections]. Reading a
    property of [contractSections[index]] when the index is out of range
    throws a [TypeError]. *)

Inductive SectionField := Field_section_heading | Field_section_purpose.

Inductive SubsectionField :=
| Field_subsection_heading
| Field_subsection_definition.

Definition out_of_range : Error :=
  {| message := "Cannot read properties of undefined" |}.

Definition deleteSection (index : nat) (st : Store) : M unit :=
  emit (SetContractSections (delete index (contractSections st))).

Definition set_section_field (f : SectionField) (value : string)
    (sec : ContractSection) : ContractSection :=
  match f with
  | Field_section_heading =>
      {| section_heading := value; section_purpose := section_purpose sec;
         subsections := subsections sec |}
  | Field_section_purpose =>
      {| section_heading := section_heading sec; section_purpose := value;
         subsections := subsections sec |}
  end.

Definition updateSection (index : nat) (field : SectionField) (value : string)
    (st : Store) : M unit :=
  let updatedSections := contractSections st in
  match updatedSections !! index with
  | None => throw out_of_range
  | Some sec =>
      emit (SetContractSections
              (<[index := set_section_field field value sec]> updatedSections))
  end.

Definition with_subsections (subs : list Subsection) (sec : ContractSection)
    : ContractSection :=
  {| section_heading := section_heading sec;
     section_purpose := section_purpose sec;
     subsections := subs |}.

Definition deleteSubsection (sectionIndex subsectionIndex : nat) (st : Store)
    : M unit :=
  match contractSections st !! sectionIndex with
  | None => throw out_of_range
  | Some section =>
      if (List.length (subsections section) <=? 1)%nat then
        emit (Alert "At least one subsection is required")
      else
        let updatedSections := contractSections st in
        emit (SetContractSections
                (<[sectionIndex :=
                     with_subsections
                       (delete subsectionIndex (subsections section)) section]>
                   updatedSections))
  end.

Definition set_subsection_field (f : SubsectionField) (value : string)
    (sub : Subsection) : Subsection :=
  match f with
  | Field_subsection_heading =>
      {| subsection_heading := value;
         subsection_definition := subsection_definition sub |}
  | Field_subsection_definition =>
      {| subsection_heading := subsection_heading sub;
         subsection_definition := value |}
  end.

Definition updateSubsection (sectionIndex subsectionIndex : nat)
    (field : SubsectionField) (value : string) (st : Store) : M unit :=
  match contractSections st !! sectionIndex with
  | None => throw out_of_range
  | Some section =>
      match subsections section !! subsectionIndex with
      | None => throw out_of_range
      | Some sub =>
          emit (SetContractSections
                  (<[sectionIndex :=
                       with_subsections
                         (<[subsectionIndex := set_subsection_field field value sub]>
                            (subsections section)) section]>
                     (contractSections st)))
      end
  end.

(** The "Start Drafting Contract" button. *)
Definition startDrafting : M unit := emit (SetInitialChatStep "done").

(** The store after an event handler: the events it performed before it
    returned or threw are committed. *)
Definition after (st : Store) (m : M unit) : Store := commit st (events m).

(** A run of subsection deletions, each from the store the previous one
    left. *)
Fixpoint delete_subsections (ops : list (nat * nat)) (st : Store) : Store :=
  match ops with
  | [] => st
  | (i, j) :: rest => delete_subsections rest (after st (deleteSubsection i j st))
  end.

(** ** [DraftSection.jsx], [FileUploadSection.jsx]: the DOCX export *)

(** One title block, then one paragraph block per chunk of the content.
    Calling [split] on a content that is [undefined] throws. *)
Definition createFormattedSection (title : string) (content : Js.value)
    : M (list Block) :=
  match content with
  | None => throw {| message := "Cannot read properties of undefined (reading 'split')" |}
  | Some c => ret (Heading title :: List.map Para (Js.chunks c))
  end.

(** [Object.entries(drafts).flatMap(...)] *)
Fixpoint flatMap_sections (entries : Drafts) : M (list Block) :=
  match entries with
  | [] => ret []
  | (title, content) :: rest =>
      paragraphs <- createFormattedSection title content;;
      others <- flatMap_sections rest;;
      ret (paragraphs ++ others)
  end.

Definition generateDraftsDocx (drafts : Drafts) (pocTitle : Js.value) : M unit :=
  children <- flatMap_sections drafts;;
  let docName := Js.or_else pocTitle "draft" in
  emit (Download (docName +:+ ".docx") children).

(** The Download button of the draft panel. *)
Definition downloadDrafts (st : Store) : M unit :=
  generateDraftsDocx (drafts st) (selectedTitle st).

Record FinalSection := {
  fs_heading : Js.value;
  fs_content : Js.value
}.

(** The finished contract of the upload flow; [fc_sections] is the
    [sections] property when it is an array, [fc_drafts] the [drafts]
    property when it is an object. *)
Record FinalContract := {
  fc_title : Js.value;
  fc_contract_title : Js.value;
  fc_sections : option (list FinalSection);
  fc_drafts : option Drafts
}.

Definition section_marker (heading body : string) : string :=
  "## " +:+ heading +:+ nl +:+ nl +:+ body +:+ nl +:+ nl.

Definition formattedContent_of (fc : FinalContract) : string :=
  match fc_sections fc with
  | Some secs =>
      fold_left
        (fun acc s =>
           if Js.truthy_value (fs_heading s) && Js.truthy_value (fs_content s)
           then acc +:+ section_marker (Js.to_string (fs_heading s))
                                       (Js.to_string (fs_content s))
           else acc)
        secs ""
  | None =>
      match fc_drafts fc with
      | Some d =>
          fold_left
            (fun acc kv => acc +:+ section_marker (fst kv) (Js.to_string (snd kv)))
            d ""
      | None => ""
      end
  end.

Definition contractDrafts_of (fc : FinalContract) : Drafts :=
  match fc_sections fc with
  | Some secs =>
      fold_left
        (fun o s =>
           if Js.truthy_value (fs_heading s) && Js.truthy_value (fs_content s)
           then Js.set (Js.to_string (fs_heading s)) (fs_content s) o
           else o)
        secs []
  | None =>
      match fc_drafts fc with
      | Some d => d
      | None => []
      end
  end.

(** The [filename] local of [handleDownloadContract]. *)
Definition sanitized_filename (contractTitle : string) : string :=
  Js.underscore_ws false (Js.strip_unsafe contractTitle) +:+ "_Contract.docx".

Definition no_content_text : string :=
  "No contract content found to download. Please try generating the contract again.".

Definition handleDownloadContract (finalContract : option FinalContract) : M unit :=
  match finalContract with
  | None => ret tt
  | Some fc =>
      try_catch
        (let contractTitle :=
           Js.or_else
             (if Js.truthy_value (fc_title fc) then fc_title fc
              else fc_contract_title fc)
             "Generated Contract" in
         let formattedContent := formattedContent_of fc in
         if negb (Js.truthy (Js.trim formattedContent)) then
           emit (Alert no_content_text)
         else
           let filename := sanitized_filename contractTitle in
           let contractDrafts := contractDrafts_of fc in
           generateDraftsDocx contractDrafts (Some contractTitle))
        (fun error =>
           emit (Alert ("Error downloading contract. Please try again. Error details: "
                        +:+ message error)))
  end.

Definition is_alert (ev : Event) : bool :=
  match ev with Alert _ => true | _ => false end.

Definition is_heading (b : Block) : bool :=
  match b with Heading _ => true | Para _ => false end.

(** A registry whose bodies are all strings. *)
Definition registry (entries : list (string * string)) : Drafts :=
  List.map (fun kv => (fst kv, Some (snd kv))) entries.

(** The blocks of one pair. *)
Definition section_blocks (kv : string * string) : list Block :=
  Heading (fst kv) :: List.map Para (Js.chunks (snd kv)).

(** ** Vocabulary of the statements *)

(** Bodies without a line feed, and bodies made of line feeds only. *)
Fixpoint no_line_feed (s : string) : bool :=
  match s with
  | EmptyString => true
  | String c r => negb (Js.is_nl c) && no_line_feed r
  end.

Fixpoint only_line_feeds (s : string) : bool :=
  match s with
  | EmptyString => true
  | String c r => Js.is_nl c && only_line_feeds r
  end.

(** [updatedMessages] in [handleSend]. *)
Definition updatedMessages_send (st : Store) : list Turn :=
  messages st ++ [plain_turn user (input st)].

(** [handleSend] reaches the network: the input is not blank and the
    stage is one of the two it serves. *)
Definition submits (st : Store) : bool :=
  Js.truthy (Js.trim (input st))
  && (String.eqb (initialChatStep st) "idea-submission"
      || String.eqb (initialChatStep st) "question-response").

(** The draft chat takes a submission without text in two situations:
    no section is active yet (the call made when the chat opens), or a
    reviewed draft awaits "Continue". This is the complement of the
    [activeSection && !isReviewedSectionDraftActive] part of the guard of
    [handleDraftChat]. *)
Definition permits_empty_submission (st : Store) : bool :=
  negb (Js.truthy_value (activeSection st)) || isReviewedSectionDraftActive st.

(** [handleDraftChat] goes past its guard. *)
Definition draft_submits (st : Store) : bool :=
  Js.truthy (Js.trim (input st)) || permits_empty_submission st.

(** [updatedMessages] in [handleDraftChat]. *)
Definition updatedMessages_draft (st : Store) : list Turn :=
  if Js.truthy_value (activeSection st) && negb (isReviewedSectionDraftActive st)
  then draftMessages st ++ [plain_turn user (input st)]
  else draftMessages st.

Definition is_session_assignment (ev : Event) : bool :=
  match ev with SetSession_id _ => true | _ => false end.

Definition session_assignments (evs : list Event) : nat :=
  List.length (List.filter is_session_assignment evs).

(** The request [chatWithDraftAgent] sends. *)
Definition request_of (sid q : Js.value) (i : bool) (ids : IdeaStructuring) : ChatRequest :=
  {| rq_session_id := sid; rq_query := default "" q;
     rq_is_interrupt := i; rq_idea_structuring := ids |}.

(** The request of [handleSend]: a fresh query in the idea-submission
    stage, an answer to an interrupt in the question-response stage. *)
Definition send_request (st : Store) : ChatRequest :=
  request_of (session_id st) (Some (input st))
    (negb (String.eqb (initialChatStep st) "idea-submission")) (idea_structuring_of st).

(** The request of [handleDraftChat]: the draft of the active section
    when a reviewed draft is continued, the input otherwise. *)
Definition draft_request (st : Store) : ChatRequest :=
  request_of (session_id st)
    (if isReviewedSectionDraftActive st
     then draft_at (drafts st) (activeSection st) else Some (input st))
    true (idea_structuring_of st).

(** What [handleDraftChat] does before the reply is looked at. *)
Definition draft_prelude (st : Store) : list Event :=
  [SetLoading true]
  ++ (if Js.truthy_value (activeSection st) && negb (isReviewedSectionDraftActive st)
      then [SetDraftMessages (updatedMessages_draft st)] else [])
  ++ [SetInput ""; Fetch (draft_request st)].

(** The registry after the placeholder was written under the heading of
    every step, in order. *)
Definition seed (d : Drafts) (steps : list ContractSection) : Drafts :=
  fold_left
    (fun d step => Js.set (section_heading step) (Some placeholder) d) steps d.

(** The ways the section list is replaced: the editor's handlers when
    they go through, and the arrival of a structure proposal. *)
Inductive section_change (st : Store) : M unit -> Prop :=
| change_section_field index field value sec :
    contractSections st !! index = Some sec ->
    section_change st (updateSection index field value st)
| change_delete_section index :
    section_change st (deleteSection index st)
| change_delete_subsection sectionIndex subsectionIndex sec :
    contractSections st !! sectionIndex = Some sec ->
    (2 <= List.length (subsections sec))%nat ->
    section_change st (deleteSubsection sectionIndex subsectionIndex st)
| change_subsection_field sectionIndex subsectionIndex field value sec sub :
    contractSections st !! sectionIndex = Some sec ->
    subsections sec !! subsectionIndex = Some sub ->
    section_change st
      (updateSubsection sectionIndex subsectionIndex field value st)
| change_structure_review JSON_parse net raw res :
    submits st = true ->
    result (read_response net) = Ok raw ->
    JSON_parse (strip_event_prefix raw) = inr (DValue res) ->
    r_type res = Some "interrupt" ->
    r_action res = Some "get_structure_review" ->
    section_change st (handleSend JSON_parse net st).

(** ** Runs of the application

    What can happen to the store, one action at a time (a submission is
    over before the next action starts): a submission in either chat, a
    new chat, or a call by a component of a setter it takes from the
    context. Components call [setInput], [setContractSections],
    [setDrafts], [setUserContext], [setSelectedTitle] and
    [setRephrasedIdea], and [setInitialChatStep] with ["done"] only; no
    component calls [setSession_id]. *)
Inductive Action :=
| Submit (net : FetchOutcome)
| SubmitDraft (net : FetchOutcome)
| NewChat
| Component (ev : Event).

Definition component_call (ev : Event) : bool :=
  match ev with
  | SetInput _ | SetContractSections _ | SetDrafts _ | SetUserContext _
  | SetSelectedTitle _ | SetRephrasedIdea _ => true
  | SetInitialChatStep stage => String.eqb stage "done"
  | _ => false
  end.

Definition perform (JSON_parse : string -> string + Decoded) (st : Store)
    (a : Action) : Store :=
  match a with
  | Submit net => after st (handleSend JSON_parse net st)
  | SubmitDraft net => after st (handleDraftChat JSON_parse net st)
  | NewChat => after st handleNewChat
  | Component ev => if component_call ev then commit st [ev] else st
  end.

(** The store after a run of actions from the initial store. *)
Definition run (JSON_parse : string -> string + Decoded) (actions : list Action)
    : Store :=
  fold_left (perform JSON_parse) actions initial_store.

(** The session id is set: neither the empty string nor [undefined]. *)
Definition session_set (st : Store) : bool := Js.truthy_value (session_id st).

(** A session id is set only once the stage has left the two in which
    [handleSend] submits. *)
Definition session_follows_stage (st : Store) : Prop :=
  session_set st = true ->
  initialChatStep st = "structure-review" \/ initialChatStep st = "done".

(** ** Sample data *)

Definition dq : string := String (ascii_of_N 34) EmptyString.

Definition json_string (s : string) : string := dq +:+ s +:+ dq.

Definition json_member (k v : string) : string := json_string k +:+ ":" +:+ v.

Definition json_object (members : list string) : string :=
  "{" +:+ String.concat "," members +:+ "}".

Definition json_array (items : list string) : string :=
  "[" +:+ String.concat "," items +:+ "]".

Definition sample_sections : list ContractSection :=
  [ {| section_heading := "Intro"; section_purpose := "Context";
       subsections :=
         [ {| subsection_heading := "Purpose";
              subsection_definition := "Why the contract exists" |} ] |};
    {| section_heading := "Terms"; section_purpose := "Obligations";
       subsections :=
         [ {| subsection_heading := "Duration";
              subsection_definition := "How long it runs" |};
           {| subsection_heading := "Termination";
              subsection_definition := "How it ends" |} ] |} ].

Definition json_of_subsection (s : Subsection) : string :=
  json_object
    [ json_member "subsection_heading" (json_string (subsection_heading s));
      json_member "subsection_definition" (json_string (subsection_definition s)) ].

Definition json_of_section (s : ContractSection) : string :=
  json_object
    [ json_member "section_heading" (json_string (section_heading s));
      json_member "section_purpose" (json_string (section_purpose s));
      json_member "subsections"
        (json_array (List.map json_of_subsection (subsections s))) ].

Definition sample_question_json : string :=
  json_object
    [ json_member "type" (json_string "interrupt");
      json_member "action" (json_string "get_question_response");
      json_member "question" (json_string "Who are the parties?");
      json_member "reason" (json_string "Needed for the preamble");
      json_member "section" (json_string "Intro");
      json_member "subsection" (json_string "Purpose") ].

Definition sample_question : Response :=
  {| r_type := Some "interrupt"; r_action := Some "get_question_response";
     r_question := Some "Who are the parties?";
     r_reason := Some "Needed for the preamble";
     r_section := Some "Intro"; r_subsection := Some "Purpose";
     r_draft := None; r_session_id := None; r_all_sections := [];
     r_title := None; r_idea := None; r_all_drafts := None |}.

Definition sample_structure_json : string :=
  json_object
    [ json_member "type" (json_string "interrupt");
      json_member "action" (json_string "get_structure_review");
      json_member "session_id" (json_string "sess-2");
      json_member "title" (json_string "Mutual NDA");
      json_member "idea" (json_string "A mutual non-disclosure agreement");
      json_member "all_sections"
        (json_array (List.map json_of_section sample_sections)) ].

Definition sample_structure : Response :=
  {| r_type := Some "interrupt"; r_action := Some "get_structure_review";
     r_question := None; r_reason := None; r_section := None;
     r_subsection := None; r_draft := None;
     r_session_id := Some "sess-2"; r_all_sections := sample_sections;
     r_title := Some "Mutual NDA";
     r_idea := Some "A mutual non-disclosure agreement";
     r_all_drafts := None |}.

Definition sample_document_json : string :=
  json_object
    [ json_member "action" (json_string "generate_document");
      json_member "final_state"
        (json_object
           [ json_member "all_drafts"
               (json_object
                  [ json_member "Intro" (json_string "Text one.");
                    json_member "Terms" (json_string "Text two.") ]) ]) ].

Definition sample_document : Response :=
  {| r_type := None; r_action := Some "generate_document";
     r_question := None; r_reason := None; r_section := None;
     r_subsection := None; r_draft := None; r_session_id := None;
     r_all_sections := []; r_title := None; r_idea := None;
     r_all_drafts :=
       Some [("Intro", Some "Text one."); ("Terms", Some "Text two.")] |}.

(** [JSON.parse] on the three sample texts; any other text is refused. *)
Definition sample_parse (s : string) : string + Decoded :=
  if String.eqb s sample_question_json then inr (DValue sample_question)
  else if String.eqb s sample_structure_json then inr (DValue sample_structure)
  else if String.eqb s sample_document_json then inr (DValue sample_document)
  else inl "Unexpected token".

(** A 200 response whose body is one server-sent event. *)
Definition sample_reply (json : string) : FetchOutcome :=
  FetchResponse 200 (StreamChunk ("data: " +:+ json +:+ nl +:+ nl) StreamEnd).

Definition unreachable : FetchOutcome :=
  FetchRejected {| message := "Failed to fetch" |}.

(** The fresh store with a text typed in. *)
Definition store_typed (text : string) : Store := with_input text initial_store.

(** A store in the question stage that already holds a session id. *)
Definition store_answering : Store :=
  with_session_id (Some "sess-1")
    (with_initialChatStep "question-response"
       (with_messages [plain_turn user "Draft an NDA"]
          (with_input "Two companies" initial_store))).

(** A store after the structure proposal, with edited drafts. *)
Definition store_reviewing : Store :=
  with_drafts [("Intro", Some "Edited by the user."); ("Terms", Some "From the agent.")]
    (with_contractSections sample_sections
       (with_initialChatStep "structure-review" initial_store)).

(** A store in the draft chat with a section under way. *)
Definition store_drafting : Store :=
  with_activeSection (Some "Intro")
    (with_initialChatStep "done"
       (with_input "Both parties are companies" store_reviewing)).

(** The draft chat as it opens: no active section, nothing typed. *)
Definition store_opening : Store :=
  with_initialChatStep "done" store_reviewing.

(** ** Further vocabulary: requests, quiet streams, turns *)

Definition is_fetch (ev : Event) : bool :=
  match ev with Fetch _ => true | _ => false end.

(** The number of requests among the events of a call. *)
Definition fetches (evs : list Event) : nat :=
  List.length (List.filter is_fetch evs).

(** A body that ends normally without a data event in any chunk. *)
Fixpoint quiet (body : Stream) : bool :=
  match body with
  | StreamEnd => true
  | StreamError _ => false
  | StreamChunk chunk rest =>
      negb (Js.truthy (first_data_event (Js.split_lines chunk))) && quiet rest
  end.

(** A line that carries the reply: ["data: "] followed by data that is
    not blank. *)
Definition data_event (line data : string) : Prop :=
  line = "data: " +:+ data /\ Js.truthy (Js.trim data) = true.

(** A line, free of line feeds, that carries no reply. *)
Definition plain_line (line : string) : Prop :=
  no_line_feed line = true /\ forall data, ~ data_event line data.

(** The chunk made of the given lines, and the stream that delivers the
    given chunks and goes on with [rest]. *)
Definition chunk_of (lines : list string) : string := String.concat nl lines.

Definition stream_of (chunks : list string) (rest : Stream) : Stream :=
  fold_right StreamChunk rest chunks.

Fixpoint all_chars (p : ascii -> bool) (s : string) : bool :=
  match s with
  | EmptyString => true
  | String c r => p c && all_chars p r
  end.

(** The assistant turn of [handleDraftChat] for a question. *)
Definition draft_question_turn (res : Response) : Turn :=
  {| role := assistant; content := Some (Js.to_string (r_question res));
     reason := Some (Js.to_string (r_reason res));
     section := None; subsection := None |}.

(** The actions [handleDraftChat] has a branch for. *)
Definition handled_draft_action (res : Response) : bool :=
  is_str (r_action res) "generate_document"
  || is_str (r_action res) "get_question_response"
  || is_str (r_action res) "get_reviewed_section_draft"
  || is_str (r_action res) "get_review_changes".

(** The replies [handleSend] has a branch for. *)
Definition handled_interrupt (res : Response) : bool :=
  is_str (r_type res) "interrupt"
  && (is_str (r_action res) "get_question_response"
      || is_str (r_action res) "get_structure_review").

Definition sample_review_json : string :=
  json_object
    [ json_member "action" (json_string "get_reviewed_section_draft");
      json_member "section" (json_string "Intro");
      json_member "draft" (json_string "This agreement is made between the parties.") ].

Definition sample_review : Response :=
  {| r_type := None; r_action := Some "get_reviewed_section_draft";
     r_question := None; r_reason := None; r_section := Some "Intro";
     r_subsection := None;
     r_draft := Some "This agreement is made between the parties.";
     r_session_id := None; r_all_sections := []; r_title := None;
     r_idea := None; r_all_drafts := None |}.

Definition sample_draft_question_json : string :=
  json_object
    [ json_member "action" (json_string "get_question_response");
      json_member "section" (json_string "Terms");
      json_member "question" (json_string "How long does it run?");
      json_member "reason" (json_string "Needed for Duration");
      json_member "draft" (json_string "The term is open.") ].

Definition sample_draft_question : Response :=
  {| r_type := None; r_action := Some "get_question_response";
     r_question := Some "How long does it run?";
     r_reason := Some "Needed for Duration"; r_section := Some "Terms";
     r_subsection := None; r_draft := Some "The term is open.";
     r_session_id := None; r_all_sections := []; r_title := None;
     r_idea := None; r_all_drafts := None |}.

Definition sample_end_json : string :=
  json_object [ json_member "type" (json_string "end") ].

Definition sample_end : Response :=
  {| r_type := Some "end"; r_action := None; r_question := None;
     r_reason := None; r_section := None; r_subsection := None;
     r_draft := None; r_session_id := None; r_all_sections := [];
     r_title := None; r_idea := None; r_all_drafts := None |}.

Definition sample_bare_document_json : string :=
  json_object [ json_member "action" (json_string "generate_document") ].

Definition sample_bare_document : Response :=
  {| r_type := None; r_action := Some "generate_document"; r_question := None;
     r_reason := None; r_section := None; r_subsection := None;
     r_draft := None; r_session_id := None; r_all_sections := [];
     r_title := None; r_idea := None; r_all_drafts := None |}.

(** [JSON.parse] on the sample texts, ["null"] included; a text that is
    not JSON is refused with the engine's message. *)
Definition sample_parse2 (s : string) : string + Decoded :=
  if String.eqb s sample_review_json then inr (DValue sample_review)
  else if String.eqb s sample_draft_question_json then inr (DValue sample_draft_question)
  else if String.eqb s sample_end_json then inr (DValue sample_end)
  else if String.eqb s sample_bare_document_json then inr (DValue sample_bare_document)
  else if String.eqb s "null" then inr DNull
  else sample_parse s.

(** ** [DraftSection.jsx]: editing a draft, expanding a section *)

(** The [onChange] of a section's text area: the functional update
    [setDrafts(prev => ({...prev, [heading]: value}))] applied to the
    store. *)
Definition editDraft (heading value : string) (st : Store) : Store :=
  with_drafts (Js.set heading (Some value) (drafts st)) st.

(** [expandedSections] of the draft panel: an object from keys (a
    heading, or a heading followed by ["-edit"]) to booleans. *)
Definition Expanded := Js.obj bool.

(** The property names every object inherits from [Object.prototype];
    read from an object that has no own property of that name, each of
    them gives a function or, for ["__proto__"], the prototype itself. *)
Definition Object_prototype_keys : list string :=
  [ "constructor"; "__defineGetter__"; "__defineSetter__"; "hasOwnProperty";
    "__lookupGetter__"; "__lookupSetter__"; "isPrototypeOf";
    "propertyIsEnumerable"; "toString"; "valueOf"; "__proto__";
    "toLocaleString" ].

Definition inherited (key : string) : bool :=
  existsb (String.eqb key) Object_prototype_keys.

(** [expandedSections[key]] used as a condition: an own property
    decides; without one, an inherited name gives a truthy value and any
    other key [undefined]. *)
Definition expanded (key : string) (o : Expanded) : bool :=
  match Js.get key o with Some b => b | None => inherited key end.

(** [toggleSection] of the draft panel:
    [setExpandedSections(prev => ({ [section]: !prev[section] }))]. *)
Definition toggleDraftSection (section : string) (prev : Expanded) : Expanded :=
  [(section, negb (expanded section prev))].

(** The edit button and the save button of a section. *)
Definition set_editing (heading : string) (on : bool) (prev : Expanded) : Expanded :=
  Js.set (heading +:+ "-edit") on prev.

(** ** [ContractSectionsDisplay.jsx]: expanding a section

    [expandedSections] is a [Set] of section indices of which the
    component only asks [has]; it is kept as a finite set. *)
Definition toggleSection (index : nat) (expandedSections : gset nat) : gset nat :=
  if decide (elem_of index expandedSections)
  then difference expandedSections (singleton index)
  else union expandedSections (singleton index).

Definition is_set_drafts (ev : Event) : bool :=
  match ev with SetDrafts _ => true | _ => false end.

(** ** [FileUploadSection.jsx]: choosing a file, answering missing data *)

(** A file name as the sequence of its UTF-16 code units. *)
Definition CodeUnits := list N.

Definition code_units (s : string) : CodeUnits :=
  List.map N_of_ascii (list_ascii_of_string s).

(** Strict equality of two strings: the same code units. *)
Fixpoint units_eqb (a b : CodeUnits) : bool :=
  match a, b with
  | [], [] => true
  | x :: a', y :: b' => (x =? y)%N && units_eqb a' b'
  | _, _ => false
  end.

(** The code unit of the full stop. *)
Definition full_stop : N := 46%N.

(** [s.lastIndexOf('.')], [None] standing for -1. *)
Fixpoint lastIndexOf_dot (s : CodeUnits) : option nat :=
  match s with
  | [] => None
  | u :: r =>
      match lastIndexOf_dot r with
      | Some i => Some (S i)
      | None => if (u =? full_stop)%N then Some 0%nat else None
      end
  end.

(** [s.slice(start)] for the [start] that [lastIndexOf] gives: from that
    index on, and for -1 the last code unit (none of the empty string). *)
Definition slice_from (start : option nat) (s : CodeUnits) : CodeUnits :=
  match start with
  | Some i => drop i s
  | None => drop (List.length s - 1) s
  end.

(** What [toLowerCase] does to a code unit below 128: the letters A to Z
    move up by 32. *)
Definition lower_ascii (u : N) : N :=
  if ((65 <=? u) && (u <=? 90))%N then (u + 32)%N else u.

Definition is_ascii (u : N) : bool := (u <? 128)%N.

(** The part of [String.prototype.toLowerCase] that the statements rely
    on: a string of code units below 128 is lowered unit by unit. On
    other strings the result may even differ in length. *)
Definition lowers_ascii (toLowerCase : CodeUnits -> CodeUnits) : Prop :=
  forall s, forallb is_ascii s = true -> toLowerCase s = List.map lower_ascii s.

Definition allowedTypes : list string := [".docx"; ".doc"; ".pdf"; ".txt"].

(** The two setters [handleContentFileChange] calls. *)
Inductive UploadEvent :=
| SetError (msg : string)
| SetContentFile (file : option CodeUnits).

Section Upload.

(** [String.prototype.toLowerCase] *)
Variable toLowerCase : CodeUnits -> CodeUnits.

(** [file.name.toLowerCase().slice(file.name.lastIndexOf('.'))]: the
    index is taken in the name, the slice in the lowered name. *)
Definition fileExtension (name : CodeUnits) : CodeUnits :=
  slice_from (lastIndexOf_dot name) (toLowerCase name).

(** [handleContentFileChange]; [file] is the name of [e.target.files[0]],
    [None] when no file was chosen. *)
Definition handleContentFileChange (file : option CodeUnits) : list UploadEvent :=
  match file with
  | None => []
  | Some name =>
      if existsb (fun t => units_eqb (code_units t) (fileExtension name)) allowedTypes
      then [SetContentFile (Some name); SetError ""]
      else
        [SetError ("Invalid file type. Allowed types: "
                   +:+ String.concat ", " allowedTypes);
         SetContentFile None]
  end.

End Upload.

(** A lower-casing for the samples: the capitals below 256 move up by
    32, and the capital I with a dot above (code unit 304) becomes an i
    followed by a combining dot, two code units. *)
Definition sample_lower (u : N) : CodeUnits :=
  if (u =? 304)%N then [105%N; 775%N]
  else if ((65 <=? u) && (u <=? 90)
           || (192 <=? u) && (u <=? 222) && negb (u =? 215))%N
  then [(u + 32)%N] else [u].

Definition sample_toLowerCase (s : CodeUnits) : CodeUnits :=
  flat_map sample_lower s.

Record MissingField := {
  mf_field : string;
  mf_description : string;
  mf_priority : string;
  mf_reason : Js.value
}.

(** The [TypeError] of [answer.trim()] when [answer] is not a string. *)
Definition trim_not_a_function : Error :=
  {| message := "answer.trim is not a function" |}.

(** [obj[key] = value] on an object literal: an own property is written
    or created, except under ["__proto__"], where the inherited setter
    takes the assignment and, given a string, does nothing. *)
Definition assign (key value : string) (o : Js.obj string) : Js.obj string :=
  if String.eqb key "__proto__" then o else Js.set key value o.

(** One turn of the [forEach] of [handleSubmitMissingData]:
    [userInputs[field.field] || ''] is the own answer when there is a
    non-empty one; without an own property an inherited name gives a
    function or an object, which has no [trim]. *)
Definition answer_field (userInputs : Js.obj string) (responses : Js.obj string)
    (field : MissingField) : Result (Js.obj string) :=
  match Js.get (mf_field field) userInputs with
  | Some own =>
      let answer := Js.or_else (Some own) "" in
      if Js.truthy (Js.trim answer) then Ok (assign (mf_field field) answer responses)
      else Ok responses
  | None =>
      if inherited (mf_field field) then Throw trim_not_a_function
      else Ok responses
  end.

(** The [missingDataResponses] object [handleSubmitMissingData] builds
    from the missing fields and the answers typed so far, or the
    exception that ends the loop. *)
Definition missingDataResponses (missingFields : list MissingField)
    (userInputs : Js.obj string) : Result (Js.obj string) :=
  fold_left
    (fun acc field =>
       match acc with
       | Ok responses => answer_field userInputs responses field
       | Throw e => Throw e
       end)
    missingFields (Ok []).

(** A missing field named like an inherited property for which nothing
    was typed. *)
Definition unanswered_inherited (userInputs : Js.obj string) (field : MissingField)
    : bool :=
  inherited (mf_field field)
  && match Js.get (mf_field field) userInputs with Some _ => false | None => true end.

Definition sample_field (name : string) : MissingField :=
  {| mf_field := name; mf_description := "To be given"; mf_priority := "high";
     mf_reason := None |}.

(** The [contractTitle] local of [handleDownloadContract]. *)
Definition contractTitle_of (fc : FinalContract) : string :=
  Js.or_else
    (if Js.truthy_value (fc_title fc) then fc_title fc else fc_contract_title fc)
    "Generated Contract".

(** A section of a finished contract that [handleDownloadContract]
    takes: its heading and its content are both truthy. *)
Definition taken (s : FinalSection) : bool :=
  Js.truthy_value (fs_heading s) && Js.truthy_value (fs_content s).

Definition undefined_split : Error :=
  {| message := "Cannot read properties of undefined (reading 'split')" |}.

(** A string without its line feeds. *)
Fixpoint remove_line_feeds (s : string) : string :=
  match s with
  | EmptyString => EmptyString
  | String c r =>
      if Js.is_nl c then remove_line_feeds r else String c (remove_line_feeds r)
  end.

(** Strings put end to end. *)
Definition glue (parts : list string) : string :=
  fold_right String.append EmptyString parts.

(** ** [ProgressIndicator.jsx]: the status of a step *)

(** [step.section_heading || step.title]; a section has no [title], so
    an empty heading gives [undefined]. *)
Definition stepName (step : ContractSection) : Js.value :=
  if Js.truthy (section_heading step) then Some (section_heading step) else None.

(** [a === b] on values that are a string or [undefined]. *)
Definition strict_eq (a b : Js.value) : bool :=
  match a, b with
  | Some x, Some y => String.eqb x y
  | None, None => true
  | _, _ => false
  end.

(** [steps.findIndex(s => (s.section_heading || s.title) === activeSection)],
    [None] standing for -1. *)
Fixpoint findIndex_active (steps : list ContractSection) (activeSection : Js.value)
    : option nat :=
  match steps with
  | [] => None
  | s :: rest =>
      if strict_eq (stepName s) activeSection then Some 0%nat
      else match findIndex_active rest activeSection with
           | Some i => Some (S i)
           | None => None
           end
  end.

Definition getStepStatus (steps : list ContractSection) (activeSection : Js.value)
    (isDraftingComplete : bool) (step : ContractSection) (index : nat) : string :=
  if strict_eq (stepName step) activeSection then "current"
  else if Js.truthy_value activeSection
          && (match findIndex_active steps activeSection with
              | Some activeIndex => (index <? activeIndex)%nat
              | None => false
              end
              || isDraftingComplete)
  then "completed"
  else "upcoming".

(** ** The catalog: the text shown for a stored contract *)

Record HistoryMessage := {
  hm_role : Js.value;
  hm_type : Js.value;
  hm_content : Js.value;
  hm_message : Js.value
}.

(** The properties of a stored record that [generateFullDraft] reads;
    an object or array property that is missing is [None]. *)
Record Idea := {
  idea_all_drafts : option Drafts;
  idea_drafts : option Drafts;
  idea_conversation_history : option (list HistoryMessage);
  idea_metadata_conversation_history : option (list HistoryMessage);
  idea_idea : Js.value;
  idea_rephrased_idea : Js.value;
  idea_description : Js.value
}.

(** [draft && draft.trim()] as a condition. *)
Definition has_text (draft : Js.value) : bool :=
  match draft with
  | Some s => Js.truthy s && Js.truthy (Js.trim s)
  | None => false
  end.

(** The [fullDraft] accumulated over [Object.entries(allDrafts)]. *)
Definition fullDraft_of (allDrafts : Drafts) : string :=
  fold_left
    (fun fullDraft kv =>
       if has_text (snd kv)
       then fullDraft +:+ section_marker (fst kv) (Js.to_string (snd kv))
       else fullDraft)
    allDrafts "".

Definition first_truthy (a b : Js.value) : Js.value :=
  if Js.truthy_value a then a else b.

Definition userResponses_of (history : list HistoryMessage) : list string :=
  List.filter (fun text => Js.truthy text && (10 <? String.length text)%nat)
    (List.map (fun msg => Js.or_else (first_truthy (hm_content msg) (hm_message msg)) "")
       (List.filter (fun msg => is_str (hm_role msg) "user" || is_str (hm_type msg) "user")
          history)).

Definition generateFullDraft (idea : Idea) : string :=
  let allDrafts :=
    match idea_all_drafts idea with
    | Some d => d
    | None => match idea_drafts idea with Some d => d | None => [] end
    end in
  let fullDraft := fullDraft_of allDrafts in
  if (0 <? List.length (Js.keys allDrafts))%nat && Js.truthy (Js.trim fullDraft)
  then fullDraft
  else
    let conversationHistory :=
      match idea_conversation_history idea with
      | Some h => h
      | None =>
          match idea_metadata_conversation_history idea with
          | Some h => h
          | None => []
          end
      end in
    let userResponses := userResponses_of conversationHistory in
    if (0 <? List.length conversationHistory)%nat
       && (0 <? List.length userResponses)%nat
    then String.concat (nl +:+ nl) userResponses
    else
      Js.or_else
        (first_truthy (first_truthy (idea_idea idea) (idea_rephrased_idea idea))
           (idea_description idea))
        "Idea details will be available after contract completion".

(** A stored record with drafts of both kinds, a history and an idea
    text. *)
Definition sample_idea : Idea :=
  {| idea_all_drafts := Some [("Intro", Some "Hello"); ("Terms", Some "  ");
                              ("Annex", None)];
     idea_drafts := Some [("Old", Some "Earlier text")];
     idea_conversation_history :=
       Some [ {| hm_role := Some "user"; hm_type := None;
                 hm_content := Some "A long enough answer"; hm_message := None |} ];
     idea_metadata_conversation_history := None;
     idea_idea := Some "An idea"; idea_rephrased_idea := None;
     idea_description := None |}.

(** * Properties *)

(** ** Strings *)

Lemma trim_end_empty s : Js.trim_end s = "" <-> Js.all_ws s = true.
Proof.
  induction s as [|c r IH]; cbn; [tauto|].
  destruct (Js.is_ws c); cbn.
  - destruct (Js.trim_end r) eqn:E; cbn.
    + split; [intros _; apply IH; reflexivity | reflexivity].
    + split; [discriminate|]. intros H. apply IH in H. discriminate.
  - split; discriminate.
Qed.

Lemma all_ws_trim_start s : Js.all_ws (Js.trim_start s) = Js.all_ws s.
Proof.
  induction s as [|c r IH]; cbn; [reflexivity|].
  destruct (Js.is_ws c) eqn:E; cbn; [exact IH | rewrite E; reflexivity].
Qed.

Lemma trim_blank s : Js.trim s = "" <-> Js.all_ws s = true.
Proof. unfold Js.trim. rewrite trim_end_empty, all_ws_trim_start. tauto. Qed.

Lemma truthy_trim_blank s : Js.all_ws s = true -> Js.truthy (Js.trim s) = false.
Proof. intros H. apply trim_blank in H. rewrite H. reflexivity. Qed.

(** ** Objects *)

Section ObjFacts.
Context {V : Type}.
Implicit Types (o : Js.obj V) (k : string) (v : V).

Lemma get_replace_eq k v o :
  is_Some (Js.get k o) -> Js.get k (Js.replace k v o) = Some v.
Proof.
  induction o as [|[k' v'] r IH]; cbn; intros [x Hx]; [discriminate|].
  destruct (String.eqb k k') eqn:E; cbn; rewrite E; [reflexivity|].
  apply IH. eauto.
Qed.

Lemma get_replace_ne k k2 v o :
  k2 <> k -> Js.get k2 (Js.replace k v o) = Js.get k2 o.
Proof.
  intros Hne. apply String.eqb_neq in Hne.
  induction o as [|[k' v'] r IH]; cbn; [reflexivity|].
  destruct (String.eqb k k') eqn:E; cbn.
  - apply String.eqb_eq in E. subst k'. rewrite Hne. reflexivity.
  - rewrite IH. reflexivity.
Qed.

Lemma get_insert_index_eq n k v o :
  Js.get k o = None -> Js.get k (Js.insert_index n k v o) = Some v.
Proof.
  induction o as [|[k' v'] r IH]; cbn; intros H.
  - rewrite String.eqb_refl. reflexivity.
  - destruct (String.eqb k k') eqn:E; [discriminate|].
    destruct (Js.array_index k') as [m|]; [destruct (m <? n)%N|]; cbn;
      rewrite ?E, ?String.eqb_refl; auto.
Qed.

Lemma get_insert_index_ne n k k2 v o :
  k2 <> k -> Js.get k2 (Js.insert_index n k v o) = Js.get k2 o.
Proof.
  intros Hne. apply String.eqb_neq in Hne.
  induction o as [|[k' v'] r IH]; cbn; [rewrite Hne; reflexivity|].
  destruct (Js.array_index k') as [m|]; [destruct (m <? n)%N|]; cbn;
    rewrite ?Hne, ?IH; reflexivity.
Qed.

Lemma get_app_eq k v o :
  Js.get k o = None -> Js.get k (o ++ [(k, v)]) = Some v.
Proof.
  induction o as [|[k' v'] r IH]; cbn; intros H.
  - rewrite String.eqb_refl. reflexivity.
  - destruct (String.eqb k k'); [discriminate | auto].
Qed.

Lemma get_app_ne k k2 v o :
  k2 <> k -> Js.get k2 (o ++ [(k, v)]) = Js.get k2 o.
Proof.
  intros Hne. apply String.eqb_neq in Hne.
  induction o as [|[k' v'] r IH]; cbn; [rewrite Hne; reflexivity|].
  rewrite IH. reflexivity.
Qed.

Lemma get_set_eq k v o : Js.get k (Js.set k v o) = Some v.
Proof.
  unfold Js.set. destruct (Js.get k o) eqn:E.
  - apply get_replace_eq. eauto.
  - destruct (Js.array_index k); [apply get_insert_index_eq | apply get_app_eq]; exact E.
Qed.

Lemma get_set_ne k k2 v o : k2 <> k -> Js.get k2 (Js.set k v o) = Js.get k2 o.
Proof.
  intros Hne. unfold Js.set. destruct (Js.get k o).
  - apply get_replace_ne, Hne.
  - destruct (Js.array_index k); [apply get_insert_index_ne | apply get_app_ne]; exact Hne.
Qed.
End ObjFacts.

(** ** The effect on the section list *)

Lemma seed_cons d x r :
  seed d (x :: r) = seed (Js.set (section_heading x) (Some placeholder) d) r.
Proof. reflexivity. Qed.

Lemma seed_fold steps st :
  fold_left
    (fun s step => with_drafts (Js.set (section_heading step) (Some placeholder) (drafts s)) s)
    steps st
  = with_drafts (seed (drafts st) steps) st.
Proof.
  revert st. induction steps as [|x r IH]; intros st; cbn.
  - destruct st; reflexivity.
  - rewrite IH. reflexivity.
Qed.

Lemma effect_drafts st :
  contractSections_effect st =
  with_drafts (match contractSections st with [] => drafts st | _ => seed (drafts st) (contractSections st) end) st.
Proof.
  unfold contractSections_effect.
  destruct (contractSections st) eqn:E; cbn [List.length Nat.ltb Nat.leb].
  - destruct st; reflexivity.
  - rewrite seed_fold. reflexivity.
Qed.

Lemma seed_keeps k d steps :
  Js.get k d = Some (Some placeholder) -> Js.get k (seed d steps) = Some (Some placeholder).
Proof.
  revert d. induction steps as [|x r IH]; intros d H; [exact H|].
  rewrite seed_cons. apply IH. destruct (String.eqb k (section_heading x)) eqn:E.
  - apply String.eqb_eq in E. subst k. apply get_set_eq.
  - apply String.eqb_neq in E. rewrite get_set_ne by exact E. exact H.
Qed.

Lemma seed_covers sec d steps :
  In sec steps -> Js.get (section_heading sec) (seed d steps) = Some (Some placeholder).
Proof.
  revert d. induction steps as [|x r IH]; intros d Hin; [destruct Hin|].
  rewrite seed_cons. destruct Hin as [-> | Hin]; [|apply IH, Hin].
  apply seed_keeps, get_set_eq.
Qed.

Lemma seed_other k d steps :
  (forall sec, In sec steps -> section_heading sec <> k) -> Js.get k (seed d steps) = Js.get k d.
Proof.
  revert d. induction steps as [|x r IH]; intros d H; [reflexivity|].
  rewrite seed_cons, IH by (intros; apply H; right; assumption).
  apply get_set_ne. intros ->. apply (H x); [left|]; reflexivity.
Qed.

(** ** Committing events *)

Lemma commit_alert st msg : commit st [Alert msg] = st.
Proof. reflexivity. Qed.

Lemma commit_sections st v :
  commit st [SetContractSections v] =
  with_drafts (match v with [] => drafts st | _ => seed (drafts st) v end)
    (with_contractSections v st).
Proof.
  unfold commit. cbn [existsb sets_contractSections orb apply_events fold_left apply_event].
  rewrite effect_drafts. reflexivity.
Qed.

(** [handleNewChat] brings any store back to the initial one. *)
Lemma handleNewChat_resets st : after st handleNewChat = initial_store.
Proof. reflexivity. Qed.

Lemma length_delete_floor {A} (l : list A) i :
  (List.length l - 1 <= List.length (delete i l))%nat.
Proof.
  revert i. induction l as [|x r IH]; intros i; [cbn; lia|].
  destruct i as [|i]; [cbn; lia|].
  change (delete (S i) (x :: r)) with (x :: delete i r).
  specialize (IH i). cbn [List.length]. lia.
Qed.

(** One deletion keeps every section that has a subsection at one or
    more. *)
Lemma deleteSubsection_floor st a b i sec :
  contractSections st !! i = Some sec ->
  (1 <= List.length (subsections sec))%nat ->
  exists sec',
    contractSections (after st (deleteSubsection a b st)) !! i = Some sec'
    /\ (1 <= List.length (subsections sec'))%nat.
Proof.
  intros Hi Hlen. unfold after, deleteSubsection.
  destruct (contractSections st !! a) as [section|] eqn:Ha.
  - destruct (List.length (subsections section) <=? 1)%nat eqn:Hle.
    + cbn [events emit fst]. rewrite commit_alert. eauto.
    + cbn [events emit fst]. rewrite commit_sections.
      apply Nat.leb_gt in Hle.
      cbn [contractSections with_drafts with_contractSections].
      destruct (decide (i = a)) as [->|Hne].
      * rewrite list_lookup_insert_eq by (eapply lookup_lt_Some; eauto).
        eexists. split; [reflexivity|]. cbn.
        pose proof (length_delete_floor (subsections section) b). lia.
      * rewrite list_lookup_insert_ne by congruence. eauto.
  - cbn. eauto.
Qed.

(** ** The network call *)

Lemma read_body_events body : events (read_body body) = [].
Proof.
  induction body as [|chunk rest IH|e]; cbn; try reflexivity.
  destruct (Js.truthy _); [reflexivity | exact IH].
Qed.

Lemma read_response_events net : events (read_response net) = [].
Proof.
  destruct net as [e|status body]; cbn; [reflexivity|].
  destruct (response_ok status); cbn; [|reflexivity].
  destruct (null_body_status status); [reflexivity|].
  pose proof (read_body_events body) as Hb.
  destruct (read_body body) as [l [r|e]]; cbn in *; subst l; [|reflexivity].
  destruct (_ || _); reflexivity.
Qed.

Lemma chatWithDraftAgent_eq sid q i ids net :
  chatWithDraftAgent sid q i ids net =
  ([Fetch (request_of sid q i ids)], result (read_response net)).
Proof.
  unfold chatWithDraftAgent, request_of.
  pose proof (read_response_events net) as He.
  destruct (read_response net) as [l [r|e]]; cbn in *; subst l; destruct q; reflexivity.
Qed.

Lemma transport_failure_throws net :
  transport_failure net -> exists e, result (read_response net) = Throw e.
Proof.
  destruct net as [e|status body]; cbn; intros H.
  - eauto.
  - rewrite H. cbn. eauto.
Qed.

(** ** [handleSend] case by case *)

Section HandlerFacts.
Variable JSON_parse : string -> string + Decoded.

Lemma submits_inv st :
  submits st = true ->
  Js.truthy (Js.trim (input st)) = true
  /\ (initialChatStep st = "idea-submission" \/ initialChatStep st = "question-response").
Proof.
  unfold submits. intros H. apply andb_prop in H as [H1 H2]. split; [exact H1|].
  apply orb_prop in H2 as [H2|H2]; apply String.eqb_eq in H2; auto.
Qed.

Lemma parse_reply_ok raw d :
  JSON_parse (strip_event_prefix raw) = inr d -> parse_reply JSON_parse raw = ([], Ok d).
Proof. intros H. unfold parse_reply. rewrite H. reflexivity. Qed.

Ltac enter_handleSend H :=
  apply submits_inv in H as [?Hin ?Hst]; unfold handleSend;
  match goal with Hi : Js.truthy _ = true |- _ => rewrite Hi end;
  cbn [negb].

Lemma handleSend_blank net st :
  Js.all_ws (input st) = true -> handleSend JSON_parse net st = ([], Ok tt).
Proof. intros H. unfold handleSend. rewrite truthy_trim_blank by exact H. reflexivity. Qed.

Lemma handleSend_failure net st e :
  submits st = true ->
  result (read_response net) = Throw e ->
  handleSend JSON_parse net st =
  ([SetMessages (updatedMessages_send st); SetInput ""; SetLoading true;
    Fetch (send_request st);
    SetMessages (updatedMessages_send st ++ [plain_turn assistant (userErrorMessage e)]);
    SetLoading false], Ok tt).
Proof.
  intros Hs Hr. unfold send_request. enter_handleSend Hs.
  destruct Hst as [-> | ->]; cbn [String.eqb Ascii.eqb Bool.eqb];
    rewrite chatWithDraftAgent_eq, Hr; reflexivity.
Qed.

Lemma handleSend_question net st raw res :
  submits st = true ->
  result (read_response net) = Ok raw ->
  JSON_parse (strip_event_prefix raw) = inr (DValue res) ->
  r_type res = Some "interrupt" ->
  r_action res = Some "get_question_response" ->
  handleSend JSON_parse net st =
  ([SetMessages (updatedMessages_send st); SetInput ""; SetLoading true;
    Fetch (send_request st); AppendMessage (question_turn res)]
   ++ (if String.eqb (initialChatStep st) "idea-submission"
       then [SetInitialChatStep "question-response"] else [])
   ++ [SetLoading false], Ok tt).
Proof.
  intros Hs Hr Hp Ht Ha. unfold send_request. enter_handleSend Hs.
  destruct Hst as [-> | ->]; cbn [String.eqb Ascii.eqb Bool.eqb];
    rewrite chatWithDraftAgent_eq, Hr; cbn [bind result snd];
    rewrite (parse_reply_ok _ _ Hp); cbn [bind fields_of ret]; rewrite Ht, Ha; reflexivity.
Qed.

Lemma handleSend_structure net st raw res :
  submits st = true ->
  result (read_response net) = Ok raw ->
  JSON_parse (strip_event_prefix raw) = inr (DValue res) ->
  r_type res = Some "interrupt" ->
  r_action res = Some "get_structure_review" ->
  handleSend JSON_parse net st =
  ([SetMessages (updatedMessages_send st); SetInput ""; SetLoading true;
    Fetch (send_request st);
    SetSession_id (r_session_id res); SetContractSections (r_all_sections res);
    SetSelectedTitle (r_title res); SetRephrasedIdea (r_idea res);
    SetInitialChatStep "structure-review"; SetLoading false], Ok tt).
Proof.
  intros Hs Hr Hp Ht Ha. unfold send_request. enter_handleSend Hs.
  destruct Hst as [-> | ->]; cbn [String.eqb Ascii.eqb Bool.eqb];
    rewrite chatWithDraftAgent_eq, Hr; cbn [bind result snd];
    rewrite (parse_reply_ok _ _ Hp); cbn [bind fields_of ret]; rewrite Ht, Ha; reflexivity.
Qed.

(** ** [handleDraftChat] case by case *)

Lemma handleDraftChat_blank net st :
  Js.all_ws (input st) = true ->
  permits_empty_submission st = false ->
  handleDraftChat JSON_parse net st = ([], Ok tt).
Proof.
  intros Hb Hp. unfold handleDraftChat, permits_empty_submission in *.
  rewrite truthy_trim_blank by exact Hb.
  destruct (Js.truthy_value (activeSection st)), (isReviewedSectionDraftActive st);
    try discriminate; reflexivity.
Qed.

Ltac enter_handleDraftChat H :=
  unfold handleDraftChat, draft_prelude, draft_request, updatedMessages_draft,
    draft_submits, permits_empty_submission in *;
  destruct (Js.truthy (Js.trim (input _))), (Js.truthy_value (activeSection _)),
    (isReviewedSectionDraftActive _);
  try discriminate H;
  cbn [negb andb orb when]; rewrite chatWithDraftAgent_eq.

Lemma handleDraftChat_failure net st e :
  draft_submits st = true ->
  result (read_response net) = Throw e ->
  handleDraftChat JSON_parse net st =
  (draft_prelude st
   ++ [SetDraftMessages (updatedMessages_draft st ++ [plain_turn assistant draft_error_text]);
       SetLoading false], Ok tt).
Proof.
  intros Hs Hr. enter_handleDraftChat Hs; rewrite Hr; reflexivity.
Qed.

Lemma handleDraftChat_document net st raw res all_drafts :
  draft_submits st = true ->
  result (read_response net) = Ok raw ->
  JSON_parse (strip_event_prefix raw) = inr (DValue res) ->
  r_action res = Some "generate_document" ->
  r_all_drafts res = Some all_drafts ->
  handleDraftChat JSON_parse net st =
  (draft_prelude st
   ++ [SetIsReviewedSectionDraftActive false; SetDrafts all_drafts;
       SetIsDraftingComplete true;
       SetDraftMessages (updatedMessages_draft st ++ [plain_turn assistant completed_text]);
       SetLoading false], Ok tt).
Proof.
  intros Hs Hr Hp Ha Hd.
  enter_handleDraftChat Hs; rewrite Hr; cbn [bind result snd emit app];
    rewrite (parse_reply_ok _ _ Hp); cbn [bind fields_of ret app]; rewrite Ha, Hd; reflexivity.
Qed.

(** ** No exception leaves a handler *)

Lemma bind_ret_l {A B} (a : A) (k : A -> M B) : bind (ret a) k = k a.
Proof. unfold bind, ret. destruct (k a). reflexivity. Qed.

Lemma result_bind_emit {A} ev (k : unit -> M A) : result (bind (emit ev) k) = result (k tt).
Proof. unfold bind, emit. destruct (k tt). reflexivity. Qed.

Lemma result_contained (m : M unit) (h : Error -> M unit) ev :
  (forall e, result (h e) = Ok tt) ->
  result (finally (try_catch m h) (emit ev)) = Ok tt.
Proof.
  intros Hh. destruct m as [l [[]|e]]; cbn; [reflexivity|].
  specialize (Hh e). destruct (h e) as [l' r]. cbn in *. subst r. reflexivity.
Qed.

Lemma handleSend_returns net st : result (handleSend JSON_parse net st) = Ok tt.
Proof.
  unfold handleSend. destruct (negb _); [reflexivity|].
  rewrite !result_bind_emit. apply result_contained. reflexivity.
Qed.

Lemma handleDraftChat_returns net st : result (handleDraftChat JSON_parse net st) = Ok tt.
Proof.
  unfold handleDraftChat. destruct (_ && _ && _); [reflexivity|].
  rewrite result_bind_emit.
  destruct (Js.truthy_value (activeSection st) && negb (isReviewedSectionDraftActive st));
    cbn [when]; rewrite ?result_bind_emit.
  - apply result_contained. reflexivity.
  - rewrite bind_ret_l, result_bind_emit. apply result_contained. reflexivity.
Qed.

End HandlerFacts.

(** ** Stores after a handler *)

Ltac commit_now :=
  unfold after, commit, events;
  cbn [fst app existsb sets_contractSections orb apply_events fold_left apply_event];
  rewrite ?effect_drafts.

Lemma commit_has_sections st evs sec :
  existsb sets_contractSections evs = true ->
  In sec (contractSections (commit st evs)) ->
  Js.get (section_heading sec) (drafts (commit st evs)) = Some (Some placeholder).
Proof.
  unfold commit. intros ->. rewrite effect_drafts.
  set (st' := apply_events st evs).
  cbn [contractSections drafts with_drafts]. intros Hin.
  destruct (contractSections st') eqn:E; [destruct Hin|].
  rewrite <- E in *. apply seed_covers, Hin.
Qed.

Lemma section_change_sets st m :
  section_change st m -> existsb sets_contractSections (events m) = true.
Proof.
  intros [index field value sec H | index | i j sec H Hlen | i j field value sec sub H Hs
         | JSON_parse net raw res Hs Hr Hp Ht Ha].
  - unfold updateSection. rewrite H. reflexivity.
  - reflexivity.
  - unfold deleteSubsection. rewrite H.
    destruct (List.length (subsections sec) <=? 1)%nat eqn:E; [|reflexivity].
    apply Nat.leb_le in E. lia.
  - unfold updateSubsection. rewrite H, Hs. reflexivity.
  - rewrite (handleSend_structure _ _ _ _ _ Hs Hr Hp Ht Ha). reflexivity.
Qed.

(** ** Chunks of a body *)

Lemma split_no_line_feed b s : no_line_feed s = true -> Js.split_nl_runs b s = [s].
Proof.
  revert b. induction s as [|c r IH]; intros b H; cbn in *; [reflexivity|].
  apply andb_prop in H as [Hc Hr]. destruct (Js.is_nl c); [discriminate|].
  rewrite (IH false Hr). reflexivity.
Qed.

(** A body without a line feed is one paragraph, blank or not. *)
Lemma chunks_without_line_feed s :
  no_line_feed s = true -> s <> "" -> Js.chunks s = [s].
Proof.
  intros H Hne. unfold Js.chunks. rewrite split_no_line_feed by exact H.
  destruct s; [congruence | reflexivity].
Qed.

Lemma split_only_line_feeds s :
  only_line_feeds s = true ->
  List.filter Js.truthy (Js.split_nl_runs true s) = []
  /\ List.filter Js.truthy (Js.split_nl_runs false s) = [].
Proof.
  induction s as [|c r IH]; cbn; intros H; [split; reflexivity|].
  apply andb_prop in H as [Hc Hr]. rewrite Hc. destruct (IH Hr) as [H1 H2].
  split; [exact H1 | cbn; exact H1].
Qed.

(** A body that is empty or made of line feeds gives no paragraph. *)
Lemma chunks_of_line_feeds s : only_line_feeds s = true -> Js.chunks s = [].
Proof. intros H. apply split_only_line_feeds, H. Qed.

(** ** The export *)

Lemma flatMap_sections_registry entries :
  flatMap_sections (registry entries) = ([], Ok (flat_map section_blocks entries)).
Proof.
  induction entries as [|[h b] rest IH]; [reflexivity|].
  cbn [registry List.map flatMap_sections fst snd createFormattedSection flat_map].
  fold (registry rest). rewrite IH. reflexivity.
Qed.

Lemma generateDraftsDocx_registry entries t :
  generateDraftsDocx (registry entries) t =
  ([Download (Js.or_else t "draft" +:+ ".docx") (flat_map section_blocks entries)], Ok tt).
Proof.
  unfold generateDraftsDocx. rewrite flatMap_sections_registry. reflexivity.
Qed.

Lemma headings_flat_map entries :
  List.filter is_heading (flat_map section_blocks entries) = List.map (fun kv => Heading (fst kv)) entries.
Proof.
  induction entries as [|[h b] rest IH]; [reflexivity|].
  cbn [flat_map section_blocks fst snd List.map app List.filter is_heading].
  rewrite List.filter_app, IH. f_equal.
  induction (Js.chunks b); simpl; auto.
Qed.


(** ** Session assignments, alerts and the opening call *)

Ltac handleSend_cases JSON_parse net st :=
  unfold handleSend;
  destruct (negb (Js.truthy (Js.trim (input st))));
  [|destruct (String.eqb (initialChatStep st) "idea-submission");
    [|destruct (String.eqb (initialChatStep st) "question-response")];
    rewrite ?chatWithDraftAgent_eq;
    try (destruct (result (read_response net)) as [raw|e]; cbn [bind emit];
         [unfold parse_reply;
          destruct (JSON_parse (strip_event_prefix raw)) as [msg|[|res]];
          cbn [bind fields_of ret throw];
          [| |destruct (is_str (r_type res) "interrupt");
              [destruct (is_str (r_action res) "get_question_response");
               [|destruct (is_str (r_action res) "get_structure_review")]|]]
         |])].

Ltac handleDraftChat_cases JSON_parse net st :=
  unfold handleDraftChat;
  destruct (negb (Js.truthy (Js.trim (input st))));
  destruct (Js.truthy_value (activeSection st));
  destruct (isReviewedSectionDraftActive st);
  cbn [negb andb when];
  rewrite ?chatWithDraftAgent_eq;
  try (destruct (result (read_response net)) as [raw|e]; cbn [bind emit ret];
       [unfold parse_reply;
        destruct (JSON_parse (strip_event_prefix raw)) as [msg|[|res]];
        cbn [bind fields_of ret throw];
        [| |destruct (is_str (r_action res) "generate_document");
            [destruct (r_all_drafts res)|];
            cbn [negb when];
            try (destruct (is_str (r_action res) "get_question_response");
                 [destruct (Js.truthy_value (r_draft res))
                 |destruct (is_str (r_action res) "get_reviewed_section_draft");
                  [|destruct (is_str (r_action res) "get_review_changes")]])]
       |]).

Ltac settle_store :=
  unfold after, commit, events;
  cbn [fst app existsb sets_contractSections orb apply_events fold_left apply_event
         bind emit ret throw try_catch finally when structure_review];
  rewrite ?effect_drafts.

(** What a call of [handleSend] does to the session id and the stage:
    either it makes no assignment and leaves the session id, the stage
    staying or, in a submission, becoming question-response; or it is a
    submission answered by a [get_structure_review] interrupt, makes one
    assignment of the returned id and moves to structure-review. *)
Lemma handleSend_session JSON_parse net st :
  (session_assignments (events (handleSend JSON_parse net st)) = 0%nat
   /\ session_id (after st (handleSend JSON_parse net st)) = session_id st
   /\ (initialChatStep (after st (handleSend JSON_parse net st)) = initialChatStep st
       \/ submits st = true
          /\ initialChatStep (after st (handleSend JSON_parse net st))
             = "question-response"))
  \/ (session_assignments (events (handleSend JSON_parse net st)) = 1%nat
      /\ submits st = true
      /\ initialChatStep (after st (handleSend JSON_parse net st)) = "structure-review").
Proof.
  unfold submits, handleSend.
  destruct (Js.truthy (Js.trim (input st))); cbn [negb andb];
    [destruct (String.eqb (initialChatStep st) "idea-submission");
     [|destruct (String.eqb (initialChatStep st) "question-response")];
     rewrite ?chatWithDraftAgent_eq;
     try (destruct (result (read_response net)) as [raw|e]; cbn [bind emit];
          [unfold parse_reply;
           destruct (JSON_parse (strip_event_prefix raw)) as [msg|[|res]];
           cbn [bind fields_of ret throw];
           [| |destruct (is_str (r_type res) "interrupt");
               [destruct (is_str (r_action res) "get_question_response");
                [|destruct (is_str (r_action res) "get_structure_review")]|]]
          |])
    |];
    settle_store;
    first [ left; split; [reflexivity|]; split; [reflexivity|]; left; reflexivity
          | left; split; [reflexivity|]; split; [reflexivity|]; right;
            split; reflexivity
          | right; split; [reflexivity|]; split; reflexivity ].
Qed.

Lemma handleDraftChat_session JSON_parse net st :
  session_id (after st (handleDraftChat JSON_parse net st)) = session_id st
  /\ initialChatStep (after st (handleDraftChat JSON_parse net st)) = initialChatStep st.
Proof.
  handleDraftChat_cases JSON_parse net st; settle_store; split; reflexivity.
Qed.

(** ** Runs *)

Lemma submits_stage st :
  submits st = true ->
  initialChatStep st <> "structure-review" /\ initialChatStep st <> "done".
Proof.
  intros H. apply andb_prop in H as [_ H].
  apply orb_prop in H as [H|H]; apply String.eqb_eq in H; rewrite H;
    split; discriminate.
Qed.

Lemma perform_session_follows_stage JSON_parse st a :
  session_follows_stage st -> session_follows_stage (perform JSON_parse st a).
Proof.
  unfold session_follows_stage, session_set. intros Hinv.
  destruct a as [net|net| |ev]; cbn [perform].
  - destruct (handleSend_session JSON_parse net st)
      as [(_ & Hid & [Hst | [Hs Hst]]) | (_ & _ & Hst)].
    + rewrite Hid, Hst. exact Hinv.
    + rewrite Hid. intros H. destruct (Hinv H) as [E|E];
        destruct (submits_stage st Hs); congruence.
    + intros _. left. exact Hst.
  - destruct (handleDraftChat_session JSON_parse net st) as [-> ->]. exact Hinv.
  - rewrite handleNewChat_resets. discriminate.
  - destruct (component_call ev) eqn:Hc; [|exact Hinv].
    destruct ev; try discriminate Hc;
      unfold commit;
      cbn [existsb sets_contractSections orb apply_events fold_left apply_event];
      rewrite ?effect_drafts; try exact Hinv.
    cbn in Hc. apply String.eqb_eq in Hc. subst v. intros _. right. reflexivity.
Qed.

Lemma run_session_follows_stage JSON_parse actions :
  session_follows_stage (run JSON_parse actions).
Proof.
  unfold run.
  assert (H : session_follows_stage initial_store) by (intros H; discriminate H).
  revert H. generalize initial_store.
  induction actions as [|a rest IH]; intros st H; [exact H|].
  cbn [fold_left]. apply IH, perform_session_follows_stage, H.
Qed.


Lemma handleSend_assigns_once JSON_parse net st :
  (session_assignments (events (handleSend JSON_parse net st)) <= 1)%nat.
Proof.
  unfold handleSend.
  destruct (negb _); [cbn; lia|].
  destruct (String.eqb (initialChatStep st) "idea-submission");
    [|destruct (String.eqb (initialChatStep st) "question-response")];
    rewrite ?chatWithDraftAgent_eq;
    try (destruct (result (read_response net)) as [raw|e]; cbn [bind emit];
         [unfold parse_reply;
          destruct (JSON_parse (strip_event_prefix raw)) as [msg|[|res]];
          cbn [bind fields_of ret throw];
          [| |destruct (is_str (r_type res) "interrupt");
              [destruct (is_str (r_action res) "get_question_response");
               [|destruct (is_str (r_action res) "get_structure_review")]|]]
         |]);
    cbn; lia.
Qed.

Lemma handleDraftChat_assigns_none JSON_parse net st :
  session_assignments (events (handleDraftChat JSON_parse net st)) = 0%nat.
Proof.
  unfold handleDraftChat.
  destruct (_ && _ && _); [reflexivity|].
  destruct (Js.truthy_value (activeSection st) && negb (isReviewedSectionDraftActive st));
    cbn [when]; rewrite chatWithDraftAgent_eq;
    (destruct (result (read_response net)) as [raw|e]; cbn [bind emit ret];
     [unfold parse_reply;
      destruct (JSON_parse (strip_event_prefix raw)) as [msg|[|res]];
      cbn [bind fields_of ret throw];
      [| |destruct (is_str (r_action res) "generate_document");
          [destruct (r_all_drafts res)|];
          cbn [negb when];
          try (destruct (is_str (r_action res) "get_question_response");
               [destruct (Js.truthy_value (r_draft res))
               |destruct (is_str (r_action res) "get_reviewed_section_draft");
                [|destruct (is_str (r_action res) "get_review_changes")]])]
     |]);
    reflexivity.
Qed.

Lemma flatMap_sections_events d : events (flatMap_sections d) = [].
Proof.
  induction d as [|[title content] rest IH]; [reflexivity|].
  cbn [flatMap_sections]. destruct content as [c|]; [|reflexivity].
  cbn [createFormattedSection ret bind].
  destruct (flatMap_sections rest) as [l [others|e]]; cbn in *; subst l; reflexivity.
Qed.

(** [generateDraftsDocx] has no alert in it, whatever the registry. *)
Lemma generateDraftsDocx_never_alerts d pocTitle :
  existsb is_alert (events (generateDraftsDocx d pocTitle)) = false.
Proof.
  unfold generateDraftsDocx. pose proof (flatMap_sections_events d) as He.
  destruct (flatMap_sections d) as [l [children|e]]; cbn in *; subst l; reflexivity.
Qed.

(** With no section active yet, the blank submission made when the draft
    chat opens goes to the agent, and no user turn is recorded. *)
Lemma draft_chat_opening_submits :
  Js.all_ws (input store_opening) = true
  /\ permits_empty_submission store_opening = true
  /\ events (handleDraftChat sample_parse unreachable store_opening)
     = [SetLoading true; SetInput ""; Fetch (draft_request store_opening);
        SetDraftMessages [plain_turn assistant draft_error_text];
        SetLoading false].
Proof. repeat split; reflexivity. Qed.

(** The sibling path: [handleDownloadContract] raises the alert and
    produces no file when the finished contract yields no text. *)
Lemma handleDownloadContract_no_content fc :
  Js.trim (formattedContent_of fc) = "" ->
  handleDownloadContract (Some fc) = ([Alert no_content_text], Ok tt).
Proof. intros H. unfold handleDownloadContract. rewrite H. reflexivity. Qed.

(** ** The claims *)

(** C1 (subsection floor). A section that has a subsection keeps one or
    more through every run of [deleteSubsection] calls; a call aimed at a
    section with exactly one subsection only raises the alert and leaves
    the whole store as it was. *)
Theorem subsection_floor ops st i sec :
  contractSections st !! i = Some sec ->
  (1 <= List.length (subsections sec))%nat ->
  (exists sec',
      contractSections (delete_subsections ops st) !! i = Some sec'
      /\ (1 <= List.length (subsections sec'))%nat)
  /\ (List.length (subsections sec) = 1%nat ->
      forall j,
        deleteSubsection i j st = ([Alert "At least one subsection is required"], Ok tt)
        /\ after st (deleteSubsection i j st) = st).
Proof.
  intros Hi Hlen. split.
  - revert st sec Hi Hlen. induction ops as [|[a b] rest IH]; intros st sec Hi Hlen.
    + cbn. eauto.
    + cbn [delete_subsections].
      destruct (deleteSubsection_floor st a b i sec Hi Hlen) as (sec1 & H1 & Hlen1).
      eapply IH; eauto.
  - intros Hone j. unfold after, deleteSubsection. rewrite Hi, Hone. split; reflexivity.
Qed.

Lemma subsection_floor_witness :
  let ops := [(1, 0); (0, 0); (1, 0); (1, 1); (0, 3)]%nat in
  let intro := {| section_heading := "Intro"; section_purpose := "Context";
                  subsections := [ {| subsection_heading := "Purpose";
                                      subsection_definition := "Why the contract exists" |} ] |} in
  contractSections store_reviewing !! 0%nat = Some intro
  /\ (1 <= List.length (subsections intro))%nat
  /\ (exists sec',
        contractSections (delete_subsections ops store_reviewing) !! 0%nat = Some sec'
        /\ (1 <= List.length (subsections sec'))%nat)
  /\ deleteSubsection 0 0 store_reviewing
     = ([Alert "At least one subsection is required"], Ok tt)
  /\ after store_reviewing (deleteSubsection 0 0 store_reviewing) = store_reviewing.
Proof.
  intros ops intro.
  assert (H0 : contractSections store_reviewing !! 0%nat = Some intro) by reflexivity.
  assert (H1 : (1 <= List.length (subsections intro))%nat) by (cbn; lia).
  destruct (subsection_floor ops store_reviewing 0 intro H0 H1) as [Hfloor Hrej].
  split; [exact H0|]. split; [exact H1|]. split; [exact Hfloor|].
  exact (Hrej eq_refl 0%nat).
Defined.

(** C2 (blank bodies are exported). At the registry with section A
    holding two spaces and section B holding "hello", the document has a
    title block for A and a paragraph with the two spaces, on the
    Download button path and on both branches of
    [handleDownloadContract]. *)
Lemma export_keeps_blank_section :
  Js.trim "  " = ""
  /\ generateDraftsDocx [("A", Some "  "); ("B", Some "hello")] (Some "Notes")
     = ([Download "Notes.docx" [Heading "A"; Para "  "; Heading "B"; Para "hello"]], Ok tt)
  /\ handleDownloadContract
       (Some {| fc_title := Some "Notes"; fc_contract_title := None;
                fc_sections := None;
                fc_drafts := Some [("A", Some "  "); ("B", Some "hello")] |})
     = ([Download "Notes.docx" [Heading "A"; Para "  "; Heading "B"; Para "hello"]], Ok tt)
  /\ handleDownloadContract
       (Some {| fc_title := Some "Notes"; fc_contract_title := None;
                fc_sections :=
                  Some [ {| fs_heading := Some "A"; fs_content := Some "  " |};
                         {| fs_heading := Some "B"; fs_content := Some "hello" |} ];
                fc_drafts := None |})
     = ([Download "Notes.docx" [Heading "A"; Para "  "; Heading "B"; Para "hello"]], Ok tt)
  /\ In (Heading "A") [Heading "A"; Para "  "; Heading "B"; Para "hello"].
Proof. repeat split; try reflexivity. left. reflexivity. Qed.

(** C2, amended. The export skips no pair: the document is the
    concatenation, in registry order, of one title block per pair
    followed by one paragraph per non-empty chunk of its body between
    runs of line feeds, so its title blocks are the headings of the
    registry, one for one. *)
Theorem export_emits_every_section entries pocTitle :
  exists name,
    generateDraftsDocx (registry entries) pocTitle
    = ([Download name (flat_map section_blocks entries)], Ok tt)
    /\ List.filter is_heading (flat_map section_blocks entries)
       = List.map (fun kv => Heading (fst kv)) entries
    /\ section_blocks ("A", "  ") = [Heading "A"; Para "  "]
    /\ section_blocks ("A", "") = [Heading "A"].
Proof.
  eexists. split; [apply generateDraftsDocx_registry|].
  split; [apply headings_flat_map|]. split; reflexivity.
Qed.

(** C3 (a transport failure is contained). When the request of a
    submission is rejected or answered with a status outside 200 to 299,
    the handler returns normally, the stage keeps its value, the
    transcript gains the user turn (when one is sent) and exactly one
    assistant turn with the error text, and the store is otherwise the
    one before the call with the input cleared and [loading] false;
    neither handler ever lets an exception out, whatever the next call. *)
Theorem transport_failure_contained JSON_parse net st :
  transport_failure net ->
  (submits st = true ->
   exists e,
     result (read_response net) = Throw e
     /\ result (handleSend JSON_parse net st) = Ok tt
     /\ initialChatStep (after st (handleSend JSON_parse net st)) = initialChatStep st
     /\ messages (after st (handleSend JSON_parse net st))
        = messages st ++ [plain_turn user (input st);
                          plain_turn assistant (userErrorMessage e)]
     /\ after st (handleSend JSON_parse net st)
        = with_loading false
            (with_messages
               (messages st ++ [plain_turn user (input st);
                                plain_turn assistant (userErrorMessage e)])
               (with_input "" st)))
  /\ (draft_submits st = true ->
      result (handleDraftChat JSON_parse net st) = Ok tt
      /\ initialChatStep (after st (handleDraftChat JSON_parse net st)) = initialChatStep st
      /\ draftMessages (after st (handleDraftChat JSON_parse net st))
         = updatedMessages_draft st ++ [plain_turn assistant draft_error_text]
      /\ after st (handleDraftChat JSON_parse net st)
         = with_loading false
             (with_draftMessages
                (updatedMessages_draft st ++ [plain_turn assistant draft_error_text])
                (with_input "" st)))
  /\ (forall net' st',
        result (handleSend JSON_parse net' st') = Ok tt
        /\ result (handleDraftChat JSON_parse net' st') = Ok tt).
Proof.
  intros Hfail. destruct (transport_failure_throws net Hfail) as [e He].
  split; [|split].
  - intros Hs. exists e. split; [exact He|].
    rewrite (handleSend_failure JSON_parse net st e Hs He).
    unfold updatedMessages_send. rewrite <- app_assoc. cbn [app].
    repeat split; reflexivity.
  - intros Hs. rewrite (handleDraftChat_failure JSON_parse net st e Hs He).
    unfold draft_prelude.
    destruct (Js.truthy_value (activeSection st) && negb (isReviewedSectionDraftActive st));
      repeat split; reflexivity.
  - intros net' st'. split; [apply handleSend_returns | apply handleDraftChat_returns].
Qed.

Lemma transport_failure_contained_witness :
  transport_failure (FetchResponse 503 StreamEnd)
  /\ submits (store_typed "Draft an NDA") = true
  /\ draft_submits store_drafting = true
  /\ messages (after (store_typed "Draft an NDA")
                 (handleSend sample_parse (FetchResponse 503 StreamEnd)
                    (store_typed "Draft an NDA")))
     = [plain_turn user "Draft an NDA";
        plain_turn assistant
          "Server connection error. Please ensure the backend server is running."]
  /\ draftMessages (after store_drafting
                      (handleDraftChat sample_parse (FetchResponse 503 StreamEnd)
                         store_drafting))
     = [plain_turn user "Both parties are companies";
        plain_turn assistant draft_error_text].
Proof.
  assert (Hf : transport_failure (FetchResponse 503 StreamEnd)) by reflexivity.
  assert (H1 : submits (store_typed "Draft an NDA") = true) by reflexivity.
  assert (H2 : draft_submits store_drafting = true) by reflexivity.
  destruct (transport_failure_contained sample_parse _ (store_typed "Draft an NDA") Hf)
    as (Hsend & _ & _).
  destruct (transport_failure_contained sample_parse _ store_drafting Hf)
    as (_ & Hdraft & _).
  destruct (Hsend H1) as (e & He & _ & _ & Hm & _).
  destruct (Hdraft H2) as (_ & _ & Hd & _).
  split; [exact Hf|]. split; [exact H1|]. split; [exact H2|].
  split.
  - rewrite Hm. cbn in He. injection He as <-. reflexivity.
  - rewrite Hd. reflexivity.
Defined.

(** C4 (interrupts before drafting). In the idea-submission or the
    question-response stage, an interrupt with action
    [get_question_response] leaves the stage at question-response and
    appends, after the user turn, exactly one assistant turn carrying the
    question, reason, section and subsection; an interrupt with action
    [get_structure_review] moves the stage to structure-review and
    replaces the section list, the title and the rephrased idea by the
    ones of the reply. *)
Theorem interrupt_transitions JSON_parse net st raw res :
  submits st = true ->
  result (read_response net) = Ok raw ->
  JSON_parse (strip_event_prefix raw) = inr (DValue res) ->
  r_type res = Some "interrupt" ->
  (r_action res = Some "get_question_response" ->
   initialChatStep (after st (handleSend JSON_parse net st)) = "question-response"
   /\ messages (after st (handleSend JSON_parse net st))
      = messages st
        ++ [plain_turn user (input st);
            {| role := assistant; content := r_question res;
               reason := r_reason res; section := r_section res;
               subsection := r_subsection res |}])
  /\ (r_action res = Some "get_structure_review" ->
      initialChatStep (after st (handleSend JSON_parse net st)) = "structure-review"
      /\ contractSections (after st (handleSend JSON_parse net st)) = r_all_sections res
      /\ selectedTitle (after st (handleSend JSON_parse net st)) = r_title res
      /\ rephrasedIdea (after st (handleSend JSON_parse net st)) = r_idea res).
Proof.
  intros Hs Hr Hp Ht. split; intros Ha.
  - rewrite (handleSend_question JSON_parse net st raw res Hs Hr Hp Ht Ha).
    apply submits_inv in Hs as [_ [Hst | Hst]]; rewrite Hst;
      cbn [String.eqb Ascii.eqb Bool.eqb]; commit_now;
      unfold updatedMessages_send, question_turn;
      cbn [initialChatStep messages with_messages with_input with_loading
             with_initialChatStep];
      rewrite <- app_assoc; (split; [first [reflexivity | exact Hst] | reflexivity]).
  - rewrite (handleSend_structure JSON_parse net st raw res Hs Hr Hp Ht Ha).
    commit_now. repeat split; reflexivity.
Qed.

Lemma interrupt_transitions_witness :
  submits store_answering = true
  /\ initialChatStep
       (after store_answering
          (handleSend sample_parse (sample_reply sample_question_json) store_answering))
     = "question-response"
  /\ messages
       (after store_answering
          (handleSend sample_parse (sample_reply sample_question_json) store_answering))
     = [plain_turn user "Draft an NDA"; plain_turn user "Two companies";
        {| role := assistant; content := Some "Who are the parties?";
           reason := Some "Needed for the preamble"; section := Some "Intro";
           subsection := Some "Purpose" |}]
  /\ contractSections
       (after (store_typed "Draft an NDA")
          (handleSend sample_parse (sample_reply sample_structure_json)
             (store_typed "Draft an NDA")))
     = sample_sections.
Proof.
  assert (H1 : submits store_answering = true) by reflexivity.
  assert (H2 : submits (store_typed "Draft an NDA") = true) by reflexivity.
  assert (Hq : result (read_response (sample_reply sample_question_json))
               = Ok sample_question_json) by reflexivity.
  assert (Hs : result (read_response (sample_reply sample_structure_json))
               = Ok sample_structure_json) by reflexivity.
  destruct (interrupt_transitions sample_parse _ store_answering _ sample_question
              H1 Hq eq_refl eq_refl) as [Hquestion _].
  destruct (interrupt_transitions sample_parse _ (store_typed "Draft an NDA") _
              sample_structure H2 Hs eq_refl eq_refl) as [_ Hstructure].
  destruct (Hquestion eq_refl) as [Hstage Hmsgs].
  destruct (Hstructure eq_refl) as (_ & Hsecs & _).
  split; [exact H1|]. split; [exact Hstage|]. split; [exact Hmsgs | exact Hsecs].
Defined.

(** C5 (the finished document). In the draft chat, a reply with action
    [generate_document] that carries the map of all drafts replaces the
    whole registry by that map, sets the drafting-complete flag and
    appends exactly one assistant turn, the closing one. *)
Theorem generate_document_completes JSON_parse net st raw res all_drafts :
  draft_submits st = true ->
  result (read_response net) = Ok raw ->
  JSON_parse (strip_event_prefix raw) = inr (DValue res) ->
  r_action res = Some "generate_document" ->
  r_all_drafts res = Some all_drafts ->
  drafts (after st (handleDraftChat JSON_parse net st)) = all_drafts
  /\ isDraftingComplete (after st (handleDraftChat JSON_parse net st)) = true
  /\ draftMessages (after st (handleDraftChat JSON_parse net st))
     = updatedMessages_draft st ++ [plain_turn assistant completed_text].
Proof.
  intros Hs Hr Hp Ha Hd.
  rewrite (handleDraftChat_document JSON_parse net st raw res all_drafts Hs Hr Hp Ha Hd).
  unfold draft_prelude.
  destruct (Js.truthy_value (activeSection st) && negb (isReviewedSectionDraftActive st));
    repeat split; reflexivity.
Qed.

Lemma generate_document_completes_witness :
  draft_submits store_drafting = true
  /\ drafts (after store_drafting
               (handleDraftChat sample_parse (sample_reply sample_document_json)
                  store_drafting))
     = [("Intro", Some "Text one."); ("Terms", Some "Text two.")]
  /\ isDraftingComplete
       (after store_drafting
          (handleDraftChat sample_parse (sample_reply sample_document_json)
             store_drafting)) = true
  /\ draftMessages
       (after store_drafting
          (handleDraftChat sample_parse (sample_reply sample_document_json)
             store_drafting))
     = [plain_turn user "Both parties are companies";
        plain_turn assistant completed_text].
Proof.
  assert (H1 : draft_submits store_drafting = true) by reflexivity.
  assert (Hr : result (read_response (sample_reply sample_document_json))
               = Ok sample_document_json) by reflexivity.
  split; [exact H1|].
  exact (generate_document_completes sample_parse _ store_drafting _ sample_document _
           H1 Hr eq_refl eq_refl eq_refl).
Defined.





(** C8 (export with nothing to export). The Download button of the
    draft panel calls [generateDraftsDocx] directly: with an empty
    registry it produces the file "draft.docx" with no block and raises
    no alert, and with bodies that are blank it produces a file of title
    blocks; [handleDownloadContract] raises the alert for a contract
    without entries, but exports a file when the only body is blank. *)
Theorem download_button_exports_without_content :
  downloadDrafts (with_isDraftingComplete true (with_drafts [] store_drafting))
  = ([Download "draft.docx" []], Ok tt)
  /\ downloadDrafts
       (with_isDraftingComplete true
          (with_drafts [("Intro", Some ""); ("Terms", Some "  ")] store_drafting))
     = ([Download "draft.docx" [Heading "Intro"; Heading "Terms"; Para "  "]], Ok tt)
  /\ handleDownloadContract
       (Some {| fc_title := None; fc_contract_title := None;
                fc_sections := None; fc_drafts := Some [] |})
     = ([Alert no_content_text], Ok tt)
  /\ handleDownloadContract
       (Some {| fc_title := None; fc_contract_title := None;
                fc_sections := None; fc_drafts := Some [("Intro", Some "  ")] |})
     = ([Download "Generated Contract.docx" [Heading "Intro"; Para "  "]], Ok tt).
Proof. repeat split; reflexivity. Qed.

(** C9 (the file name is not sanitized). With the title "My NDA!!" the
    suggested file name is "My NDA!!.docx", not "My_NDA.docx". *)
Lemma filename_keeps_title_verbatim :
  generateDraftsDocx [("Intro", Some "Text one."); ("Terms", Some "")] (Some "My NDA!!")
  = ([Download "My NDA!!.docx" [Heading "Intro"; Para "Text one."; Heading "Terms"]], Ok tt)
  /\ "My NDA!!.docx" <> "My_NDA.docx".
Proof. split; [reflexivity | discriminate]. Qed.

(** The [filename] local of [handleDownloadContract], which the download
    does not use. *)
Lemma sanitized_filename_sample :
  sanitized_filename "My NDA!!" = "My_NDA_Contract.docx".
Proof. reflexivity. Qed.

(** C9, amended. [generateDraftsDocx] suggests the title it is given,
    as it is, followed by ".docx", and "draft.docx" when the title is
    missing or empty. *)
Theorem suggested_filename entries pocTitle :
  exists children,
    generateDraftsDocx (registry entries) pocTitle
    = ([Download
          (match pocTitle with
           | Some (String c r) => String c r +:+ ".docx"
           | Some EmptyString | None => "draft.docx"
           end) children], Ok tt).
Proof.
  eexists. rewrite generateDraftsDocx_registry.
  destruct pocTitle as [[|c r]|]; reflexivity.
Qed.

(** C10 (placeholders on every change of the section list). Whenever
    the section list is replaced (an edit of a section or subsection
    field, the deletion of a section or of a subsection, the arrival of
    the structure proposal), every heading of the new list holds the
    placeholder in the registry afterwards, whatever was stored under it
    before. *)
Theorem placeholder_on_section_change st m sec :
  section_change st m ->
  In sec (contractSections (after st m)) ->
  Js.get (section_heading sec) (drafts (after st m)) = Some (Some placeholder).
Proof.
  intros Hc Hin. unfold after in *.
  apply commit_has_sections; [eapply section_change_sets; exact Hc | exact Hin].
Qed.

Lemma placeholder_on_section_change_witness :
  let m := updateSection 1 Field_section_heading "Obligations" store_reviewing in
  let intro := {| section_heading := "Intro"; section_purpose := "Context";
                  subsections := [ {| subsection_heading := "Purpose";
                                      subsection_definition := "Why the contract exists" |} ] |} in
  section_change store_reviewing m
  /\ In intro (contractSections (after store_reviewing m))
  /\ Js.get "Intro" (drafts store_reviewing) = Some (Some "Edited by the user.")
  /\ Js.get "Intro" (drafts (after store_reviewing m)) = Some (Some placeholder).
Proof.
  intros m intro.
  assert (Hc : section_change store_reviewing m)
    by (eapply change_section_field; reflexivity).
  assert (Hin : In intro (contractSections (after store_reviewing m)))
    by (left; reflexivity).
  split; [exact Hc|]. split; [exact Hin|]. split; [reflexivity|].
  exact (placeholder_on_section_change store_reviewing m intro Hc Hin).
Defined.

(** * Further properties of the code *)

(** ** [chatWithDraftAgent] *)

Lemma startsWith_split p s :
  Js.startsWith p s = true -> s = p +:+ Js.slice (String.length p) s.
Proof.
  revert s. induction p as [|a p IH]; intros s H; [reflexivity|].
  destruct s as [|b s]; [discriminate|]. cbn in H.
  apply andb_prop in H as [Hab Hp]. apply Ascii.eqb_eq in Hab. subst b.
  change (String a s = String a (p +:+ Js.slice (String.length p) s)).
  f_equal. apply IH, Hp.
Qed.

Lemma first_data_event_spec lines :
  Js.truthy (first_data_event lines) = true ->
  In ("data: " +:+ first_data_event lines) lines
  /\ Js.truthy (Js.trim (first_data_event lines)) = true.
Proof.
  induction lines as [|line rest IH]; [discriminate|].
  cbn [first_data_event].
  destruct (Js.startsWith "data: " line) eqn:Hp.
  - destruct (Js.truthy (Js.trim (Js.slice 6 line))) eqn:Ht.
    + intros _. split; [|exact Ht]. left.
      exact (startsWith_split "data: " line Hp).
    + intros H. destruct (IH H). split; [right|]; assumption.
  - intros H. destruct (IH H). split; [right|]; assumption.
Qed.

Lemma read_body_quiet body : quiet body = true -> read_body body = ([], Ok "").
Proof.
  induction body as [|chunk rest IH|e]; cbn; [reflexivity| |discriminate].
  intros H. apply andb_prop in H as [Hc Hr].
  destruct (Js.truthy (first_data_event (Js.split_lines chunk))); [discriminate|].
  apply IH, Hr.
Qed.

Lemma read_body_result body raw :
  result (read_body body) = Ok raw ->
  raw = "" \/ Js.truthy (Js.trim raw) = true.
Proof.
  induction body as [|chunk rest IH|e]; cbn.
  - intros H. injection H as <-. left. reflexivity.
  - destruct (Js.truthy (first_data_event (Js.split_lines chunk))) eqn:Hc.
    + cbn. intros H. injection H as <-. right.
      apply first_data_event_spec, Hc.
    + exact IH.
  - discriminate.
Qed.

Lemma truthy_trim_nonempty s : Js.truthy (Js.trim s) = true -> s <> "".
Proof. intros H ->. discriminate H. Qed.

Lemma read_response_result net raw :
  result (read_response net) = Ok raw -> Js.truthy (Js.trim raw) = true.
Proof.
  destruct net as [e|status body]; cbn; [discriminate|].
  destruct (response_ok status); cbn; [|discriminate].
  destruct (null_body_status status); [discriminate|].
  pose proof (read_body_result body) as Hb.
  destruct (read_body body) as [l [r|e]]; cbn in *; [|discriminate].
  destruct (Hb r eq_refl) as [-> | Ht]; cbn; [discriminate|].
  destruct r as [|c r]; [discriminate Ht|]. cbn [Js.truthy Js.is_empty negb orb].
  destruct (Js.trim (String c r)) eqn:E; [discriminate Ht|].
  cbn. intros H. injection H as <-. rewrite E. reflexivity.
Qed.

(** X1. A call of [chatWithDraftAgent] makes exactly one request, with
    the empty string as query when none is given, and a reply it returns
    is never empty or blank. *)
Theorem chatWithDraftAgent_one_request sid q i ids net raw :
  result (chatWithDraftAgent sid q i ids net) = Ok raw ->
  events (chatWithDraftAgent sid q i ids net)
  = [Fetch {| rq_session_id := sid;
              rq_query := match q with Some text => text | None => "" end;
              rq_is_interrupt := i; rq_idea_structuring := ids |}]
  /\ raw <> "" /\ Js.trim raw <> "".
Proof.
  rewrite chatWithDraftAgent_eq. cbn [events result fst snd]. intros H.
  apply read_response_result in H.
  split; [destruct q; reflexivity|].
  split; [apply truthy_trim_nonempty, H|].
  intros E. rewrite E in H. discriminate H.
Qed.

Lemma chatWithDraftAgent_one_request_witness :
  result (chatWithDraftAgent (Some "sess-1") None true (idea_structuring_of store_drafting)
            (sample_reply sample_document_json))
  = Ok sample_document_json
  /\ events (chatWithDraftAgent (Some "sess-1") None true
               (idea_structuring_of store_drafting) (sample_reply sample_document_json))
     = [Fetch {| rq_session_id := Some "sess-1"; rq_query := "";
                 rq_is_interrupt := true;
                 rq_idea_structuring := idea_structuring_of store_drafting |}]
  /\ Js.trim sample_document_json <> "".
Proof.
  assert (H : result (chatWithDraftAgent (Some "sess-1") None true
                        (idea_structuring_of store_drafting)
                        (sample_reply sample_document_json))
              = Ok sample_document_json) by reflexivity.
  destruct (chatWithDraftAgent_one_request _ _ _ _ _ _ H) as (He & _ & Ht).
  split; [exact H|]. split; [exact He | exact Ht].
Defined.

Lemma split_lines_cons_line line r :
  no_line_feed line = true ->
  Js.split_lines (line +:+ nl +:+ r) = line :: Js.split_lines r.
Proof.
  induction line as [|c l IH]; intros H.
  - reflexivity.
  - cbn [no_line_feed] in H. apply andb_prop in H as [Hc Hl].
    change (Js.split_lines (String c (l +:+ nl +:+ r)) = String c l :: Js.split_lines r).
    cbn [Js.split_lines]. destruct (Js.is_nl c); [discriminate Hc|].
    rewrite (IH Hl). reflexivity.
Qed.

Lemma split_lines_one_line line :
  no_line_feed line = true -> Js.split_lines line = [line].
Proof.
  induction line as [|c l IH]; intros H; [reflexivity|].
  cbn [no_line_feed] in H. apply andb_prop in H as [Hc Hl].
  cbn [Js.split_lines]. destruct (Js.is_nl c); [discriminate Hc|].
  rewrite (IH Hl). reflexivity.
Qed.

(** Splitting a chunk at its line feeds gives back the lines it was made
    of. *)
Lemma split_lines_chunk_of lines :
  lines <> [] ->
  Forall (fun l => no_line_feed l = true) lines ->
  Js.split_lines (chunk_of lines) = lines.
Proof.
  unfold chunk_of. induction lines as [|line rest IH]; intros Hne Hall; [congruence|].
  inversion Hall as [|? ? Hl Hrest]; subst.
  destruct rest as [|next rest'].
  - apply split_lines_one_line, Hl.
  - change (Js.split_lines (line +:+ nl +:+ String.concat nl (next :: rest'))
            = line :: next :: rest').
    rewrite split_lines_cons_line by exact Hl.
    rewrite IH; [reflexivity | discriminate | exact Hrest].
Qed.

Lemma first_data_event_plain lines :
  Forall plain_line lines -> first_data_event lines = "".
Proof.
  induction 1 as [|line rest [_ Hno] _ IH]; [reflexivity|].
  cbn [first_data_event].
  destruct (Js.startsWith "data: " line) eqn:Hp; [|exact IH].
  destruct (Js.truthy (Js.trim (Js.slice 6 line))) eqn:Ht; [|exact IH].
  exfalso. apply (Hno (Js.slice 6 line)). split; [|exact Ht].
  exact (startsWith_split "data: " line Hp).
Qed.

Lemma first_data_event_first before data behind :
  Forall plain_line before ->
  Js.truthy (Js.trim data) = true ->
  first_data_event (before ++ ("data: " +:+ data) :: behind) = data.
Proof.
  intros Hb Hd. induction Hb as [|line rest [_ Hno] _ IH].
  - cbn [app first_data_event].
    change (Js.startsWith "data: " ("data: " +:+ data)) with true.
    change (Js.slice 6 ("data: " +:+ data)) with data.
    rewrite Hd. reflexivity.
  - change ((line :: rest) ++ ("data: " +:+ data) :: behind)
      with (line :: (rest ++ ("data: " +:+ data) :: behind)).
    cbn [first_data_event].
    destruct (Js.startsWith "data: " line) eqn:Hp; [|exact IH].
    destruct (Js.truthy (Js.trim (Js.slice 6 line))) eqn:Ht; [|exact IH].
    exfalso. apply (Hno (Js.slice 6 line)). split; [|exact Ht].
    exact (startsWith_split "data: " line Hp).
Qed.

Lemma read_body_skips skipped body :
  Forall (fun lines => lines <> [] /\ Forall plain_line lines) skipped ->
  read_body (stream_of (List.map chunk_of skipped) body) = read_body body.
Proof.
  induction 1 as [|lines rest [Hne Hl] _ IH]; [reflexivity|].
  cbn [List.map stream_of fold_right read_body].
  rewrite split_lines_chunk_of;
    [|exact Hne | eapply Forall_impl; [exact Hl | intros l [Hn _]; exact Hn]].
  rewrite (first_data_event_plain _ Hl). exact IH.
Qed.

Lemma stream_of_app a b rest :
  stream_of (a ++ b) rest = stream_of a (stream_of b rest).
Proof. apply fold_right_app. Qed.

(** X2. The reply is the data of the first line, over all chunks, that
    consists of "data: " and data that is not blank: the chunks before
    it and the lines before it in its chunk are passed over, the prefix
    is removed, and neither the lines after it nor what the stream holds
    after its chunk, a read error included, are looked at. *)
Theorem first_data_event_wins status skipped before data behind rest :
  response_ok status = true ->
  null_body_status status = false ->
  Forall (fun lines => lines <> [] /\ Forall plain_line lines) skipped ->
  Forall plain_line before ->
  no_line_feed data = true ->
  Js.truthy (Js.trim data) = true ->
  Forall (fun l => no_line_feed l = true) behind ->
  read_response
    (FetchResponse status
       (stream_of
          (List.map chunk_of skipped
           ++ [chunk_of (before ++ ("data: " +:+ data) :: behind)])
          rest))
  = ([], Ok data).
Proof.
  intros Hok Hbody Hs Hb Hn Hd Ha.
  cbn [read_response]. rewrite Hok, Hbody. cbn [negb].
  rewrite stream_of_app, (read_body_skips _ _ Hs).
  cbn [stream_of fold_right read_body].
  rewrite split_lines_chunk_of.
  - rewrite (first_data_event_first _ _ _ Hb Hd).
    assert (Ht : Js.truthy data = true).
    { destruct data; [discriminate Hd | reflexivity]. }
    rewrite Ht. cbn [bind ret app].
    destruct (Js.trim data); [discriminate Hd|]. rewrite Ht. reflexivity.
  - destruct before; discriminate.
  - apply Forall_app. split.
    + eapply Forall_impl; [exact Hb | intros l [Hl _]; exact Hl].
    + constructor; [exact Hn | exact Ha].
Qed.

Lemma first_data_event_wins_witness :
  read_response
    (FetchResponse 200
       (StreamChunk (": ping" +:+ nl)
          (StreamChunk (": ping" +:+ nl +:+ "data:    " +:+ nl +:+ "data: first" +:+ nl
                        +:+ "data: second" +:+ nl)
             (StreamError {| message := "network error" |}))))
  = ([], Ok "first").
Proof.
  assert (Hping : plain_line ": ping").
  { split; [reflexivity|]. intros data [H _]. discriminate H. }
  assert (Hend : plain_line "").
  { split; [reflexivity|]. intros data [H _]. discriminate H. }
  assert (Hblank : plain_line "data:    ").
  { split; [reflexivity|]. intros data [H Ht].
    apply (f_equal (Js.slice 6)) in H.
    change (Js.slice 6 ("data: " +:+ data)) with data in H.
    rewrite <- H in Ht. discriminate Ht. }
  assert (Hskipped : Forall (fun lines => lines <> [] /\ Forall plain_line lines)
                        [[": ping"; ""]]).
  { constructor; [|constructor]. split; [discriminate|].
    constructor; [exact Hping|]. constructor; [exact Hend | constructor]. }
  assert (Hbefore : Forall plain_line [": ping"; "data:    "]).
  { constructor; [exact Hping|]. constructor; [exact Hblank | constructor]. }
  assert (Hbehind : Forall (fun l => no_line_feed l = true) ["data: second"; ""]).
  { repeat constructor. }
  exact (first_data_event_wins 200 [[": ping"; ""]] [": ping"; "data:    "] "first"
           ["data: second"; ""] (StreamError {| message := "network error" |})
           eq_refl eq_refl Hskipped Hbefore eq_refl eq_refl Hbehind).
Defined.

(** ** Error texts of [handleSend] *)

Lemma all_chars_app p a b :
  all_chars p (a +:+ b) = all_chars p a && all_chars p b.
Proof.
  induction a as [|c a IH]; [reflexivity|].
  change (all_chars p (String c (a +:+ b)) = all_chars p (String c a) && all_chars p b).
  cbn [all_chars]. rewrite IH, andb_assoc. reflexivity.
Qed.

Lemma pretty_N_go_chars p :
  (forall d, p (pretty_N_char d) = true) ->
  forall x s, all_chars p s = true -> all_chars p (pretty_N_go x s) = true.
Proof.
  intros Hd x. induction (N.lt_wf_0 x) as [x _ IH]. intros s Hs.
  destruct (decide (0 < x)%N) as [Hx|Hx].
  - rewrite pretty_N_go_step by exact Hx.
    apply IH; [apply N.div_lt; [exact Hx | reflexivity]|].
    cbn [all_chars]. rewrite Hd, Hs. reflexivity.
  - assert (x = 0%N) as -> by lia. rewrite pretty_N_go_0. exact Hs.
Qed.

Lemma pretty_N_chars p (x : N) :
  (forall d, p (pretty_N_char d) = true) -> all_chars p (pretty x) = true.
Proof.
  intros Hd. unfold pretty, pretty_N. destruct (decide (x = 0%N)).
  - change (p (pretty_N_char 0) && true = true). rewrite (Hd 0%N). reflexivity.
  - apply pretty_N_go_chars; [exact Hd | reflexivity].
Qed.

Lemma pretty_N_char_is_digit d : Js.is_digit (pretty_N_char d) = true.
Proof. unfold pretty_N_char. repeat case_match; reflexivity. Qed.

Lemma startsWith_absent c sub s :
  all_chars (fun x => negb (Ascii.eqb c x)) s = true ->
  Js.startsWith (String c sub) s = false.
Proof.
  destruct s as [|b s]; [reflexivity|]. cbn.
  intros H. apply andb_prop in H as [Hb _].
  destruct (Ascii.eqb c b); [discriminate | reflexivity].
Qed.

Lemma includes_absent c sub s :
  all_chars (fun x => negb (Ascii.eqb c x)) s = true ->
  Js.includes (String c sub) s = false.
Proof.
  induction s as [|b s IH]; intros H.
  - reflexivity.
  - cbn [Js.includes]. rewrite (startsWith_absent c sub _ H).
    cbn in H. apply andb_prop in H as [_ Hs]. exact (IH Hs).
Qed.

Lemma digits_avoid c s :
  Js.is_digit c = false ->
  all_chars Js.is_digit s = true ->
  all_chars (fun x => negb (Ascii.eqb c x)) s = true.
Proof.
  intros Hc. induction s as [|b s IH]; [reflexivity|].
  cbn. intros H. apply andb_prop in H as [Hb Hs]. rewrite (IH Hs), andb_true_r.
  destruct (Ascii.eqb c b) eqn:E; [|reflexivity].
  apply Ascii.eqb_eq in E. subst b. congruence.
Qed.

Lemma status_message_avoids c (status : N) :
  Js.is_digit c = false ->
  all_chars (fun x => negb (Ascii.eqb c x)) "HTTP error! status: " = true ->
  all_chars (fun x => negb (Ascii.eqb c x)) ("HTTP error! status: " +:+ pretty status) = true.
Proof.
  intros Hc Hp. rewrite all_chars_app, Hp. cbn [andb].
  apply digits_avoid; [exact Hc|].
  apply pretty_N_chars, pretty_N_char_is_digit.
Qed.

Lemma userErrorMessage_status (status : N) :
  userErrorMessage {| message := "HTTP error! status: " +:+ pretty status |}
  = "Server connection error. Please ensure the backend server is running.".
Proof.
  unfold userErrorMessage. cbn [message].
  change (Js.truthy ("HTTP error! status: " +:+ pretty status)) with true.
  cbn match.
  rewrite (includes_absent "F" "ailed to fetch")
    by (apply status_message_avoids; reflexivity).
  rewrite (includes_absent "N" "etwork Error")
    by (apply status_message_avoids; reflexivity).
  rewrite (includes_absent "E" "mpty response")
    by (apply status_message_avoids; reflexivity).
  reflexivity.
Qed.

Lemma after_handleSend_failure JSON_parse net st e :
  submits st = true ->
  result (read_response net) = Throw e ->
  after st (handleSend JSON_parse net st)
  = with_loading false
      (with_messages
         (messages st ++ [plain_turn user (input st);
                          plain_turn assistant (userErrorMessage e)])
         (with_input "" st)).
Proof.
  intros Hs He. rewrite (handleSend_failure JSON_parse net st e Hs He).
  unfold updatedMessages_send. rewrite <- app_assoc. reflexivity.
Qed.

(** X3. Whatever status outside 200 to 299 the agent answers with,
    [handleSend] shows the text about the server connection: the status
    digits in the error message never trigger one of the tests made
    before the one for "HTTP error". *)
Theorem http_error_text JSON_parse status body st :
  response_ok status = false ->
  submits st = true ->
  messages (after st (handleSend JSON_parse (FetchResponse status body) st))
  = messages st
    ++ [plain_turn user (input st);
        plain_turn assistant
          "Server connection error. Please ensure the backend server is running."].
Proof.
  intros Hok Hs.
  assert (He : result (read_response (FetchResponse status body))
               = Throw {| message := "HTTP error! status: " +:+ pretty status |}).
  { cbn. rewrite Hok. reflexivity. }
  rewrite (after_handleSend_failure JSON_parse _ st _ Hs He), userErrorMessage_status.
  reflexivity.
Qed.

Lemma http_error_text_witness :
  response_ok 404 = false
  /\ submits store_answering = true
  /\ messages (after store_answering
                 (handleSend sample_parse (FetchResponse 404 StreamEnd) store_answering))
     = [plain_turn user "Draft an NDA"; plain_turn user "Two companies";
        plain_turn assistant
          "Server connection error. Please ensure the backend server is running."].
Proof.
  assert (H1 : response_ok 404 = false) by reflexivity.
  assert (H2 : submits store_answering = true) by reflexivity.
  split; [exact H1|]. split; [exact H2|].
  exact (http_error_text sample_parse 404 StreamEnd store_answering H1 H2).
Defined.

(** X4. When a response with a status from 200 to 299 that has a body
    (any but 204 and 205) ends without a data event in any chunk,
    [chatWithDraftAgent] throws "Empty response from server" and
    [handleSend] shows the text about an empty response. A response
    with status 204 or 205 has no body: reading it throws a [TypeError]
    and [handleSend] shows the generic apology instead. In both cases
    the stage is unchanged. *)
Theorem empty_stream_text JSON_parse status body st :
  response_ok status = true ->
  submits st = true ->
  (null_body_status status = false ->
   quiet body = true ->
   result (read_response (FetchResponse status body))
   = Throw {| message := "Empty response from server" |}
   /\ messages (after st (handleSend JSON_parse (FetchResponse status body) st))
      = messages st
        ++ [plain_turn user (input st);
            plain_turn assistant
              "The server returned an empty response. Please try again."]
   /\ initialChatStep (after st (handleSend JSON_parse (FetchResponse status body) st))
      = initialChatStep st)
  /\ (null_body_status status = true ->
      result (read_response (FetchResponse status body)) = Throw null_body_error
      /\ messages (after st (handleSend JSON_parse (FetchResponse status body) st))
         = messages st
           ++ [plain_turn user (input st);
               plain_turn assistant
                 "I apologize, but I encountered an error. Please try again."]
      /\ initialChatStep (after st (handleSend JSON_parse (FetchResponse status body) st))
         = initialChatStep st).
Proof.
  intros Hok Hs. split.
  - intros Hb Hq.
    assert (He : result (read_response (FetchResponse status body))
                 = Throw {| message := "Empty response from server" |}).
    { cbn [read_response]. rewrite Hok, Hb, (read_body_quiet body Hq). reflexivity. }
    split; [exact He|].
    rewrite (after_handleSend_failure JSON_parse _ st _ Hs He). split; reflexivity.
  - intros Hb.
    assert (He : result (read_response (FetchResponse status body))
                 = Throw null_body_error).
    { cbn [read_response]. rewrite Hok, Hb. reflexivity. }
    split; [exact He|].
    rewrite (after_handleSend_failure JSON_parse _ st _ Hs He). split; reflexivity.
Qed.

Lemma empty_stream_text_witness :
  let body := StreamChunk (": keep-alive" +:+ nl)
                (StreamChunk ("event: ping" +:+ nl +:+ "data: " +:+ nl) StreamEnd) in
  quiet body = true
  /\ submits (store_typed "Draft an NDA") = true
  /\ messages (after (store_typed "Draft an NDA")
                 (handleSend sample_parse (FetchResponse 200 body)
                    (store_typed "Draft an NDA")))
     = [plain_turn user "Draft an NDA";
        plain_turn assistant
          "The server returned an empty response. Please try again."]
  /\ messages (after (store_typed "Draft an NDA")
                 (handleSend sample_parse (FetchResponse 204 StreamEnd)
                    (store_typed "Draft an NDA")))
     = [plain_turn user "Draft an NDA";
        plain_turn assistant
          "I apologize, but I encountered an error. Please try again."].
Proof.
  intros body.
  assert (H2 : quiet body = true) by reflexivity.
  assert (H3 : submits (store_typed "Draft an NDA") = true) by reflexivity.
  split; [exact H2|]. split; [exact H3|]. split.
  - exact (proj1 (proj2 (proj1 (empty_stream_text sample_parse 200 body _ eq_refl H3)
                           eq_refl H2))).
  - exact (proj1 (proj2 (proj2 (empty_stream_text sample_parse 204 StreamEnd _ eq_refl H3)
                           eq_refl))).
Defined.

(** ** [handleSend] beyond the two interrupts *)

Ltac open_handleSend Hs :=
  apply submits_inv in Hs as [?Hin ?Hst]; unfold handleSend;
  match goal with Hi : Js.truthy _ = true |- _ => rewrite Hi end;
  cbn [negb].

(** X5. In a stage other than idea-submission and question-response
    (structure-review, or "done" once drafting has started), a non-blank
    input is recorded as a user turn and cleared, but nothing is sent to
    the agent and the stage stays where it is. *)
Theorem handleSend_outside_its_stages JSON_parse net st :
  Js.truthy (Js.trim (input st)) = true ->
  initialChatStep st <> "idea-submission" ->
  initialChatStep st <> "question-response" ->
  handleSend JSON_parse net st
  = ([SetMessages (messages st ++ [plain_turn user (input st)]);
      SetInput ""; SetLoading true; SetLoading false], Ok tt)
  /\ fetches (events (handleSend JSON_parse net st)) = 0%nat
  /\ after st (handleSend JSON_parse net st)
     = with_loading false
         (with_messages (messages st ++ [plain_turn user (input st)])
            (with_input "" st)).
Proof.
  intros Hin H1 H2.
  assert (E : handleSend JSON_parse net st
              = ([SetMessages (messages st ++ [plain_turn user (input st)]);
                  SetInput ""; SetLoading true; SetLoading false], Ok tt)).
  { unfold handleSend. rewrite Hin. cbn [negb].
    apply String.eqb_neq in H1, H2. rewrite H1, H2. reflexivity. }
  rewrite E. repeat split; reflexivity.
Qed.

Lemma handleSend_outside_its_stages_witness :
  let st := with_input "One more thing" store_drafting in
  Js.truthy (Js.trim (input st)) = true
  /\ initialChatStep st = "done"
  /\ fetches (events (handleSend sample_parse (sample_reply sample_question_json) st))
     = 0%nat
  /\ initialChatStep
       (after st (handleSend sample_parse (sample_reply sample_question_json) st))
     = "done".
Proof.
  intros st.
  assert (H0 : Js.truthy (Js.trim (input st)) = true) by reflexivity.
  assert (H1 : initialChatStep st <> "idea-submission") by discriminate.
  assert (H2 : initialChatStep st <> "question-response") by discriminate.
  destruct (handleSend_outside_its_stages sample_parse
              (sample_reply sample_question_json) st H0 H1 H2) as (_ & Hf & Ha).
  split; [exact H0|]. split; [reflexivity|]. split; [exact Hf|].
  rewrite Ha. reflexivity.
Defined.

(** X6. A reply that [JSON.parse] refuses, or that decodes to [null],
    costs [handleSend] one assistant turn with an error text and nothing
    else: the stage, the section list, the session id and the registry
    are the ones before the call. For [null] the text is the generic
    apology. *)
Theorem handleSend_undecodable_reply JSON_parse net st raw :
  submits st = true ->
  result (read_response net) = Ok raw ->
  (forall msg,
      JSON_parse (strip_event_prefix raw) = inl msg ->
      after st (handleSend JSON_parse net st)
      = with_loading false
          (with_messages
             (messages st
              ++ [plain_turn user (input st);
                  plain_turn assistant
                    (userErrorMessage
                       {| message := "Failed to parse server response: " +:+ msg |})])
             (with_input "" st)))
  /\ (JSON_parse (strip_event_prefix raw) = inr DNull ->
      after st (handleSend JSON_parse net st)
      = with_loading false
          (with_messages
             (messages st
              ++ [plain_turn user (input st);
                  plain_turn assistant
                    "I apologize, but I encountered an error. Please try again."])
             (with_input "" st))).
Proof.
  intros Hs Hr. split.
  - intros msg Hp. open_handleSend Hs.
    destruct Hst as [-> | ->]; cbn [String.eqb Ascii.eqb Bool.eqb];
      rewrite chatWithDraftAgent_eq, Hr; cbn [bind result snd emit];
      unfold parse_reply; rewrite Hp; cbn [bind throw try_catch finally emit app];
      unfold after; cbn [events fst]; unfold commit;
      cbn [existsb sets_contractSections orb apply_events fold_left apply_event];
      rewrite <- app_assoc; reflexivity.
  - intros Hp. open_handleSend Hs.
    destruct Hst as [-> | ->]; cbn [String.eqb Ascii.eqb Bool.eqb];
      rewrite chatWithDraftAgent_eq, Hr; cbn [bind result snd emit];
      unfold parse_reply; rewrite Hp;
      cbn [bind throw ret fields_of try_catch finally emit app];
      unfold after; cbn [events fst]; unfold commit;
      cbn [existsb sets_contractSections orb apply_events fold_left apply_event];
      rewrite <- app_assoc; reflexivity.
Qed.

Lemma handleSend_undecodable_reply_witness :
  let st := store_typed "Draft an NDA" in
  let html := sample_reply "<html>Bad Gateway</html>" in
  submits st = true
  /\ result (read_response html) = Ok "<html>Bad Gateway</html>"
  /\ sample_parse2 (strip_event_prefix "<html>Bad Gateway</html>") = inl "Unexpected token"
  /\ messages (after st (handleSend sample_parse2 html st))
     = [plain_turn user "Draft an NDA";
        plain_turn assistant
          "I apologize, but I encountered an error. Please try again."]
  /\ sample_parse2 (strip_event_prefix "null") = inr DNull
  /\ initialChatStep (after st (handleSend sample_parse2 (sample_reply "null") st))
     = "idea-submission".
Proof.
  intros st html.
  assert (H1 : submits st = true) by reflexivity.
  assert (H2 : result (read_response html) = Ok "<html>Bad Gateway</html>") by reflexivity.
  assert (H3 : result (read_response (sample_reply "null")) = Ok "null") by reflexivity.
  assert (P1 : sample_parse2 (strip_event_prefix "<html>Bad Gateway</html>")
               = inl "Unexpected token") by reflexivity.
  assert (P2 : sample_parse2 (strip_event_prefix "null") = inr DNull) by reflexivity.
  pose proof (proj1 (handleSend_undecodable_reply sample_parse2 html st _ H1 H2) _ P1) as E1.
  pose proof (proj2 (handleSend_undecodable_reply sample_parse2 (sample_reply "null") st _
                       H1 H3) P2) as E2.
  split; [exact H1|]. split; [exact H2|]. split; [exact P1|].
  split; [rewrite E1; reflexivity|]. split; [exact P2|].
  rewrite E2. reflexivity.
Defined.

(** X7. A decoded reply that is not an interrupt with one of the two
    actions (an "end" reply, an unknown type or action, a value without
    these fields) is dropped without a trace: the user turn stays, no
    assistant turn and no error text is added, and the stage is the one
    before the call. *)
Theorem handleSend_drops_other_replies JSON_parse net st raw res :
  submits st = true ->
  result (read_response net) = Ok raw ->
  JSON_parse (strip_event_prefix raw) = inr (DValue res) ->
  handled_interrupt res = false ->
  after st (handleSend JSON_parse net st)
  = with_loading false
      (with_messages (messages st ++ [plain_turn user (input st)])
         (with_input "" st)).
Proof.
  intros Hs Hr Hp Hh. unfold handled_interrupt in Hh. open_handleSend Hs.
  destruct Hst as [-> | ->]; cbn [String.eqb Ascii.eqb Bool.eqb];
    rewrite chatWithDraftAgent_eq, Hr; cbn [bind result snd emit];
    rewrite (parse_reply_ok _ _ _ Hp); cbn [bind fields_of ret];
    destruct (is_str (r_type res) "interrupt");
    destruct (is_str (r_action res) "get_question_response");
    destruct (is_str (r_action res) "get_structure_review");
    try discriminate Hh; reflexivity.
Qed.

Lemma handleSend_drops_other_replies_witness :
  let st := store_typed "Draft an NDA" in
  submits st = true
  /\ handled_interrupt sample_end = false
  /\ after st (handleSend sample_parse2 (sample_reply sample_end_json) st)
     = with_loading false
         (with_messages [plain_turn user "Draft an NDA"] (with_input "" st)).
Proof.
  intros st.
  assert (H1 : submits st = true) by reflexivity.
  assert (H2 : result (read_response (sample_reply sample_end_json)) = Ok sample_end_json)
    by reflexivity.
  assert (H3 : handled_interrupt sample_end = false) by reflexivity.
  split; [exact H1|]. split; [exact H3|].
  exact (handleSend_drops_other_replies sample_parse2 _ st _ sample_end H1 H2 eq_refl H3).
Defined.

(** ** What the submission handlers never touch *)

Ltac give_suffix :=
  first
    [ exists []; split; [rewrite app_nil_r; reflexivity | cbn; lia]
    | eexists; split;
      [cbn -[userErrorMessage Js.set seed check_draft_text];
       rewrite <- ?app_assoc; reflexivity | cbn; lia] ].

(** X8. Whatever the network and the parser do, a call of [handleSend]
    makes at most one request, only appends to the transcript (at most
    the user turn and one assistant turn), leaves the stage where it is
    or moves it to question-response or structure-review, and never
    touches the draft transcript, the active section, the two drafting
    flags or the user context. *)
Theorem handleSend_frame JSON_parse net st :
  (fetches (events (handleSend JSON_parse net st)) <= 1)%nat
  /\ (exists suffix,
        messages (after st (handleSend JSON_parse net st)) = messages st ++ suffix
        /\ (List.length suffix <= 2)%nat)
  /\ (initialChatStep (after st (handleSend JSON_parse net st)) = initialChatStep st
      \/ initialChatStep (after st (handleSend JSON_parse net st)) = "question-response"
      \/ initialChatStep (after st (handleSend JSON_parse net st)) = "structure-review")
  /\ draftMessages (after st (handleSend JSON_parse net st)) = draftMessages st
  /\ activeSection (after st (handleSend JSON_parse net st)) = activeSection st
  /\ isReviewedSectionDraftActive (after st (handleSend JSON_parse net st))
     = isReviewedSectionDraftActive st
  /\ isDraftingComplete (after st (handleSend JSON_parse net st)) = isDraftingComplete st
  /\ userContext (after st (handleSend JSON_parse net st)) = userContext st.
Proof.
  handleSend_cases JSON_parse net st; settle_store;
    (split; [cbn; lia|]); (split; [give_suffix|]);
    (split; [first [left; reflexivity | right; left; reflexivity
                   | right; right; reflexivity]|]);
    repeat split; reflexivity.
Qed.

(** X9. Whatever the network and the parser do, a call of
    [handleDraftChat] makes at most one request, only appends to the
    draft transcript (at most the user turn and one assistant turn), and
    never touches the stage, the first transcript, the section list, the
    session id, the title, the rephrased idea or the user context: once
    the stage is "done" no submission moves it. *)
Theorem handleDraftChat_frame JSON_parse net st :
  (fetches (events (handleDraftChat JSON_parse net st)) <= 1)%nat
  /\ (exists suffix,
        draftMessages (after st (handleDraftChat JSON_parse net st))
        = draftMessages st ++ suffix
        /\ (List.length suffix <= 2)%nat)
  /\ initialChatStep (after st (handleDraftChat JSON_parse net st)) = initialChatStep st
  /\ messages (after st (handleDraftChat JSON_parse net st)) = messages st
  /\ contractSections (after st (handleDraftChat JSON_parse net st)) = contractSections st
  /\ session_id (after st (handleDraftChat JSON_parse net st)) = session_id st
  /\ selectedTitle (after st (handleDraftChat JSON_parse net st)) = selectedTitle st
  /\ rephrasedIdea (after st (handleDraftChat JSON_parse net st)) = rephrasedIdea st
  /\ userContext (after st (handleDraftChat JSON_parse net st)) = userContext st.
Proof.
  handleDraftChat_cases JSON_parse net st; settle_store;
    (split; [cbn; lia|]); (split; [give_suffix|]);
    repeat split; reflexivity.
Qed.

(** ** [handleDraftChat] branch by branch *)

Ltac open_handleDraftChat Hs :=
  unfold handleDraftChat, draft_submits, permits_empty_submission,
    updatedMessages_draft in *;
  destruct (Js.truthy (Js.trim (input _))), (Js.truthy_value (activeSection _)),
    (isReviewedSectionDraftActive _);
  try discriminate Hs;
  cbn [negb andb orb when]; rewrite chatWithDraftAgent_eq.

(** X10. A [get_question_response] reply in the draft chat makes the
    reply's section the active one, appends one assistant turn with the
    question and the reason, and writes the returned draft under that
    section only when the draft is a non-empty string; without one the
    registry is left as it was. *)
Theorem draft_question_reply JSON_parse net st raw res :
  draft_submits st = true ->
  result (read_response net) = Ok raw ->
  JSON_parse (strip_event_prefix raw) = inr (DValue res) ->
  r_action res = Some "get_question_response" ->
  activeSection (after st (handleDraftChat JSON_parse net st)) = r_section res
  /\ isReviewedSectionDraftActive (after st (handleDraftChat JSON_parse net st)) = false
  /\ draftMessages (after st (handleDraftChat JSON_parse net st))
     = updatedMessages_draft st ++ [draft_question_turn res]
  /\ drafts (after st (handleDraftChat JSON_parse net st))
     = (if Js.truthy_value (r_draft res)
        then Js.set (Js.to_string (r_section res)) (r_draft res) (drafts st)
        else drafts st)
  /\ (Js.truthy_value (r_draft res) = true ->
      draft_at (drafts (after st (handleDraftChat JSON_parse net st))) (r_section res)
      = r_draft res).
Proof.
  intros Hs Hr Hp Ha.
  assert (E : drafts (after st (handleDraftChat JSON_parse net st))
              = (if Js.truthy_value (r_draft res)
                 then Js.set (Js.to_string (r_section res)) (r_draft res) (drafts st)
                 else drafts st)
              /\ activeSection (after st (handleDraftChat JSON_parse net st)) = r_section res
              /\ isReviewedSectionDraftActive (after st (handleDraftChat JSON_parse net st))
                 = false
              /\ draftMessages (after st (handleDraftChat JSON_parse net st))
                 = updatedMessages_draft st ++ [draft_question_turn res]).
  { open_handleDraftChat Hs; rewrite Hr; cbn [bind result snd emit app];
      rewrite (parse_reply_ok _ _ _ Hp); cbn [bind fields_of ret app]; rewrite Ha;
      cbn [is_str String.eqb Ascii.eqb Bool.eqb negb when];
      destruct (Js.truthy_value (r_draft res)); repeat split; reflexivity. }
  destruct E as (Ed & Ea & Ev & Em).
  repeat split; try assumption.
  intros Ht. rewrite Ed, Ht. unfold draft_at. rewrite get_set_eq. reflexivity.
Qed.

Lemma draft_question_reply_witness :
  let st' := after store_drafting
               (handleDraftChat sample_parse2 (sample_reply sample_draft_question_json)
                  store_drafting) in
  draft_submits store_drafting = true
  /\ activeSection st' = Some "Terms"
  /\ drafts st'
     = [("Intro", Some "Edited by the user."); ("Terms", Some "The term is open.")]
  /\ draftMessages st'
     = [plain_turn user "Both parties are companies";
        {| role := assistant; content := Some "How long does it run?";
           reason := Some "Needed for Duration"; section := None;
           subsection := None |}].
Proof.
  intros st'.
  assert (H1 : draft_submits store_drafting = true) by reflexivity.
  assert (H2 : result (read_response (sample_reply sample_draft_question_json))
               = Ok sample_draft_question_json) by reflexivity.
  destruct (draft_question_reply sample_parse2 _ store_drafting _ sample_draft_question
              H1 H2 eq_refl eq_refl) as (Ha & _ & Hm & Hd & _).
  split; [exact H1|]. split; [exact Ha|]. split; [exact Hd | exact Hm].
Defined.

Lemma events_bind_emit {A} ev (k : unit -> M A) :
  events (bind (emit ev) k) = ev :: events (k tt).
Proof. unfold bind, emit. destruct (k tt). reflexivity. Qed.

Lemma events_bind_extends {A B} (m : M A) (k : A -> M B) :
  exists t, events (bind m k) = events m ++ t.
Proof.
  destruct m as [l [a|e]]; cbn.
  - destruct (k a) as [l' r]. eexists. reflexivity.
  - exists []. rewrite app_nil_r. reflexivity.
Qed.

Lemma events_try_catch_extends {A} (m : M A) h :
  exists t, events (try_catch m h) = events m ++ t.
Proof.
  destruct m as [l [a|e]]; cbn.
  - exists []. rewrite app_nil_r. reflexivity.
  - destruct (h e) as [l' r]. eexists. reflexivity.
Qed.

Lemma events_finally_extends {A} (m : M A) f :
  exists t, events (finally m f) = events m ++ t.
Proof.
  destruct m as [l r], f as [l' [u|e]]; cbn; eexists; reflexivity.
Qed.

Lemma continue_call JSON_parse net st :
  isReviewedSectionDraftActive st = true ->
  exists tail,
    events (handleDraftChat JSON_parse net st)
    = [SetLoading true; SetInput "";
       Fetch {| rq_session_id := session_id st;
                rq_query := match draft_at (drafts st) (activeSection st) with
                            | Some d => d
                            | None => ""
                            end;
                rq_is_interrupt := true;
                rq_idea_structuring := idea_structuring_of st |}] ++ tail.
Proof.
  intros Hrev. unfold handleDraftChat. rewrite Hrev.
  cbn [negb]. rewrite !andb_false_r. cbn [when].
  rewrite events_bind_emit, bind_ret_l, events_bind_emit.
  match goal with
  | |- context [finally (try_catch (bind ?c ?k) ?h) ?f] =>
      destruct (events_finally_extends (try_catch (bind c k) h) f) as [t3 E3];
      destruct (events_try_catch_extends (bind c k) h) as [t2 E2];
      destruct (events_bind_extends c k) as [t1 E1];
      rewrite E3, E2, E1
  end.
  rewrite chatWithDraftAgent_eq. unfold request_of. cbn [events fst app].
  exists (t1 ++ t2 ++ t3).
  destruct (draft_at (drafts st) (activeSection st)); cbn [default];
    rewrite <- !app_assoc; reflexivity.
Qed.

(** X11. A [get_reviewed_section_draft] reply stores the returned draft
    under the reply's section, makes that section the active one and
    raises the review flag; the assistant turn names the section that
    was active before the reply. The next call, whatever the input box
    holds, records no user turn and sends that stored draft as the query
    (the empty string when the reply had no draft). *)
Theorem continue_resubmits_reviewed_draft JSON_parse net st raw res net2 text :
  draft_submits st = true ->
  result (read_response net) = Ok raw ->
  JSON_parse (strip_event_prefix raw) = inr (DValue res) ->
  r_action res = Some "get_reviewed_section_draft" ->
  isReviewedSectionDraftActive (after st (handleDraftChat JSON_parse net st)) = true
  /\ activeSection (after st (handleDraftChat JSON_parse net st)) = r_section res
  /\ draft_at (drafts (after st (handleDraftChat JSON_parse net st))) (r_section res)
     = r_draft res
  /\ draftMessages (after st (handleDraftChat JSON_parse net st))
     = updatedMessages_draft st
       ++ [plain_turn assistant (check_draft_text (activeSection st))]
  /\ exists tail,
       events (handleDraftChat JSON_parse net2
                 (with_input text (after st (handleDraftChat JSON_parse net st))))
       = [SetLoading true; SetInput "";
          Fetch {| rq_session_id := session_id st;
                   rq_query := match r_draft res with Some d => d | None => "" end;
                   rq_is_interrupt := true;
                   rq_idea_structuring := idea_structuring_of st |}] ++ tail.
Proof.
  intros Hs Hr Hp Ha.
  assert (E : after st (handleDraftChat JSON_parse net st)
              = with_loading false
                  (with_drafts
                     (Js.set (Js.to_string (r_section res)) (r_draft res) (drafts st))
                     (with_draftMessages
                        (updatedMessages_draft st
                         ++ [plain_turn assistant (check_draft_text (activeSection st))])
                        (with_isReviewedSectionDraftActive true
                           (with_activeSection (r_section res) (with_input "" st)))))).
  { open_handleDraftChat Hs; rewrite Hr; cbn [bind result snd emit app];
      rewrite (parse_reply_ok _ _ _ Hp); cbn [bind fields_of ret app]; rewrite Ha;
      reflexivity. }
  rewrite E.
  assert (Hd : draft_at
                 (Js.set (Js.to_string (r_section res)) (r_draft res) (drafts st))
                 (r_section res) = r_draft res).
  { unfold draft_at. rewrite get_set_eq. reflexivity. }
  split; [reflexivity|]. split; [reflexivity|]. split; [exact Hd|].
  split; [reflexivity|].
  match goal with
  | |- exists tail, events (handleDraftChat _ _ ?s) = _ =>
      destruct (continue_call JSON_parse net2 s eq_refl) as [tail Ht];
      exists tail; rewrite Ht
  end.
  cbn [drafts activeSection session_id with_input with_loading with_drafts
         with_draftMessages with_isReviewedSectionDraftActive with_activeSection].
  rewrite Hd. reflexivity.
Qed.

Lemma continue_resubmits_reviewed_draft_witness :
  let st1 := after store_drafting
               (handleDraftChat sample_parse2 (sample_reply sample_review_json)
                  store_drafting) in
  draft_submits store_drafting = true
  /\ isReviewedSectionDraftActive st1 = true
  /\ draft_at (drafts st1) (Some "Intro")
     = Some "This agreement is made between the parties."
  /\ exists tail,
       events (handleDraftChat sample_parse2 unreachable (with_input "" st1))
       = [SetLoading true; SetInput "";
          Fetch {| rq_session_id := Some "";
                   rq_query := "This agreement is made between the parties.";
                   rq_is_interrupt := true;
                   rq_idea_structuring := idea_structuring_of store_drafting |}] ++ tail.
Proof.
  intros st1.
  assert (H1 : draft_submits store_drafting = true) by reflexivity.
  assert (H2 : result (read_response (sample_reply sample_review_json))
               = Ok sample_review_json) by reflexivity.
  destruct (continue_resubmits_reviewed_draft sample_parse2 _ store_drafting _
              sample_review unreachable "" H1 H2 eq_refl eq_refl)
    as (Hv & _ & Hd & _ & Ht).
  split; [exact H1|]. split; [exact Hv|]. split; [exact Hd | exact Ht].
Defined.

(** X12. When the reply of a draft-chat call cannot be decoded (or is
    [null]) the draft transcript gains one assistant error turn and the
    registry and the active section are untouched, but the review flag
    has already been lowered: a pending "Continue" is lost, whereas a
    failed request keeps it. *)
Theorem draft_undecodable_reply JSON_parse net st raw :
  draft_submits st = true ->
  result (read_response net) = Ok raw ->
  (forall res, JSON_parse (strip_event_prefix raw) <> inr (DValue res)) ->
  after st (handleDraftChat JSON_parse net st)
  = with_loading false
      (with_draftMessages
         (updatedMessages_draft st ++ [plain_turn assistant draft_error_text])
         (with_isReviewedSectionDraftActive false (with_input "" st))).
Proof.
  intros Hs Hr Hp.
  open_handleDraftChat Hs; rewrite Hr; cbn [bind result snd emit app];
    unfold parse_reply;
    (destruct (JSON_parse (strip_event_prefix raw)) as [msg|[|res]];
     [| |exfalso; exact (Hp res eq_refl)]); reflexivity.
Qed.

Lemma draft_undecodable_reply_witness :
  let st := with_isReviewedSectionDraftActive true store_drafting in
  draft_submits st = true
  /\ isReviewedSectionDraftActive
       (after st (handleDraftChat sample_parse2 (sample_reply "null") st)) = false
  /\ isReviewedSectionDraftActive
       (after st (handleDraftChat sample_parse2 unreachable st)) = true
  /\ drafts (after st (handleDraftChat sample_parse2 (sample_reply "null") st))
     = drafts st.
Proof.
  intros st.
  assert (H1 : draft_submits st = true) by reflexivity.
  assert (H2 : result (read_response (sample_reply "null")) = Ok "null") by reflexivity.
  assert (H3 : forall r, sample_parse2 (strip_event_prefix "null") <> inr (DValue r))
    by (intros r; discriminate).
  pose proof (draft_undecodable_reply sample_parse2 _ st _ H1 H2 H3) as E.
  split; [exact H1|]. rewrite E. repeat split; reflexivity.
Defined.

(** X13. A draft-chat reply without a handled action only lowers the
    review flag and makes the reply's section (possibly undefined) the
    active one; a [generate_document] reply without the map of drafts
    does not even change the active section. In both cases no assistant
    turn is appended and the registry and the drafting-complete flag are
    untouched. *)
Theorem draft_unhandled_reply JSON_parse net st raw res :
  draft_submits st = true ->
  result (read_response net) = Ok raw ->
  JSON_parse (strip_event_prefix raw) = inr (DValue res) ->
  (handled_draft_action res = false ->
   after st (handleDraftChat JSON_parse net st)
   = with_loading false
       (with_activeSection (r_section res)
          (with_isReviewedSectionDraftActive false
             (with_input "" (with_draftMessages (updatedMessages_draft st) st)))))
  /\ (r_action res = Some "generate_document" ->
      r_all_drafts res = None ->
      after st (handleDraftChat JSON_parse net st)
      = with_loading false
          (with_isReviewedSectionDraftActive false
             (with_input "" (with_draftMessages (updatedMessages_draft st) st)))).
Proof.
  intros Hs Hr Hp. split.
  - unfold handled_draft_action. intros Hh.
    open_handleDraftChat Hs; rewrite Hr; cbn [bind result snd emit app];
      rewrite (parse_reply_ok _ _ _ Hp); cbn [bind fields_of ret app];
      destruct (is_str (r_action res) "generate_document");
      destruct (is_str (r_action res) "get_question_response");
      destruct (is_str (r_action res) "get_reviewed_section_draft");
      destruct (is_str (r_action res) "get_review_changes");
      try discriminate Hh; reflexivity.
  - intros Ha Hd.
    open_handleDraftChat Hs; rewrite Hr; cbn [bind result snd emit app];
      rewrite (parse_reply_ok _ _ _ Hp); cbn [bind fields_of ret app];
      rewrite Ha, Hd; reflexivity.
Qed.

Lemma draft_unhandled_reply_witness :
  draft_submits store_drafting = true
  /\ handled_draft_action sample_end = false
  /\ after store_drafting
       (handleDraftChat sample_parse2 (sample_reply sample_end_json) store_drafting)
     = with_loading false
         (with_activeSection None
            (with_input ""
               (with_draftMessages
                  [plain_turn user "Both parties are companies"] store_drafting)))
  /\ after store_drafting
       (handleDraftChat sample_parse2 (sample_reply sample_bare_document_json)
          store_drafting)
     = with_input ""
         (with_draftMessages
            [plain_turn user "Both parties are companies"] store_drafting).
Proof.
  assert (H1 : draft_submits store_drafting = true) by reflexivity.
  assert (H2 : result (read_response (sample_reply sample_end_json)) = Ok sample_end_json)
    by reflexivity.
  assert (H3 : handled_draft_action sample_end = false) by reflexivity.
  assert (H4 : result (read_response (sample_reply sample_bare_document_json))
               = Ok sample_bare_document_json) by reflexivity.
  split; [exact H1|]. split; [exact H3|]. split.
  - rewrite (proj1 (draft_unhandled_reply sample_parse2 _ store_drafting _ sample_end
                      H1 H2 eq_refl) H3).
    reflexivity.
  - rewrite (proj2 (draft_unhandled_reply sample_parse2 _ store_drafting _
                      sample_bare_document H1 H4 eq_refl) eq_refl eq_refl).
    reflexivity.
Defined.

(** ** The registry under edits of the section list *)

Lemma get_set_is_Some {V} k k2 (v : V) o :
  is_Some (Js.get k2 o) -> is_Some (Js.get k2 (Js.set k v o)).
Proof.
  intros H. destruct (String.eqb k2 k) eqn:E.
  - apply String.eqb_eq in E. subst k2. rewrite get_set_eq. eauto.
  - apply String.eqb_neq in E. rewrite get_set_ne by exact E. exact H.
Qed.

Lemma seed_get k d steps :
  Js.get k (seed d steps) = Js.get k d
  \/ Js.get k (seed d steps) = Some (Some placeholder).
Proof.
  revert d. induction steps as [|x r IH]; intros d; [left; reflexivity|].
  rewrite seed_cons. destruct (IH (Js.set (section_heading x) (Some placeholder) d))
    as [E | E]; [|right; exact E].
  rewrite E. destruct (String.eqb k (section_heading x)) eqn:Ek.
  - apply String.eqb_eq in Ek. subst k. right. apply get_set_eq.
  - apply String.eqb_neq in Ek. left. apply get_set_ne, Ek.
Qed.

Lemma apply_events_drafts st evs :
  existsb is_set_drafts evs = false ->
  drafts (apply_events st evs) = drafts st.
Proof.
  unfold apply_events. revert st. induction evs as [|ev evs IH]; intros st H; [reflexivity|].
  cbn in H. apply orb_false_elim in H as [Hev Hevs].
  cbn [fold_left]. rewrite (IH _ Hevs). destruct ev; try reflexivity. discriminate Hev.
Qed.

Lemma commit_drafts st evs k :
  existsb is_set_drafts evs = false ->
  Js.get k (drafts (commit st evs)) = Js.get k (drafts st)
  \/ Js.get k (drafts (commit st evs)) = Some (Some placeholder).
Proof.
  intros H. unfold commit. destruct (existsb sets_contractSections evs).
  - rewrite effect_drafts. cbn [drafts with_drafts].
    rewrite (apply_events_drafts st evs H).
    destruct (contractSections (apply_events st evs)); [left; reflexivity|].
    apply seed_get.
  - rewrite (apply_events_drafts st evs H). left. reflexivity.
Qed.

Lemma section_change_no_set_drafts st m :
  section_change st m -> existsb is_set_drafts (events m) = false.
Proof.
  intros [index field value sec H | index | i j sec H Hlen | i j field value sec sub H Hs
         | JSON_parse net raw res Hs Hr Hp Ht Ha].
  - unfold updateSection. rewrite H. reflexivity.
  - reflexivity.
  - unfold deleteSubsection. rewrite H.
    destruct (List.length (subsections sec) <=? 1)%nat; reflexivity.
  - unfold updateSubsection. rewrite H, Hs. reflexivity.
  - rewrite (handleSend_structure _ _ _ _ _ Hs Hr Hp Ht Ha). reflexivity.
Qed.

Lemma flatMap_sections_headings d children k :
  flatMap_sections d = ([], Ok children) ->
  is_Some (Js.get k d) -> In (Heading k) children.
Proof.
  revert children. induction d as [|[title content] rest IH]; intros children Hf [v Hv].
  - discriminate Hv.
  - cbn [flatMap_sections] in Hf. destruct content as [c|]; [|discriminate Hf].
    cbn [createFormattedSection ret bind] in Hf.
    pose proof (flatMap_sections_events rest) as He.
    destruct (flatMap_sections rest) as [l [others|e]]; cbn in He; subst l;
      [|discriminate Hf].
    cbn in Hf. injection Hf as <-.
    cbn [Js.get] in Hv. destruct (String.eqb k title) eqn:E.
    + apply String.eqb_eq in E. subst k. left. reflexivity.
    + right. apply in_or_app. right. apply (IH others eq_refl). eauto.
Qed.

(** X14. No change of the section list takes an entry out of the
    registry: after an edit, the deletion of a section or subsection, or
    a new structure proposal, every heading that had a draft still has
    one (its old text, or the placeholder when it is a heading of the
    new list). A deleted section therefore still has its title block in
    the document the Download button produces. *)
Theorem registry_entries_survive st m k :
  section_change st m ->
  is_Some (Js.get k (drafts st)) ->
  (Js.get k (drafts (after st m)) = Js.get k (drafts st)
   \/ Js.get k (drafts (after st m)) = Some (Some placeholder))
  /\ forall children,
       flatMap_sections (drafts (after st m)) = ([], Ok children) ->
       events (downloadDrafts (after st m))
       = [Download (Js.or_else (selectedTitle (after st m)) "draft" +:+ ".docx") children]
       /\ In (Heading k) children.
Proof.
  intros Hc Hk.
  pose proof (commit_drafts st (events m) k (section_change_no_set_drafts st m Hc)) as Hd.
  fold (after st m) in Hd. split; [exact Hd|].
  intros children Hf. split.
  - unfold downloadDrafts, generateDraftsDocx. rewrite Hf. reflexivity.
  - apply (flatMap_sections_headings _ _ _ Hf).
    destruct Hd as [-> | ->]; eauto.
Qed.

Lemma registry_entries_survive_witness :
  let st' := after store_reviewing (deleteSection 0 store_reviewing) in
  section_change store_reviewing (deleteSection 0 store_reviewing)
  /\ List.map section_heading (contractSections st') = ["Terms"]
  /\ Js.get "Intro" (drafts st') = Some (Some "Edited by the user.")
  /\ events (downloadDrafts st')
     = [Download "draft.docx"
          [Heading "Intro"; Para "Edited by the user."; Heading "Terms"; Para placeholder]].
Proof.
  intros st'.
  assert (Hc : section_change store_reviewing (deleteSection 0 store_reviewing))
    by apply change_delete_section.
  assert (Hk : is_Some (Js.get "Intro" (drafts store_reviewing))) by (cbn; eauto).
  destruct (registry_entries_survive store_reviewing _ "Intro" Hc Hk) as [_ Hdl].
  destruct (Hdl [Heading "Intro"; Para "Edited by the user."; Heading "Terms";
                 Para placeholder] eq_refl) as [He _].
  split; [exact Hc|]. split; [reflexivity|]. split; [reflexivity | exact He].
Defined.

(** X15. Renaming a section does not move its draft: the new heading
    starts from the placeholder, and as long as no section of the edited
    list bears the old heading, the text stays in the registry under the
    old heading. *)
Theorem rename_leaves_draft_behind st index value sec :
  contractSections st !! index = Some sec ->
  (forall other, In other (contractSections
                             (after st (updateSection index Field_section_heading value st))) ->
                 section_heading other <> section_heading sec) ->
  Js.get value (drafts (after st (updateSection index Field_section_heading value st)))
  = Some (Some placeholder)
  /\ Js.get (section_heading sec)
       (drafts (after st (updateSection index Field_section_heading value st)))
     = Js.get (section_heading sec) (drafts st)
  /\ contractSections (after st (updateSection index Field_section_heading value st)) !! index
     = Some (set_section_field Field_section_heading value sec).
Proof.
  intros Hi Hother.
  assert (E : after st (updateSection index Field_section_heading value st)
              = commit st [SetContractSections
                             (<[index := set_section_field Field_section_heading value sec]>
                                (contractSections st))]).
  { unfold after, updateSection. rewrite Hi. reflexivity. }
  rewrite E in *. rewrite commit_sections in *.
  cbn [drafts contractSections with_drafts with_contractSections] in *.
  assert (Hl : <[index := set_section_field Field_section_heading value sec]>
                 (contractSections st) !! index
               = Some (set_section_field Field_section_heading value sec)).
  { apply list_lookup_insert_eq. eapply lookup_lt_Some. exact Hi. }
  destruct (<[index := set_section_field Field_section_heading value sec]>
              (contractSections st)) as [|x l] eqn:El; [discriminate Hl|].
  rewrite <- El in *. split; [|split; [|exact Hl]].
  - change value with (section_heading (set_section_field Field_section_heading value sec)).
    apply seed_covers. apply list_elem_of_In. eapply list_elem_of_lookup_2. exact Hl.
  - apply seed_other. exact Hother.
Qed.

Lemma rename_leaves_draft_behind_witness :
  let st' := after store_reviewing
               (updateSection 0 Field_section_heading "Preamble" store_reviewing) in
  List.map section_heading (contractSections st') = ["Preamble"; "Terms"]
  /\ Js.get "Preamble" (drafts st') = Some (Some placeholder)
  /\ Js.get "Intro" (drafts st') = Some (Some "Edited by the user.")
  /\ Js.keys (drafts st') = ["Intro"; "Terms"; "Preamble"].
Proof.
  intros st'.
  assert (Hi : contractSections store_reviewing !! 0%nat
               = Some {| section_heading := "Intro"; section_purpose := "Context";
                         subsections := [ {| subsection_heading := "Purpose";
                                             subsection_definition := "Why the contract exists" |} ] |})
    by reflexivity.
  assert (Ho : forall other,
             In other (contractSections
                         (after store_reviewing
                            (updateSection 0 Field_section_heading "Preamble" store_reviewing))) ->
             section_heading other <> "Intro").
  { intros other [<- | [<- | []]]; discriminate. }
  destruct (rename_leaves_draft_behind store_reviewing 0 "Preamble" _ Hi Ho) as (H1 & H2 & _).
  split; [reflexivity|]. split; [exact H1|]. split; [exact H2 | reflexivity].
Defined.

(** ** The section editor *)

(** X16. When [deleteSubsection] goes through (the section has two or
    more subsections and the subsection index is in range), exactly that
    subsection goes: the section keeps its heading and purpose and one
    subsection less, the number of sections is unchanged and every other
    section is untouched. *)
Theorem deleteSubsection_removes_one st i j sec before sub behind :
  contractSections st !! i = Some sec ->
  subsections sec = before ++ sub :: behind ->
  j = List.length before ->
  (2 <= List.length (subsections sec))%nat ->
  contractSections (after st (deleteSubsection i j st)) !! i
  = Some {| section_heading := section_heading sec;
            section_purpose := section_purpose sec;
            subsections := before ++ behind |}
  /\ List.length (contractSections (after st (deleteSubsection i j st)))
     = List.length (contractSections st)
  /\ forall k, k <> i ->
       contractSections (after st (deleteSubsection i j st)) !! k
       = contractSections st !! k.
Proof.
  intros Hi Hsub -> Hlen.
  assert (E : after st (deleteSubsection i (List.length before) st)
              = commit st [SetContractSections
                             (<[i := with_subsections
                                       (delete (List.length before) (subsections sec)) sec]>
                                (contractSections st))]).
  { unfold after, deleteSubsection. rewrite Hi.
    destruct (List.length (subsections sec) <=? 1)%nat eqn:Hle; [|reflexivity].
    apply Nat.leb_le in Hle. lia. }
  rewrite E, commit_sections.
  cbn [contractSections with_drafts with_contractSections].
  split; [|split].
  - rewrite list_lookup_insert_eq by (eapply lookup_lt_Some; exact Hi).
    unfold with_subsections. rewrite Hsub.
    replace (delete (List.length before) (before ++ sub :: behind)) with (before ++ behind);
      [reflexivity|].
    clear. induction before as [|x l IH]; [reflexivity|].
    cbn [List.length app]. change (delete (S (List.length l)) (x :: l ++ sub :: behind))
      with (x :: delete (List.length l) (l ++ sub :: behind)).
    rewrite <- IH. reflexivity.
  - apply length_insert.
  - intros k Hk. apply list_lookup_insert_ne. congruence.
Qed.

Lemma deleteSubsection_removes_one_witness :
  let st' := after store_reviewing (deleteSubsection 1 1 store_reviewing) in
  contractSections st' !! 1%nat
  = Some {| section_heading := "Terms"; section_purpose := "Obligations";
            subsections := [ {| subsection_heading := "Duration";
                                subsection_definition := "How long it runs" |} ] |}
  /\ List.length (contractSections st') = 2%nat.
Proof.
  intros st'.
  pose (terms := {| section_heading := "Terms"; section_purpose := "Obligations";
                    subsections :=
                      [ {| subsection_heading := "Duration";
                           subsection_definition := "How long it runs" |};
                        {| subsection_heading := "Termination";
                           subsection_definition := "How it ends" |} ] |}).
  assert (Hi : contractSections store_reviewing !! 1%nat = Some terms) by reflexivity.
  assert (Hlen : (2 <= List.length (subsections terms))%nat) by (cbn; lia).
  destruct (deleteSubsection_removes_one store_reviewing 1 1 terms
              [ {| subsection_heading := "Duration";
                   subsection_definition := "How long it runs" |} ]
              {| subsection_heading := "Termination";
                 subsection_definition := "How it ends" |} []
              Hi eq_refl eq_refl Hlen) as (H1 & H2 & _).
  split; [exact H1 | exact H2].
Defined.

(** X17. [deleteSection] has no floor: it removes the section at the
    index and keeps the others in order, also when that section is the
    only one, in which case the list becomes empty and the registry is
    not touched. *)
Theorem deleteSection_removes_one st before sec behind :
  contractSections st = before ++ sec :: behind ->
  contractSections (after st (deleteSection (List.length before) st)) = before ++ behind
  /\ (before ++ behind = [] ->
      after st (deleteSection (List.length before) st) = with_contractSections [] st).
Proof.
  intros Hs.
  assert (E : delete (List.length before) (contractSections st) = before ++ behind).
  { rewrite Hs. clear. induction before as [|x l IH]; [reflexivity|].
    cbn [List.length app]. change (delete (S (List.length l)) (x :: l ++ sec :: behind))
      with (x :: delete (List.length l) (l ++ sec :: behind)).
    rewrite IH. reflexivity. }
  unfold after, deleteSection. cbn [events emit fst]. rewrite commit_sections, E.
  split; [reflexivity|].
  intros ->. destruct st; reflexivity.
Qed.

Lemma deleteSection_removes_one_witness :
  let st := with_contractSections
              [ {| section_heading := "Intro"; section_purpose := "Context";
                   subsections := [] |} ] store_reviewing in
  contractSections st
  = [] ++ {| section_heading := "Intro"; section_purpose := "Context";
             subsections := [] |} :: []
  /\ contractSections (after st (deleteSection 0 st)) = []
  /\ drafts (after st (deleteSection 0 st)) = drafts st.
Proof.
  intros st.
  assert (H : contractSections st
              = [] ++ {| section_heading := "Intro"; section_purpose := "Context";
                         subsections := [] |} :: []) by reflexivity.
  destruct (deleteSection_removes_one st [] _ [] H) as [H1 H2].
  split; [exact H|]. split; [exact H1|].
  pose proof (H2 eq_refl) as H3. cbn [List.length] in H3. rewrite H3. reflexivity.
Defined.

Set Warnings "-clear-no-such-hyp".

(** X18. [toggleSection] of the section editor is its own inverse:
    toggling an index twice gives back the set of expanded sections, and
    a toggle changes the membership of that index and of no other. *)
Theorem toggleSection_involution index (expandedSections : gset nat) :
  toggleSection index (toggleSection index expandedSections) = expandedSections
  /\ (elem_of index (toggleSection index expandedSections)
      <-> ~ elem_of index expandedSections)
  /\ forall other, other <> index ->
       (elem_of other (toggleSection index expandedSections)
        <-> elem_of other expandedSections).
Proof.
  unfold toggleSection. split; [|split].
  - destruct (decide (elem_of index expandedSections)) as [Hin|Hout].
    + rewrite decide_False by set_solver.
      apply set_eq. intros x. destruct (decide (x = index)); set_solver.
    + rewrite decide_True by set_solver. set_solver.
  - destruct (decide (elem_of index expandedSections)); set_solver.
  - intros other Hne. destruct (decide (elem_of index expandedSections)); set_solver.
Qed.

Lemma toggleSection_involution_witness :
  toggleSection 1 (toggleSection 1 (singleton 0)) = singleton 0
  /\ (elem_of 0 (toggleSection 1 (singleton 0)) <-> elem_of 0 (singleton 0 : gset nat)).
Proof.
  destruct (toggleSection_involution 1 (singleton 0)) as (H1 & _ & H3).
  split; [exact H1 | apply H3; discriminate].
Defined.

(** ** The draft panel *)

Lemma set_same {V} k (v : V) o : Js.get k o = Some v -> Js.set k v o = o.
Proof.
  intros H. unfold Js.set. rewrite H.
  induction o as [|[k' v'] r IH]; [reflexivity|].
  cbn in *. destruct (String.eqb k k') eqn:E.
  - injection H as ->. reflexivity.
  - rewrite (IH H). reflexivity.
Qed.

Lemma keys_replace {V} k (v : V) o : Js.keys (Js.replace k v o) = Js.keys o.
Proof.
  induction o as [|[k' v'] r IH]; [reflexivity|].
  cbn. destruct (String.eqb k k'); cbn; [reflexivity|].
  unfold Js.keys in IH. rewrite IH. reflexivity.
Qed.

Lemma keys_set_existing {V} k (v : V) o :
  is_Some (Js.get k o) -> Js.keys (Js.set k v o) = Js.keys o.
Proof. intros [x Hx]. unfold Js.set. rewrite Hx. apply keys_replace. Qed.

(** X19. Editing a draft in its text area stores the text under that
    heading and changes no other entry; typing the same text again
    changes nothing; and when the heading already has an entry, the
    order of the registry, hence the order of the sections in the
    exported document, is unchanged. *)
Theorem editDraft_round_trip heading value st :
  draft_at (drafts (editDraft heading value st)) (Some heading) = Some value
  /\ (forall other, other <> heading ->
        Js.get other (drafts (editDraft heading value st)) = Js.get other (drafts st))
  /\ editDraft heading value (editDraft heading value st) = editDraft heading value st
  /\ (is_Some (Js.get heading (drafts st)) ->
      Js.keys (drafts (editDraft heading value st)) = Js.keys (drafts st)).
Proof.
  change (drafts (editDraft heading value st))
    with (Js.set heading (Some value) (drafts st)).
  unfold draft_at. cbn [Js.to_string].
  split; [rewrite get_set_eq; reflexivity|].
  split; [intros other Hne; apply get_set_ne, Hne|].
  split.
  - unfold editDraft at 1.
    change (drafts (editDraft heading value st))
      with (Js.set heading (Some value) (drafts st)).
    rewrite (set_same heading (Some value)) by apply get_set_eq.
    destruct st; reflexivity.
  - intros Hv. apply keys_set_existing, Hv.
Qed.

Lemma editDraft_round_trip_witness :
  let st' := editDraft "Intro" ("First line." +:+ nl +:+ "Second line.") store_reviewing in
  is_Some (Js.get "Intro" (drafts store_reviewing))
  /\ Js.keys (drafts st') = ["Intro"; "Terms"]
  /\ events (downloadDrafts st')
     = [Download "draft.docx"
          [Heading "Intro"; Para "First line."; Para "Second line.";
           Heading "Terms"; Para "From the agent."]].
Proof.
  intros st'.
  assert (H : is_Some (Js.get "Intro" (drafts store_reviewing))) by (cbn; eauto).
  destruct (editDraft_round_trip "Intro" ("First line." +:+ nl +:+ "Second line.")
              store_reviewing) as (_ & _ & _ & Hk).
  split; [exact H|]. split; [exact (Hk H) | reflexivity].
Defined.

Lemma append_length (a b : string) :
  String.length (a +:+ b) = (String.length a + String.length b)%nat.
Proof.
  induction a as [|c r IH]; [reflexivity|].
  change (S (String.length (r +:+ b)) = S (String.length r + String.length b)).
  rewrite IH. reflexivity.
Qed.

Lemma slice_append (a b : string) : Js.slice (String.length a) (a +:+ b) = b.
Proof. induction a as [|c r IH]; [destruct b; reflexivity | exact IH]. Qed.

(** No inherited name ends in ["-edit"]. *)
Lemma inherited_edit heading : inherited (heading +:+ "-edit") = false.
Proof.
  destruct (inherited (heading +:+ "-edit")) eqn:E; [exfalso | reflexivity].
  apply existsb_exists in E as (p & Hp & Heq). apply String.eqb_eq in Heq.
  assert (Hs : Js.slice (String.length p - 5) p = "-edit").
  { rewrite <- Heq, append_length.
    replace (String.length heading + String.length "-edit" - 5)%nat
      with (String.length heading) by (cbn; lia).
    apply slice_append. }
  cbn in Hp. repeat (destruct Hp as [<-|Hp]; [discriminate Hs|]). exact Hp.
Qed.

(** X20. The draft panel is an accordion that also holds the edit
    flags: [toggleSection] replaces the whole object by one key.  So
    after the editor of a section has been opened, toggling any section
    leaves edit mode, while the toggled section is expanded exactly when
    it did not read as expanded before. Every other key then reads as
    collapsed, unless it is a name every object inherits, which reads
    as expanded whatever was toggled. *)
Theorem toggleDraftSection_accordion heading section prev :
  section <> heading +:+ "-edit" ->
  let editing := set_editing heading true prev in
  expanded (heading +:+ "-edit") editing = true
  /\ expanded (heading +:+ "-edit") (toggleDraftSection section editing) = false
  /\ expanded section (toggleDraftSection section editing) = negb (expanded section prev)
  /\ forall other, other <> section ->
       expanded other (toggleDraftSection section editing) = inherited other.
Proof.
  intros Hne editing.
  assert (Hother : forall other, other <> section ->
            expanded other (toggleDraftSection section editing) = inherited other).
  { intros other Ho. unfold toggleDraftSection, expanded at 1. cbn [Js.get].
    apply String.eqb_neq in Ho. rewrite Ho. reflexivity. }
  split; [|split; [|split]].
  - unfold editing, set_editing, expanded. rewrite get_set_eq. reflexivity.
  - rewrite Hother by congruence. apply inherited_edit.
  - unfold toggleDraftSection, expanded at 1. cbn [Js.get]. rewrite String.eqb_refl.
    unfold editing, set_editing, expanded. rewrite get_set_ne by exact Hne. reflexivity.
  - exact Hother.
Qed.

Lemma toggleDraftSection_accordion_witness :
  let editing := set_editing "Intro" true [("Intro", true)] in
  expanded "Intro-edit" editing = true
  /\ expanded "Terms" (toggleDraftSection "Terms" editing) = true
  /\ expanded "Intro-edit" (toggleDraftSection "Terms" editing) = false
  /\ expanded "Intro" (toggleDraftSection "Terms" editing) = false
  /\ expanded "constructor" (toggleDraftSection "Terms" editing) = true
  /\ toggleDraftSection "constructor" [] = [("constructor", false)].
Proof.
  assert (Hne : "Terms" <> "Intro" +:+ "-edit") by discriminate.
  destruct (toggleDraftSection_accordion "Intro" "Terms" [("Intro", true)] Hne)
    as (H1 & H2 & H3 & H4).
  intros editing. split; [exact H1|]. split; [exact H3|]. split; [exact H2|].
  split; [apply (H4 "Intro"); discriminate|].
  split; [apply (H4 "constructor"); discriminate | reflexivity].
Defined.

(** ** Choosing a file *)

Lemma units_eqb_eq a b : units_eqb a b = true <-> a = b.
Proof.
  revert b. induction a as [|x a IH]; intros [|y b]; cbn; try (split; congruence).
  rewrite andb_true_iff, N.eqb_eq, IH. split; [intros [-> ->] | intros [= -> ->]]; auto.
Qed.

Lemma lastIndexOf_dot_spec s :
  match lastIndexOf_dot s with
  | Some i => exists stem ext,
      s = stem ++ full_stop :: ext /\ List.length stem = i /\ ~ In full_stop ext
  | None => ~ In full_stop s
  end.
Proof.
  induction s as [|u r IH]; [intros []|]. cbn [lastIndexOf_dot].
  destruct (lastIndexOf_dot r) as [i|].
  - destruct IH as (stem & ext & -> & <- & Hn).
    exists (u :: stem), ext. repeat split; assumption.
  - destruct (u =? full_stop)%N eqn:Hu.
    + apply N.eqb_eq in Hu. subst u. exists [], r. repeat split. exact IH.
    + apply N.eqb_neq in Hu. intros [H|H]; [congruence | exact (IH H)].
Qed.

Lemma lastIndexOf_dot_app stem ext :
  ~ In full_stop ext ->
  lastIndexOf_dot (stem ++ full_stop :: ext) = Some (List.length stem).
Proof.
  intros H.
  pose proof (lastIndexOf_dot_spec (stem ++ full_stop :: ext)) as Hs.
  destruct (lastIndexOf_dot (stem ++ full_stop :: ext)) as [i|].
  - destruct Hs as (stem' & ext' & E & <- & Hn). f_equal.
    clear - E H Hn. revert stem' E.
    induction stem as [|u stem IH]; intros [|u' stem'] E; cbn in *.
    + reflexivity.
    + exfalso. injection E as _ E. apply H. rewrite E. apply in_or_app.
      right. left. reflexivity.
    + exfalso. injection E as _ E. apply Hn. rewrite <- E. apply in_or_app.
      right. left. reflexivity.
    + injection E as _ E. f_equal. apply IH. exact E.
  - exfalso. apply Hs, in_or_app. right. left. reflexivity.
Qed.

Lemma drop_last_short {A} (l : list A) :
  (List.length (drop (List.length l - 1) l) <= 1)%nat.
Proof. rewrite length_drop. lia. Qed.

Lemma allowed_long t : In t allowedTypes -> (4 <= List.length (code_units t))%nat.
Proof. cbn. intros [<-|[<-|[<-|[<-|[]]]]]; cbn; lia. Qed.

(** The extension of an ASCII name with a dot: the dot and what follows
    the last one, lowered. *)
Lemma fileExtension_ascii toLowerCase stem ext :
  lowers_ascii toLowerCase ->
  forallb is_ascii (stem ++ full_stop :: ext) = true ->
  ~ In full_stop ext ->
  fileExtension toLowerCase (stem ++ full_stop :: ext)
  = full_stop :: List.map lower_ascii ext.
Proof.
  intros Hl Ha Hn. unfold fileExtension.
  rewrite (lastIndexOf_dot_app stem ext Hn), (Hl _ Ha). cbn [slice_from].
  rewrite List.map_app.
  rewrite <- (List.length_map lower_ascii stem), drop_app_length. reflexivity.
Qed.

Lemma allowed_extension (ext : CodeUnits) :
  existsb (fun t => units_eqb (code_units t) (full_stop :: ext)) allowedTypes = true
  <-> In ext (List.map code_units ["docx"; "doc"; "pdf"; "txt"]).
Proof.
  cbn [existsb allowedTypes List.map In].
  rewrite !orb_true_iff, !units_eqb_eq.
  change (code_units ".docx") with (full_stop :: code_units "docx").
  change (code_units ".doc") with (full_stop :: code_units "doc").
  change (code_units ".pdf") with (full_stop :: code_units "pdf").
  change (code_units ".txt") with (full_stop :: code_units "txt").
  split.
  - intros [H|[H|[H|[H|H]]]]; try (injection H as H); [auto | auto | auto | auto |].
    discriminate H.
  - intros [H|[H|[H|[H|[]]]]]; rewrite H; auto.
Qed.

Lemma sample_toLowerCase_ascii : lowers_ascii sample_toLowerCase.
Proof.
  intros s. induction s as [|u r IH]; [reflexivity|].
  cbn [forallb]. intros H. apply andb_prop in H as [Hu Hr].
  unfold sample_toLowerCase in *. cbn [flat_map List.map]. rewrite (IH Hr).
  unfold is_ascii in Hu. apply N.ltb_lt in Hu.
  unfold sample_lower, lower_ascii.
  destruct (u =? 304)%N eqn:E1; [apply N.eqb_eq in E1; lia|].
  destruct ((65 <=? u) && (u <=? 90))%N eqn:E2; [reflexivity|].
  destruct (192 <=? u)%N eqn:E3; [apply N.leb_le in E3; lia | reflexivity].
Qed.

(** X21. Whatever lower-casing does outside ASCII,
    [handleContentFileChange] keeps a file only when its name has a dot
    and the lowered name ends in one of .docx, .doc, .pdf and .txt; a
    name made of ASCII code units is kept exactly when the part after
    its last dot is, without regard to case, one of docx, doc, pdf and
    txt. Any other name is refused with the message that lists the
    allowed types, and choosing no file does nothing. *)
Theorem file_accepted_iff toLowerCase name :
  lowers_ascii toLowerCase ->
  (handleContentFileChange toLowerCase (Some name)
   = [SetContentFile (Some name); SetError ""] ->
   In full_stop name
   /\ exists front t, In t allowedTypes
                      /\ toLowerCase name = front ++ code_units t)
  /\ (forallb is_ascii name = true ->
      (handleContentFileChange toLowerCase (Some name)
       = [SetContentFile (Some name); SetError ""]
       <-> exists stem ext,
             name = stem ++ full_stop :: ext /\ ~ In full_stop ext
             /\ In (List.map lower_ascii ext)
                  (List.map code_units ["docx"; "doc"; "pdf"; "txt"])))
  /\ (handleContentFileChange toLowerCase (Some name)
      = [SetContentFile (Some name); SetError ""]
      \/ handleContentFileChange toLowerCase (Some name)
         = [SetError "Invalid file type. Allowed types: .docx, .doc, .pdf, .txt";
            SetContentFile None])
  /\ handleContentFileChange toLowerCase None = [].
Proof.
  intros Hl.
  assert (Hacc : handleContentFileChange toLowerCase (Some name)
                 = [SetContentFile (Some name); SetError ""] ->
                 exists t, In t allowedTypes
                           /\ fileExtension toLowerCase name = code_units t).
  { unfold handleContentFileChange.
    destruct (existsb _ allowedTypes) eqn:E; [intros _ | discriminate].
    apply existsb_exists in E as (t & Ht & E). apply units_eqb_eq in E.
    exists t. split; [exact Ht | symmetry; exact E]. }
  assert (Hdot : forall t, In t allowedTypes ->
                 fileExtension toLowerCase name = code_units t ->
                 exists i, lastIndexOf_dot name = Some i).
  { intros t Ht E. unfold fileExtension in E.
    destruct (lastIndexOf_dot name) as [i|]; [eauto|]. exfalso.
    cbn [slice_from] in E. pose proof (drop_last_short (toLowerCase name)) as Hs.
    rewrite E in Hs. pose proof (allowed_long t Ht). lia. }
  split; [|split; [|split; [|reflexivity]]].
  - intros H. destruct (Hacc H) as (t & Ht & E).
    destruct (Hdot t Ht E) as [i Hi].
    pose proof (lastIndexOf_dot_spec name) as Hs. rewrite Hi in Hs.
    destruct Hs as (stem & ext & -> & _ & _). split.
    + apply in_or_app. right. left. reflexivity.
    + exists (take i (toLowerCase (stem ++ full_stop :: ext))), t.
      split; [exact Ht|]. unfold fileExtension in E. rewrite Hi in E.
      cbn [slice_from] in E. rewrite <- E. symmetry. apply take_drop.
  - intros Ha. split.
    + intros H. destruct (Hacc H) as (t & Ht & E).
      destruct (Hdot t Ht E) as [i Hi].
      pose proof (lastIndexOf_dot_spec name) as Hs. rewrite Hi in Hs.
      destruct Hs as (stem & ext & -> & _ & Hn).
      exists stem, ext. split; [reflexivity|]. split; [exact Hn|].
      apply allowed_extension.
      rewrite <- (fileExtension_ascii toLowerCase stem ext Hl Ha Hn).
      apply existsb_exists. exists t. split; [exact Ht|].
      apply units_eqb_eq. symmetry. exact E.
    + intros (stem & ext & -> & Hn & Hin). unfold handleContentFileChange.
      rewrite (fileExtension_ascii toLowerCase stem ext Hl Ha Hn).
      apply allowed_extension in Hin. rewrite Hin. reflexivity.
  - unfold handleContentFileChange.
    destruct (existsb _ allowedTypes); [left | right]; reflexivity.
Qed.

Lemma file_accepted_iff_witness :
  handleContentFileChange sample_toLowerCase (Some (code_units "Master.Agreement.v2.PDF"))
  = [SetContentFile (Some (code_units "Master.Agreement.v2.PDF")); SetError ""]
  /\ handleContentFileChange sample_toLowerCase (Some (code_units "contract.pdf.exe"))
     = [SetError "Invalid file type. Allowed types: .docx, .doc, .pdf, .txt";
        SetContentFile None]
  /\ handleContentFileChange sample_toLowerCase (Some (code_units "README"))
     = [SetError "Invalid file type. Allowed types: .docx, .doc, .pdf, .txt";
        SetContentFile None]
  /\ handleContentFileChange sample_toLowerCase (Some (304%N :: code_units ".pdf"))
     = [SetError "Invalid file type. Allowed types: .docx, .doc, .pdf, .txt";
        SetContentFile None].
Proof.
  split.
  - apply (proj1 (proj2 (file_accepted_iff sample_toLowerCase
                           (code_units "Master.Agreement.v2.PDF")
                           sample_toLowerCase_ascii)) eq_refl).
    exists (code_units "Master.Agreement.v2"), (code_units "PDF").
    split; [reflexivity|]. split.
    + cbn. intros [H|[H|[H|[]]]]; discriminate H.
    + right. right. left. reflexivity.
  - repeat split; reflexivity.
Defined.

(** ** Answers to the missing fields *)

Lemma missing_fold_throw inputs fields e :
  fold_left
    (fun acc field =>
       match acc with
       | Ok responses => answer_field inputs responses field
       | Throw e => Throw e
       end)
    fields (Throw e)
  = Throw e.
Proof. induction fields as [|f rest IH]; [reflexivity | exact IH]. Qed.

Lemma get_assign k key value o :
  Js.get k (assign key value o)
  = if String.eqb k key && negb (String.eqb key "__proto__") then Some value
    else Js.get k o.
Proof.
  unfold assign. destruct (String.eqb key "__proto__") eqn:Hp.
  - rewrite andb_false_r. reflexivity.
  - rewrite andb_true_r. destruct (String.eqb k key) eqn:E.
    + apply String.eqb_eq in E. subst k. apply get_set_eq.
    + apply get_set_ne. apply String.eqb_neq, E.
Qed.

Lemma missing_fold inputs fields o :
  existsb (unanswered_inherited inputs) fields = false ->
  exists responses,
    fold_left
      (fun acc field =>
         match acc with
         | Ok responses => answer_field inputs responses field
         | Throw e => Throw e
         end)
      fields (Ok o)
    = Ok responses
    /\ forall k,
         Js.get k responses
         = if existsb (fun f => String.eqb k (mf_field f)) fields
              && negb (String.eqb k "__proto__")
              && Js.truthy (Js.trim (Js.or_else (Js.get k inputs) ""))
           then Some (Js.or_else (Js.get k inputs) "")
           else Js.get k o.
Proof.
  revert o. induction fields as [|f rest IH]; intros o H.
  - exists o. split; [reflexivity|]. intros k. reflexivity.
  - cbn [existsb] in H. apply orb_false_elim in H as [Hf Hrest].
    cbn [fold_left]. unfold answer_field at 2. unfold unanswered_inherited in Hf.
    assert (Hstep : exists o',
               match Js.get (mf_field f) inputs with
               | Some own =>
                   if Js.truthy (Js.trim (Js.or_else (Some own) ""))
                   then Ok (assign (mf_field f) (Js.or_else (Some own) "") o)
                   else Ok o
               | None => if inherited (mf_field f) then Throw trim_not_a_function else Ok o
               end = Ok o'
               /\ forall k,
                    Js.get k o'
                    = if String.eqb k (mf_field f)
                         && negb (String.eqb k "__proto__")
                         && Js.truthy (Js.trim (Js.or_else (Js.get k inputs) ""))
                      then Some (Js.or_else (Js.get k inputs) "")
                      else Js.get k o).
    { destruct (Js.get (mf_field f) inputs) as [own|] eqn:Hg.
      - destruct (Js.truthy (Js.trim (Js.or_else (Some own) ""))) eqn:Ht.
        + eexists. split; [reflexivity|]. intros k. rewrite get_assign.
          destruct (String.eqb k (mf_field f)) eqn:E; [|reflexivity].
          apply String.eqb_eq in E. subst k. rewrite Hg, Ht, andb_true_r. reflexivity.
        + exists o. split; [reflexivity|]. intros k.
          destruct (String.eqb k (mf_field f)) eqn:E; [|reflexivity].
          apply String.eqb_eq in E. subst k. rewrite Hg, Ht, andb_false_r. reflexivity.
      - rewrite andb_true_r in Hf. rewrite Hf. exists o. split; [reflexivity|].
        intros k. destruct (String.eqb k (mf_field f)) eqn:E; [|reflexivity].
        apply String.eqb_eq in E. subst k. rewrite Hg. cbn. rewrite andb_false_r.
        reflexivity. }
    destruct Hstep as (o' & -> & Ho').
    destruct (IH o' Hrest) as (responses & -> & Hr).
    exists responses. split; [reflexivity|]. intros k. rewrite Hr, Ho'.
    cbn [existsb].
    destruct (String.eqb k (mf_field f)); cbn [orb andb];
      destruct (existsb (fun f0 => String.eqb k (mf_field f0)) rest); cbn [andb];
      try reflexivity;
      destruct (negb (String.eqb k "__proto__")); cbn [andb]; try reflexivity;
      destruct (Js.truthy (Js.trim (Js.or_else (Js.get k inputs) ""))); reflexivity.
Qed.

Lemma missing_fold_stops inputs fields o :
  existsb (unanswered_inherited inputs) fields = true ->
  fold_left
    (fun acc field =>
       match acc with
       | Ok responses => answer_field inputs responses field
       | Throw e => Throw e
       end)
    fields (Ok o)
  = Throw trim_not_a_function.
Proof.
  revert o. induction fields as [|f rest IH]; intros o H; [discriminate H|].
  cbn [existsb] in H. cbn [fold_left].
  destruct (answer_field inputs o f) as [o'|e] eqn:Ea.
  - apply IH. destruct (unanswered_inherited inputs f) eqn:Hf; [|exact H].
    exfalso. unfold unanswered_inherited in Hf. unfold answer_field in Ea.
    destruct (Js.get (mf_field f) inputs); [rewrite andb_false_r in Hf; discriminate Hf|].
    rewrite andb_true_r in Hf. rewrite Hf in Ea. discriminate Ea.
  - rewrite missing_fold_throw. f_equal. unfold answer_field in Ea.
    destruct (Js.get (mf_field f) inputs) as [own|].
    + destruct (Js.truthy _); discriminate Ea.
    + destruct (inherited (mf_field f)); [injection Ea as <-; reflexivity | discriminate Ea].
Qed.

(** X22. [handleSubmitMissingData] builds its answers without an
    exception unless a missing field is named like a property every
    object inherits and nothing was typed for it; then [answer.trim]
    throws and no answers are built. Otherwise the object has an entry
    for a field if and only if the field is one of the missing fields,
    is not named ["__proto__"], and its answer is not blank; the entry
    is the answer as typed, untrimmed. *)
Theorem missingDataResponses_lookup missingFields userInputs :
  if existsb (unanswered_inherited userInputs) missingFields
  then missingDataResponses missingFields userInputs = Throw trim_not_a_function
  else exists responses,
         missingDataResponses missingFields userInputs = Ok responses
         /\ forall k,
              Js.get k responses
              = if existsb (fun f => String.eqb k (mf_field f)) missingFields
                   && negb (String.eqb k "__proto__")
                then match Js.get k userInputs with
                     | Some answer =>
                         if Js.truthy (Js.trim answer) then Some answer else None
                     | None => None
                     end
                else None.
Proof.
  unfold missingDataResponses.
  destruct (existsb (unanswered_inherited userInputs) missingFields) eqn:E.
  - apply missing_fold_stops, E.
  - destruct (missing_fold userInputs missingFields [] E) as (responses & Hf & Hr).
    exists responses. split; [exact Hf|]. intros k. rewrite Hr. cbn [Js.get].
    destruct (existsb _ missingFields && negb (String.eqb k "__proto__"));
      [|reflexivity].
    cbn [andb]. destruct (Js.get k userInputs) as [a|]; [|reflexivity].
    cbn [Js.or_else]. destruct a as [|c r]; [reflexivity|].
    cbn [Js.truthy Js.is_empty negb].
    destruct (Js.truthy (Js.trim (String c r))); reflexivity.
Qed.

Lemma missingDataResponses_lookup_witness :
  missingDataResponses [sample_field "party"; sample_field "constructor"]
    [("party", "Acme Ltd")]
  = Throw trim_not_a_function
  /\ exists responses,
       missingDataResponses
         [sample_field "party"; sample_field "__proto__"; sample_field "notes";
          sample_field "constructor"]
         [("party", " Acme Ltd "); ("__proto__", "x"); ("notes", "  ");
          ("constructor", "y"); ("extra", "z")]
       = Ok responses
       /\ Js.get "party" responses = Some " Acme Ltd "
       /\ Js.get "__proto__" responses = None
       /\ Js.get "notes" responses = None
       /\ Js.get "constructor" responses = Some "y"
       /\ Js.get "extra" responses = None.
Proof.
  split.
  - exact (missingDataResponses_lookup
             [sample_field "party"; sample_field "constructor"] [("party", "Acme Ltd")]).
  - destruct (missingDataResponses_lookup
                [sample_field "party"; sample_field "__proto__"; sample_field "notes";
                 sample_field "constructor"]
                [("party", " Acme Ltd "); ("__proto__", "x"); ("notes", "  ");
                 ("constructor", "y"); ("extra", "z")]) as (responses & E & H).
    exists responses. split; [exact E|].
    rewrite !H. repeat split; reflexivity.
Defined.

(** ** [handleDownloadContract] and the export *)

Lemma flatMap_sections_shape d :
  (exists children, flatMap_sections d = ([], Ok children))
  \/ flatMap_sections d = ([], Throw undefined_split).
Proof.
  induction d as [|[title content] rest IH]; [left; eexists; reflexivity|].
  cbn [flatMap_sections]. destruct content as [c|]; [|right; reflexivity].
  cbn [createFormattedSection ret bind].
  destruct IH as [[others ->] | ->]; [left; eexists; reflexivity | right; reflexivity].
Qed.

Lemma contractTitle_of_truthy fc : Js.truthy (contractTitle_of fc) = true.
Proof.
  unfold contractTitle_of, Js.or_else.
  destruct (if Js.truthy_value (fc_title fc) then fc_title fc else fc_contract_title fc)
    as [t|]; [|reflexivity].
  destruct (Js.truthy t) eqn:E; [exact E | reflexivity].
Qed.

Lemma or_else_truthy t d : Js.truthy t = true -> Js.or_else (Some t) d = t.
Proof. intros H. cbn. rewrite H. reflexivity. Qed.

(** X23. [handleDownloadContract] never lets an exception out and does
    exactly one thing for a contract: it raises one alert, or it
    produces one file, named after the first non-empty of the contract's
    [title] and [contract_title] and else "Generated Contract", so never
    "draft.docx"; without a contract it does nothing. *)
Theorem handleDownloadContract_outcome fc :
  result (handleDownloadContract (Some fc)) = Ok tt
  /\ ((exists msg, events (handleDownloadContract (Some fc)) = [Alert msg])
      \/ (exists children,
            events (handleDownloadContract (Some fc))
            = [Download (contractTitle_of fc +:+ ".docx") children]))
  /\ contractTitle_of fc <> ""
  /\ handleDownloadContract None = ([], Ok tt).
Proof.
  assert (Ht := contractTitle_of_truthy fc).
  split; [|split; [|split; [|reflexivity]]].
  - unfold handleDownloadContract. fold (contractTitle_of fc).
    destruct (negb (Js.truthy (Js.trim (formattedContent_of fc)))); [reflexivity|].
    unfold generateDraftsDocx.
    destruct (flatMap_sections_shape (contractDrafts_of fc)) as [[children ->] | ->];
      reflexivity.
  - unfold handleDownloadContract. fold (contractTitle_of fc).
    destruct (negb (Js.truthy (Js.trim (formattedContent_of fc))));
      [left; eexists; reflexivity|].
    unfold generateDraftsDocx.
    destruct (flatMap_sections_shape (contractDrafts_of fc)) as [[children ->] | ->].
    + right. exists children. cbn [bind ret emit try_catch events fst app].
      rewrite (or_else_truthy _ _ Ht). reflexivity.
    + left. eexists. reflexivity.
  - intros E. rewrite E in Ht. discriminate Ht.
Qed.

Lemma formattedContent_none secs :
  forallb (fun s => negb (taken s)) secs = true ->
  forall acc,
    fold_left
      (fun acc s =>
         if Js.truthy_value (fs_heading s) && Js.truthy_value (fs_content s)
         then acc +:+ section_marker (Js.to_string (fs_heading s))
                                     (Js.to_string (fs_content s))
         else acc)
      secs acc = acc.
Proof.
  induction secs as [|s rest IH]; intros H acc; [reflexivity|].
  cbn in H. apply andb_prop in H as [Hs Hr]. cbn [fold_left].
  unfold taken in Hs. destruct (_ && _); [discriminate Hs|]. apply IH, Hr.
Qed.

(** X24. When the finished contract has a [sections] array, its
    [drafts] object is never looked at: if no section of the array has
    both a heading and a content (an empty array included),
    [handleDownloadContract] raises the "no content" alert and produces
    no file, whatever the drafts hold. *)
Theorem sections_shadow_drafts fc secs :
  fc_sections fc = Some secs ->
  forallb (fun s => negb (taken s)) secs = true ->
  handleDownloadContract (Some fc) = ([Alert no_content_text], Ok tt).
Proof.
  intros Hs Hn. unfold handleDownloadContract, formattedContent_of. rewrite Hs.
  rewrite (formattedContent_none secs Hn). reflexivity.
Qed.

Lemma sections_shadow_drafts_witness :
  let fc := {| fc_title := Some "Mutual NDA"; fc_contract_title := None;
               fc_sections :=
                 Some [ {| fs_heading := Some "Intro"; fs_content := Some "" |};
                        {| fs_heading := None; fs_content := Some "Orphan text" |} ];
               fc_drafts := Some [("Intro", Some "Text one."); ("Terms", Some "Text two.")] |} in
  forallb (fun s => negb (taken s))
    [ {| fs_heading := Some "Intro"; fs_content := Some "" |};
      {| fs_heading := None; fs_content := Some "Orphan text" |} ] = true
  /\ handleDownloadContract (Some fc) = ([Alert no_content_text], Ok tt).
Proof.
  intros fc.
  assert (H : forallb (fun s => negb (taken s))
                [ {| fs_heading := Some "Intro"; fs_content := Some "" |};
                  {| fs_heading := None; fs_content := Some "Orphan text" |} ] = true)
    by reflexivity.
  split; [exact H|]. exact (sections_shadow_drafts fc _ eq_refl H).
Defined.

Lemma flatMap_sections_undefined d k :
  In (k, None) d -> flatMap_sections d = ([], Throw undefined_split).
Proof.
  induction d as [|[title content] rest IH]; intros Hin; [destruct Hin|].
  cbn [flatMap_sections]. destruct content as [c|]; [|reflexivity].
  destruct Hin as [Hin | Hin]; [discriminate Hin|].
  rewrite (IH Hin). reflexivity.
Qed.

Lemma all_ws_app a b : Js.all_ws (a +:+ b) = Js.all_ws a && Js.all_ws b.
Proof.
  induction a as [|c r IH]; [reflexivity|].
  change (Js.all_ws (String c (r +:+ b)) = Js.all_ws (String c r) && Js.all_ws b).
  cbn [Js.all_ws]. rewrite IH, andb_assoc. reflexivity.
Qed.

Lemma drafts_content_not_blank (d : Drafts) acc :
  d <> [] \/ Js.all_ws acc = false ->
  Js.all_ws
    (fold_left
       (fun acc kv => acc +:+ section_marker (fst kv) (Js.to_string (snd kv))) d acc)
  = false.
Proof.
  revert acc. induction d as [|kv rest IH]; intros acc H.
  - destruct H as [H | H]; [congruence | exact H].
  - cbn [fold_left]. apply IH. right. rewrite all_ws_app.
    unfold section_marker. cbn. apply andb_false_r.
Qed.

(** X25. A registry entry whose text is undefined makes
    [generateDraftsDocx] throw before any file is produced. The Download
    button of the draft panel lets that exception out;
    [handleDownloadContract], given such a drafts object, turns it into
    an alert with the error's message and produces no file either. *)
Theorem undefined_body_blocks_export d k pocTitle st fc :
  In (k, None) d ->
  generateDraftsDocx d pocTitle = ([], Throw undefined_split)
  /\ (drafts st = d -> downloadDrafts st = ([], Throw undefined_split))
  /\ (fc_sections fc = None -> fc_drafts fc = Some d ->
      handleDownloadContract (Some fc)
      = ([Alert ("Error downloading contract. Please try again. Error details: "
                 +:+ message undefined_split)], Ok tt)).
Proof.
  intros Hin. pose proof (flatMap_sections_undefined d k Hin) as Hf.
  assert (Hg : forall t, generateDraftsDocx d t = ([], Throw undefined_split)).
  { intros t. unfold generateDraftsDocx. rewrite Hf. reflexivity. }
  split; [apply Hg|]. split.
  - intros <-. apply Hg.
  - intros Hs Hd. unfold handleDownloadContract, formattedContent_of, contractDrafts_of.
    rewrite Hs, Hd.
    assert (Hb : Js.truthy
                   (Js.trim
                      (fold_left
                         (fun acc kv =>
                            acc +:+ section_marker (fst kv) (Js.to_string (snd kv))) d ""))
                 = true).
    { destruct (Js.trim _) eqn:E; [|reflexivity].
      apply trim_blank in E. rewrite drafts_content_not_blank in E; [discriminate E|].
      left. intros ->. destruct Hin. }
    rewrite Hb. cbn [negb]. rewrite Hg. reflexivity.
Qed.

Lemma undefined_body_blocks_export_witness :
  let d := [("Intro", Some "Text one."); ("Terms", None)] in
  let st := with_drafts d store_drafting in
  In ("Terms", None) d
  /\ downloadDrafts st = ([], Throw undefined_split)
  /\ handleDownloadContract
       (Some {| fc_title := None; fc_contract_title := None; fc_sections := None;
                fc_drafts := Some d |})
     = ([Alert "Error downloading contract. Please try again. Error details: Cannot read properties of undefined (reading 'split')"],
        Ok tt).
Proof.
  intros d st.
  assert (Hin : In ("Terms", None) d) by (right; left; reflexivity).
  destruct (undefined_body_blocks_export d "Terms" None st
              {| fc_title := None; fc_contract_title := None; fc_sections := None;
                 fc_drafts := Some d |} Hin) as (_ & H1 & H2).
  split; [exact Hin|]. split; [exact (H1 eq_refl) | exact (H2 eq_refl eq_refl)].
Defined.

(** ** Paragraphs of a section *)

Lemma split_nl_runs_facts s :
  forall b,
    Forall (fun p => no_line_feed p = true) (Js.split_nl_runs b s)
    /\ glue (Js.split_nl_runs b s) = remove_line_feeds s.
Proof.
  induction s as [|c r IH]; intros b.
  - split; [repeat constructor | reflexivity].
  - cbn [Js.split_nl_runs remove_line_feeds]. destruct (Js.is_nl c) eqn:Hc.
    + destruct b.
      * apply IH.
      * destruct (IH true) as [Hf Hg]. split; [constructor; [reflexivity | exact Hf]|].
        exact Hg.
    + destruct (IH false) as [Hf Hg].
      destruct (Js.split_nl_runs false r) as [|x xs].
      * split; [repeat constructor; cbn; rewrite Hc; reflexivity|].
        rewrite <- Hg. reflexivity.
      * inversion Hf as [|? ? Hx Hxs]; subst.
        split; [constructor; [cbn; rewrite Hc, Hx; reflexivity | exact Hxs]|].
        rewrite <- Hg. reflexivity.
Qed.

Lemma glue_filter_truthy l : glue (List.filter Js.truthy l) = glue l.
Proof.
  induction l as [|x xs IH]; [reflexivity|].
  cbn [List.filter]. destruct x as [|c r]; cbn [Js.truthy Js.is_empty negb].
  - exact IH.
  - cbn [glue fold_right]. fold (glue (List.filter Js.truthy xs)). fold (glue xs).
    rewrite IH. reflexivity.
Qed.

Lemma Forall_filter_truthy (P : string -> Prop) l :
  Forall P l -> Forall (fun p => p <> "" /\ P p) (List.filter Js.truthy l).
Proof.
  induction 1 as [|x xs Hx Hxs IH]; [constructor|].
  cbn [List.filter]. destruct x as [|c r]; cbn [Js.truthy Js.is_empty negb]; [exact IH|].
  constructor; [split; [discriminate | exact Hx] | exact IH].
Qed.

(** X26. The paragraphs [createFormattedSection] makes of a body lose
    nothing but line feeds: no paragraph is empty, none contains a line
    feed, and put end to end they are the body with its line feeds
    removed. A blank body without line feeds is therefore kept whole,
    as one paragraph of white space. *)
Theorem paragraphs_keep_the_text title body :
  exists paragraphs,
    createFormattedSection title (Some body)
    = ([], Ok (Heading title :: List.map Para paragraphs))
    /\ Forall (fun p => p <> "" /\ no_line_feed p = true) paragraphs
    /\ glue paragraphs = remove_line_feeds body.
Proof.
  exists (Js.chunks body). split; [reflexivity|].
  destruct (split_nl_runs_facts body false) as [Hf Hg]. unfold Js.chunks. split.
  - apply Forall_filter_truthy, Hf.
  - rewrite glue_filter_truthy. exact Hg.
Qed.

(** ** The progress indicator *)

Lemma findIndex_active_at before cur behind activeSection :
  (forall s, In s before -> strict_eq (stepName s) activeSection = false) ->
  strict_eq (stepName cur) activeSection = true ->
  findIndex_active (before ++ cur :: behind) activeSection = Some (List.length before).
Proof.
  intros Hb Hc. induction before as [|x l IH]; cbn [app findIndex_active List.length].
  - rewrite Hc. reflexivity.
  - rewrite (Hb x (or_introl eq_refl)), IH; [reflexivity|].
    intros s Hs. apply Hb. right. exact Hs.
Qed.

Lemma strict_eq_heading step h :
  Js.truthy h = true ->
  strict_eq (stepName step) (Some h) = String.eqb (section_heading step) h.
Proof.
  intros Hh. unfold stepName. destruct (Js.truthy (section_heading step)) eqn:E.
  - reflexivity.
  - cbn. destruct (section_heading step); [|discriminate E].
    destruct h; [discriminate Hh | reflexivity].
Qed.

(** X27. While drafting is under way and the headings of the sections
    are distinct, the progress indicator splits the steps at the active
    section: the steps before it are "completed", the active one is
    "current" and the ones after it are "upcoming". *)
Theorem getStepStatus_splits_at_active steps before cur behind i step :
  steps = before ++ cur :: behind ->
  Js.truthy (section_heading cur) = true ->
  (forall a b x y, steps !! a = Some x -> steps !! b = Some y ->
                   section_heading x = section_heading y -> a = b) ->
  steps !! i = Some step ->
  getStepStatus steps (Some (section_heading cur)) false step i
  = if (i <? List.length before)%nat then "completed"
    else if (i =? List.length before)%nat then "current"
    else "upcoming".
Proof.
  intros -> Hh Hinj Hi.
  assert (Hk : (before ++ cur :: behind) !! List.length before = Some cur).
  { rewrite lookup_app_r by lia. rewrite Nat.sub_diag. reflexivity. }
  assert (Hfind : findIndex_active (before ++ cur :: behind) (Some (section_heading cur))
                  = Some (List.length before)).
  { apply findIndex_active_at.
    - intros s Hs. rewrite strict_eq_heading by exact Hh.
      apply String.eqb_neq. intros Heq.
      apply list_elem_of_In, list_elem_of_lookup in Hs as [a Ha].
      assert (Ha' : (before ++ cur :: behind) !! a = Some s)
        by (rewrite lookup_app_l; [exact Ha | eapply lookup_lt_Some; exact Ha]).
      pose proof (Hinj _ _ _ _ Ha' Hk Heq) as Hab.
      apply lookup_lt_Some in Ha. lia.
    - rewrite strict_eq_heading by exact Hh. apply String.eqb_refl. }
  unfold getStepStatus. rewrite Hfind, strict_eq_heading by exact Hh.
  cbn [Js.truthy_value]. rewrite Hh. cbn [andb]. rewrite orb_false_r.
  destruct (String.eqb (section_heading step) (section_heading cur)) eqn:E.
  - apply String.eqb_eq in E. pose proof (Hinj _ _ _ _ Hi Hk E) as ->.
    rewrite Nat.ltb_irrefl, Nat.eqb_refl. reflexivity.
  - destruct (i <? List.length before)%nat eqn:Hlt; [reflexivity|].
    destruct (i =? List.length before)%nat eqn:Heq; [|reflexivity].
    apply Nat.eqb_eq in Heq. subst i. rewrite Hk in Hi. injection Hi as <-.
    rewrite String.eqb_refl in E. discriminate E.
Qed.

Lemma getStepStatus_splits_at_active_witness :
  let terms := {| section_heading := "Terms"; section_purpose := "Obligations";
                  subsections :=
                    [ {| subsection_heading := "Duration";
                         subsection_definition := "How long it runs" |};
                      {| subsection_heading := "Termination";
                         subsection_definition := "How it ends" |} ] |} in
  let intro := {| section_heading := "Intro"; section_purpose := "Context";
                  subsections := [ {| subsection_heading := "Purpose";
                                      subsection_definition := "Why the contract exists" |} ] |} in
  sample_sections = [intro] ++ terms :: []
  /\ getStepStatus sample_sections (Some "Terms") false intro 0 = "completed"
  /\ getStepStatus sample_sections (Some "Terms") false terms 1 = "current".
Proof.
  intros terms intro.
  assert (H0 : sample_sections = [intro] ++ terms :: []) by reflexivity.
  assert (Hh : Js.truthy (section_heading terms) = true) by reflexivity.
  assert (Hinj : forall a b x y, sample_sections !! a = Some x ->
                   sample_sections !! b = Some y ->
                   section_heading x = section_heading y -> a = b).
  { intros [|[|a]] [|[|b]] x y Hx Hy; cbn in Hx, Hy; try discriminate;
      injection Hx as <-; injection Hy as <-; cbn; intros E;
      try reflexivity; discriminate E. }
  split; [exact H0|]. split.
  - exact (getStepStatus_splits_at_active sample_sections [intro] terms [] 0 intro
             H0 Hh Hinj eq_refl).
  - exact (getStepStatus_splits_at_active sample_sections [intro] terms [] 1 terms
             H0 Hh Hinj eq_refl).
Defined.

(** ** The catalog text *)

Lemma append_nil_r (s : string) : s +:+ "" = s.
Proof.
  induction s as [|c r IH]; [reflexivity|].
  change (String c (r +:+ "") = String c r). rewrite IH. reflexivity.
Qed.

Lemma append_assoc (a b c : string) : (a +:+ b) +:+ c = a +:+ (b +:+ c).
Proof.
  induction a as [|x r IH]; [reflexivity|].
  change (String x ((r +:+ b) +:+ c) = String x (r +:+ (b +:+ c))).
  rewrite IH. reflexivity.
Qed.

Lemma fullDraft_of_glue (d : Drafts) acc :
  fold_left
    (fun fullDraft kv =>
       if has_text (snd kv)
       then fullDraft +:+ section_marker (fst kv) (Js.to_string (snd kv))
       else fullDraft)
    d acc
  = acc +:+ glue (List.map (fun kv => section_marker (fst kv) (Js.to_string (snd kv)))
                    (List.filter (fun kv => has_text (snd kv)) d)).
Proof.
  revert acc. induction d as [|kv rest IH]; intros acc; cbn [fold_left List.filter].
  - cbn [List.map glue fold_right]. rewrite append_nil_r. reflexivity.
  - rewrite IH. destruct (has_text (snd kv)); [|reflexivity].
    cbn [List.map glue fold_right]. rewrite append_assoc. reflexivity.
Qed.

Lemma section_marker_not_blank h b : Js.all_ws (section_marker h b) = false.
Proof. reflexivity. Qed.

Lemma truthy_trim_not_blank s : Js.all_ws s = false -> Js.truthy (Js.trim s) = true.
Proof.
  intros H. destruct (Js.trim s) eqn:E; [|reflexivity].
  apply trim_blank in E. congruence.
Qed.

Lemma userResponses_truthy history :
  Forall (fun text => Js.truthy text = true) (userResponses_of history).
Proof.
  unfold userResponses_of. apply Forall_forall. intros x Hx.
  apply list_elem_of_In, filter_In in Hx as [_ Hx].
  apply andb_true_iff in Hx as [Hx _]. exact Hx.
Qed.

Lemma concat_truthy sep x xs :
  Js.truthy x = true -> Js.truthy (String.concat sep (x :: xs)) = true.
Proof.
  intros Hx. destruct x as [|c r]; [discriminate Hx|].
  destruct xs; reflexivity.
Qed.

Lemma or_else_first_truthy a b d :
  Js.truthy d = true -> Js.truthy (Js.or_else (first_truthy a b) d) = true.
Proof.
  intros Hd. unfold first_truthy, Js.or_else.
  destruct a as [s|]; cbn [Js.truthy_value].
  - destruct (Js.truthy s) eqn:E; [rewrite E; exact E|].
    destruct b as [t|]; [|exact Hd]. destruct (Js.truthy t) eqn:F; [exact F | exact Hd].
  - destruct b as [t|]; [|exact Hd]. destruct (Js.truthy t) eqn:F; [exact F | exact Hd].
Qed.

(** X28. The text [generateFullDraft] gives for a stored record is
    never the empty string, whatever the record holds: section drafts,
    a conversation history, an idea text, or nothing at all. *)
Theorem generateFullDraft_never_empty idea :
  Js.truthy (generateFullDraft idea) = true.
Proof.
  unfold generateFullDraft.
  set (allDrafts := match idea_all_drafts idea with Some d => d | None => _ end).
  set (history := match idea_conversation_history idea with Some h => h | None => _ end).
  destruct ((0 <? List.length (Js.keys allDrafts))%nat
            && Js.truthy (Js.trim (fullDraft_of allDrafts))) eqn:E1.
  - apply andb_true_iff in E1 as [_ E1].
    destruct (fullDraft_of allDrafts); [discriminate E1 | reflexivity].
  - destruct ((0 <? List.length history)%nat
              && (0 <? List.length (userResponses_of history))%nat) eqn:E2.
    + apply andb_true_iff in E2 as [_ E2].
      pose proof (userResponses_truthy history) as Hall.
      destruct (userResponses_of history) as [|x xs]; [discriminate E2|].
      apply concat_truthy. inversion Hall; assumption.
    + apply or_else_first_truthy. reflexivity.
Qed.

(** X29. As soon as one entry of [all_drafts] holds text, the catalog
    text is made of the section drafts alone: one marker per entry with
    text, in the order of the entries, the blank entries left out, and
    neither the [drafts] property, the conversation history nor the
    idea text is looked at. *)
Theorem generateFullDraft_from_drafts idea (d : Drafts) k v :
  idea_all_drafts idea = Some d ->
  In (k, v) d ->
  has_text v = true ->
  generateFullDraft idea
  = glue (List.map (fun kv => section_marker (fst kv) (Js.to_string (snd kv)))
            (List.filter (fun kv => has_text (snd kv)) d)).
Proof.
  intros Hd Hin Hv. unfold generateFullDraft. rewrite Hd.
  unfold fullDraft_of. rewrite fullDraft_of_glue.
  change ("" +:+ ?s) with s.
  set (kept := List.filter (fun kv => has_text (snd kv)) d).
  assert (Hk : In (k, v) kept) by (apply filter_In; split; [exact Hin | exact Hv]).
  assert (Hlen : (0 <? List.length (Js.keys d))%nat = true).
  { destruct d; [destruct Hin | reflexivity]. }
  rewrite Hlen. cbn [andb].
  destruct kept as [|kv rest]; [destruct Hk|].
  cbn [List.map glue fold_right].
  rewrite truthy_trim_not_blank; [reflexivity|].
  reflexivity.
Qed.

Lemma generateFullDraft_from_drafts_witness :
  generateFullDraft sample_idea = section_marker "Intro" "Hello".
Proof.
  rewrite (generateFullDraft_from_drafts sample_idea
             [("Intro", Some "Hello"); ("Terms", Some "  "); ("Annex", None)]
             "Intro" (Some "Hello") eq_refl (or_introl eq_refl) eq_refl).
  reflexivity.
Defined.
